(** * special-resource-operator: version resolution, node correlation,
      ordered reconciliation and the preflight gate

    A shallow embedding of

    - [pkg/upgrade/upgrade.go]                  (module [upgrade]),
    - [pkg/preflight/preflight.go]              (module [preflight]),
    - [controllers/specialresourcemodule.go]    (module [controllers]),

    together with the properties of these functions.  Go functions that
    return [(value, err)] are embedded as functions into pairs whose second
    component is an [option error] ([None] is Go's [nil] error): several of
    the functions below return a meaningful value next to a non-nil error.
    Calls into collaborators that live outside the embedded files (the
    registry, the Helm wrapper, the Kubernetes client, the HTTP client) are
    the fields of a record that stands for the receiver of the methods;
    they act on an abstract world, and every such call is recorded in a
    call log carried by the state.

    The file has four parts: the embedding, worked instances of the
    collaborators, the properties, and the properties at the instances. *)

From Stdlib Require Import Ascii.
From stdpp Require Import gmap strings list pretty sorting.

Local Open Scope string_scope.
Local Open Scope stdpp_scope.
Local Open Scope list_scope.

(** ** Go errors *)

(** [metav1.StatusReason], as far as [k8serrors.IsNotFound] looks at it. *)
Inductive StatusReason :=
| StatusReasonNotFound
| StatusReasonUnknown.

(** An [error] value: either one built by [errors.New] / [fmt.Errorf], or
    an API status error carrying its reason. *)
Inductive error :=
| errorString (msg : string)
| StatusError (reason : StatusReason) (msg : string).

(** ** Package [strings] *)

(** [strings.Contains(s, substr)]: [substr] occurs somewhere within [s]. *)
Fixpoint Contains (s substr : string) : bool :=
  String.prefix substr s ||
  match s with
  | EmptyString => false
  | String _ s' => Contains s' substr
  end.

(** [strings.HasSuffix(s, suffix)]. *)
Fixpoint HasSuffix (s suffix : string) : bool :=
  String.eqb s suffix ||
  match s with
  | EmptyString => false
  | String _ s' => HasSuffix s' suffix
  end.

(** ** Package [registry]: the toolkit metadata record *)

Module registry.

(** Modelled from the spec: [registry.DriverToolkitEntry], declared in
    [pkg/registry] outside the embedded files, is the spec's ToolkitRelease
    with its four fields [kernelFullVersion], [rtKernelFullVersion],
    [osVersion] and [imageURL], those the callers read and write. *)
Record DriverToolkitEntry := {
  ImageURL : string;
  KernelFullVersion : string;
  RTKernelFullVersion : string;
  OSVersion : string
}.

Definition zero : DriverToolkitEntry :=
  {| ImageURL := ""; KernelFullVersion := ""; RTKernelFullVersion := "";
     OSVersion := "" |}.

End registry.

(** ** Package [exit] *)

Module exit.

(** What a call of a function that may terminate the process yields. *)
Inductive Result (A : Type) :=
| Returned (a : A)
| Exited (err : error).
Arguments Returned {A} a.
Arguments Exited {A} err.

(** Modelled from the spec: [exit.OnError] of package [pkg/exit], whose
    source is not part of the embedded files.  The spec calls the
    mismatch it guards "fatal - abort": a non-nil error terminates the
    process, a nil error lets the caller go on with [k]. *)
Definition OnError {A} (err : option error) (k : Result A) : Result A :=
  match err with
  | Some e => Exited e
  | None => k
  end.

End exit.

(** ** [pkg/upgrade/upgrade.go] *)

Module upgrade.

Import exit.

Record NodeVersion := {
  OSVersion : string;
  OSMajor : string;
  OSMajorMinor : string;
  ClusterVersion : string;
  DriverToolkit : registry.DriverToolkitEntry
}.

Section WithArch.

(** [runtime.GOARCH], a constant of the build. *)
Variable GOARCH : string.

(** Lines 98-101 of [UpdateInfo]: the canonical architecture name. *)
Definition runningArch : string :=
  if String.eqb GOARCH "amd64" then "x86_64" else GOARCH.

(** Lines 95 and 102-106 of [UpdateInfo]: the entry whose two kernel
    strings are used as keys. *)
Definition normalizeArch (dtk : registry.DriverToolkitEntry)
  : registry.DriverToolkitEntry :=
  if negb (Contains (registry.KernelFullVersion dtk) runningArch) then
    {| registry.ImageURL := registry.ImageURL dtk;
       registry.KernelFullVersion :=
         registry.KernelFullVersion dtk +:+ "." +:+ runningArch;
       registry.RTKernelFullVersion :=
         registry.RTKernelFullVersion dtk +:+ "." +:+ runningArch;
       registry.OSVersion := registry.OSVersion dtk |}
  else dtk.

Definition withImageURL (dtk : registry.DriverToolkitEntry) (imageURL : string)
  : registry.DriverToolkitEntry :=
  {| registry.ImageURL := imageURL;
     registry.KernelFullVersion := registry.KernelFullVersion dtk;
     registry.RTKernelFullVersion := registry.RTKernelFullVersion dtk;
     registry.OSVersion := registry.OSVersion dtk |}.

(** [nodeVersion.OSVersion = dtk.OSVersion; nodeVersion.DriverToolkit = dtk]. *)
Definition enrich (nodeVersion : NodeVersion) (dtk : registry.DriverToolkitEntry)
  : NodeVersion :=
  {| OSVersion := registry.OSVersion dtk;
     OSMajor := OSMajor nodeVersion;
     OSMajorMinor := OSMajorMinor nodeVersion;
     ClusterVersion := ClusterVersion nodeVersion;
     DriverToolkit := dtk |}.

Definition mismatch (osNFD osDTK : string) : error :=
  errorString ("OSVersion mismatch NFD: " +:+ osNFD +:+ " vs. DTK: " +:+ osDTK).

Definition notRunning (dtk : registry.DriverToolkitEntry) : error :=
  errorString ("DTK kernel not found running in the cluster. kernelFullVersion: "
               +:+ registry.KernelFullVersion dtk
               +:+ ". rtKernelFullVersion: "
               +:+ registry.RTKernelFullVersion dtk).

(** One of the two [if _, ok := info[key]; ok] blocks (lines 110-125
    and 127-142); [k] is the code that follows the block. *)
Definition matchKey (info : gmap string NodeVersion) (key osDTK : string)
    (dtk : registry.DriverToolkitEntry) (match_ : bool)
    (k : gmap string NodeVersion -> bool -> Result (gmap string NodeVersion * option error))
  : Result (gmap string NodeVersion * option error) :=
  match info !! key with
  | Some nodeVersion =>
      let osNFD := OSVersion nodeVersion in
      let rest := k (<[key := enrich nodeVersion dtk]> info) true in
      if negb (String.eqb osNFD osDTK)
      then OnError (Some (mismatch osNFD osDTK)) rest
      else rest
  | None => k info match_
  end.

(** [UpdateInfo] (lines 94-149).  A Go map is a reference: the map
    returned with a nil error is the caller's [info], updated in place;
    [∅] stands for the nil map returned next to the error. *)
Definition UpdateInfo (info : gmap string NodeVersion)
    (dtk : registry.DriverToolkitEntry) (imageURL : string)
  : Result (gmap string NodeVersion * option error) :=
  let dtk := withImageURL dtk imageURL in
  let osDTK := registry.OSVersion dtk in
  let dtk := normalizeArch dtk in
  matchKey info (registry.KernelFullVersion dtk) osDTK dtk false (fun info match_ =>
  matchKey info (registry.RTKernelFullVersion dtk) osDTK dtk match_ (fun info match_ =>
  if negb match_ then Returned (∅, Some (notRunning dtk))
  else Returned (info, None))).

(** The spec's reading of the normalization: a suffix test on each of
    the two strings. *)
Definition spec_appendArch (v : string) : string :=
  if HasSuffix v runningArch then v else v +:+ "." +:+ runningArch.

Definition spec_normalizeArch (dtk : registry.DriverToolkitEntry)
  : registry.DriverToolkitEntry :=
  {| registry.ImageURL := registry.ImageURL dtk;
     registry.KernelFullVersion := spec_appendArch (registry.KernelFullVersion dtk);
     registry.RTKernelFullVersion := spec_appendArch (registry.RTKernelFullVersion dtk);
     registry.OSVersion := registry.OSVersion dtk |}.

End WithArch.

End upgrade.

(** ** [pkg/preflight/preflight.go] *)

Module preflight.

(** [k8sv1.DaemonSet], along the path [ds.Spec.Template.Spec.Containers]. *)
Record Container := { Name : string; Image : string }.
Record PodSpec := { Containers : list Container }.
Record PodTemplateSpec := { PodTemplateSpec_Spec : PodSpec }.
Record DaemonSetSpec := { Template : PodTemplateSpec }.
Record DaemonSet := { Spec : DaemonSetSpec }.

(** What the receiver [p *preflight] reaches the outside through:
    [p.resourceAPI], the unstructured converter and [p.registryAPI].
    [World] is whatever the registry calls read and change;
    [Unstructured], [Layer] and [Auth] stand for
    [unstructured.Unstructured], [v1.Layer] and the registry's
    authentication option. *)
Record Collaborators := {
  World : Type;
  Unstructured : Type;
  Layer : Type;
  Auth : Type;
  (** [obj.GetKind()] *)
  GetKind : Unstructured -> string;
  (** [p.resourceAPI.GetObjectsFromYAML]: the [Items] of the list, and
      the error *)
  GetObjectsFromYAML : string -> list Unstructured * option error;
  (** [k8sruntime.DefaultUnstructuredConverter.FromUnstructured(obj.Object, &ds)] *)
  FromUnstructured : Unstructured -> DaemonSet * option error;
  GetLayersDigests :
    string -> World -> (string * list string * Auth * option error) * World;
  GetLayerByDigest :
    string -> string -> Auth -> World -> (Layer * option error) * World;
  ExtractToolkitRelease :
    Layer -> World -> (registry.DriverToolkitEntry * option error) * World
}.

Section WithCollaborators.

Variable p : Collaborators.

(** The registry calls a run has made, oldest first. *)
Inductive Call :=
| CallGetLayersDigests (image : string)
| CallGetLayerByDigest (repo digest : string)
| CallExtractToolkitRelease (layer : Layer p).

Record State := { world : World p; calls : list Call }.

Definition getLayersDigests (image : string) (s : State)
  : (string * list string * Auth p * option error) * State :=
  let '(r, w) := GetLayersDigests p image (world s) in
  (r, {| world := w; calls := calls s ++ [CallGetLayersDigests image] |}).

Definition getLayerByDigest (repo digest : string) (auth : Auth p) (s : State)
  : (Layer p * option error) * State :=
  let '(r, w) := GetLayerByDigest p repo digest auth (world s) in
  (r, {| world := w; calls := calls s ++ [CallGetLayerByDigest repo digest] |}).

Definition extractToolkitRelease (layer : Layer p) (s : State)
  : (registry.DriverToolkitEntry * option error) * State :=
  let '(r, w) := ExtractToolkitRelease p layer (world s) in
  (r, {| world := w; calls := calls s ++ [CallExtractToolkitRelease layer] |}).

(** The loop of lines 186-204, [for i := len(digests) - 1; i >= 0; i--],
    over the digests still to visit, most recent first; its [[]] case is
    the code after the loop (lines 206-207). *)
Fixpoint layersLoop (repo : string) (auth : Auth p) (upgradeKernelVersion : string)
    (digests : list string) (s : State) : (bool * option error) * State :=
  match digests with
  | [] => ((false, None), s)
  | digest :: digests =>
      let '((layer, err), s) := getLayerByDigest repo digest auth s in
      match err with
      | Some _ => ((false, None), s)
      | None =>
          let '((dtk, err), s) := extractToolkitRelease layer s in
          match err with
          | Some _ => layersLoop repo auth upgradeKernelVersion digests s
          | None =>
              if negb (String.eqb (registry.KernelFullVersion dtk) upgradeKernelVersion)
              then ((false, None), s)
              else ((true, None), s)
          end
      end
  end.

Definition noContainer : error :=
  errorString "invalid daemonset, no container  data present".

(** [ds.Spec.Template.Spec.Containers] of the converted object. *)
Definition dsContainers (obj : Unstructured p) : list Container :=
  Containers (PodTemplateSpec_Spec (Template (Spec (fst (FromUnstructured p obj))))).

(** [daemonSetPreflightCheck] (lines 165-208). *)
Definition daemonSetPreflightCheck (obj : Unstructured p) (upgradeKernelVersion : string)
    (s : State) : (bool * option error) * State :=
  let '(ds, err) := FromUnstructured p obj in
  match err with
  | Some e => ((false, Some e), s)
  | None =>
      match Containers (PodTemplateSpec_Spec (Template (Spec ds))) with
      | [] => ((false, Some noContainer), s)
      | container0 :: _ =>
          let image := Image container0 in
          let '((repo, digests, auth, err), s) := getLayersDigests image s in
          match err with
          | Some _ => ((false, None), s)
          | None => layersLoop repo auth upgradeKernelVersion (reverse digests) s
          end
      end
  end.

(** The loop of lines 147-161 of [handleYAMLsCheck]; both [break]s leave
    it for [return verified, nil]. *)
Fixpoint itemsLoop (upgradeKernelVersion : string) (verified : bool)
    (items : list (Unstructured p)) (s : State) : (bool * option error) * State :=
  match items with
  | [] => ((verified, None), s)
  | obj :: items =>
      let kind := GetKind p obj in
      if String.eqb kind "BuildConfig" then ((verified, None), s)
      else if String.eqb kind "DaemonSet" then
        let '((verified, err), s) := daemonSetPreflightCheck obj upgradeKernelVersion s in
        match err with
        | Some e => ((false, Some e), s)
        | None => ((verified, None), s)
        end
      else itemsLoop upgradeKernelVersion verified items s
  end.

(** [handleYAMLsCheck] (lines 140-163). *)
Definition handleYAMLsCheck (yamlsList upgradeKernelVersion : string) (s : State)
  : (bool * option error) * State :=
  let '(items, err) := GetObjectsFromYAML p yamlsList in
  match err with
  | Some e => ((false, Some e), s)
  | None => itemsLoop upgradeKernelVersion true items s
  end.

(** A rendered object of kind BuildConfig or DaemonSet: the loop of
    [handleYAMLsCheck] stops at the first of them. *)
Definition isGoverning (obj : Unstructured p) : bool :=
  String.eqb (GetKind p obj) "BuildConfig" || String.eqb (GetKind p obj) "DaemonSet".

Definition hasKind (kind : string) (items : list (Unstructured p)) : bool :=
  existsb (fun obj => String.eqb (GetKind p obj) kind) items.

End WithCollaborators.

Arguments CallGetLayersDigests {p} image.
Arguments CallGetLayerByDigest {p} repo digest.
Arguments CallExtractToolkitRelease {p} layer.
Arguments world {p} s.
Arguments calls {p} s.
Arguments Build_State {p} world calls.

End preflight.

(** ** Package [regexp], as far as the pattern [semver] needs it *)

Module regexp.

(** Regular expressions over bytes. *)
Inductive re :=
| Void
| Eps
| Class (p : ascii -> bool)
| Cat (r1 r2 : re)
| Alt (r1 r2 : re)
| Star (r : re).

(** [(?:r)?] and [r+]. *)
Definition Opt (r : re) : re := Alt r Eps.
Definition Plus (r : re) : re := Cat r (Star r).

Fixpoint nullable (r : re) : bool :=
  match r with
  | Void => false
  | Eps => true
  | Class _ => false
  | Cat r1 r2 => nullable r1 && nullable r2
  | Alt r1 r2 => nullable r1 || nullable r2
  | Star _ => true
  end.

(** The derivative of [r] by the byte [c]. *)
Fixpoint deriv (c : ascii) (r : re) : re :=
  match r with
  | Void => Void
  | Eps => Void
  | Class p => if p c then Eps else Void
  | Cat r1 r2 =>
      if nullable r1 then Alt (Cat (deriv c r1) r2) (deriv c r2)
      else Cat (deriv c r1) r2
  | Alt r1 r2 => Alt (deriv c r1) (deriv c r2)
  | Star r => Cat (deriv c r) (Star r)
  end.

(** Whether the whole of [s] is in the language of [r]: the pattern below
    is anchored by [^] and [$]. *)
Fixpoint matches (r : re) (s : string) : bool :=
  match s with
  | EmptyString => nullable r
  | String c s' => matches (deriv c r) s'
  end.

Definition between (lo hi c : ascii) : bool :=
  (nat_of_ascii lo <=? nat_of_ascii c)%nat && (nat_of_ascii c <=? nat_of_ascii hi)%nat.

Definition chr (a : ascii) : re := Class (Ascii.eqb a).
(** [\d], [[1-9]], [[a-zA-Z-]] and [[0-9a-zA-Z-]]. *)
Definition digit : re := Class (between "0" "9").
Definition digit19 : re := Class (between "1" "9").
Definition letterHyphen : re :=
  Class (fun c => between "a" "z" c || between "A" "Z" c || Ascii.eqb "-" c).
Definition alnumHyphen : re :=
  Class (fun c => between "0" "9" c || between "a" "z" c || between "A" "Z" c
                  || Ascii.eqb "-" c).

(** [s] up to the first [c], and what follows that [c] if there is one. *)
Fixpoint cut (c : ascii) (s : string) : string * option string :=
  match s with
  | EmptyString => (EmptyString, None)
  | String a s' =>
      if Ascii.eqb a c then (EmptyString, Some s')
      else let '(l, r) := cut c s' in (String a l, r)
  end.

End regexp.

(** ** [controllers/specialresourcemodule.go] *)

Module controllers.

Import regexp.

(** [0|[1-9]\d*], the pre-release identifier and the build identifier. *)
Definition numericId : re := Alt (chr "0") (Cat digit19 (Star digit)).
Definition prereleaseId : re :=
  Alt (chr "0")
      (Alt (Cat digit19 (Star digit))
           (Cat (Star digit) (Cat letterHyphen (Star alnumHyphen)))).
Definition buildId : re := Plus alnumHyphen.

(** The constant [semver] (line 67), group by group. *)
Definition semver : re :=
  Cat numericId (Cat (chr ".") (Cat numericId (Cat (chr ".") (Cat numericId
    (Cat (Opt (Cat (chr "-")
                   (Cat prereleaseId (Star (Cat (chr ".") prereleaseId)))))
         (Opt (Cat (chr "+")
                   (Cat buildId (Star (Cat (chr ".") buildId)))))))))).

(** [versionRegex.MatchString]. *)
Definition MatchString (s : string) : bool := matches semver s.

(** [versionRegex.FindStringSubmatch]: nil when [s] does not match,
    otherwise the match and the five groups (an optional group that took
    no part is the empty string).  The groups are read off the matched
    string: the build metadata follows the first [+], the pre-release the
    first [-] before it, and the three numbers are separated by dots. *)
Definition FindStringSubmatch (s : string) : list string :=
  if MatchString s then
    let '(core_pre, build) := cut "+" s in
    let '(core, prerelease) := cut "-" core_pre in
    let '(major, rest) := cut "." core in
    let '(minor, patch) := cut "." (default "" rest) in
    [s; major; minor; default "" patch; default "" prerelease; default "" build]
  else [].

(** The first two groups of a match: the major and the minor version. *)
Definition majorOf (entry : string) : string := default "" (FindStringSubmatch entry !! 1%nat).
Definition minorOf (entry : string) : string := default "" (FindStringSubmatch entry !! 2%nat).

Record OCPVersionInfo := {
  KernelVersion : string;
  RTKernelVersion : string;
  DTKImage : string;
  OSVersion : string;
  OSImage : string;
  ClusterVersion : string
}.

(** [OCPVersionInfo{}], the zero value. *)
Definition zeroOCPVersionInfo : OCPVersionInfo :=
  {| KernelVersion := ""; RTKernelVersion := ""; DTKImage := ""; OSVersion := "";
     OSImage := ""; ClusterVersion := "" |}.

(** [ResourceGroupName], declared in a file of the package that is not
    embedded: the eight fields [getMetadata] fills. *)
Record ResourceGroupName := {
  DriverBuild : string;
  DriverContainer : string;
  RuntimeEnablement : string;
  DevicePlugin : string;
  DeviceMonitoring : string;
  DeviceDashboard : string;
  DeviceFeatureDiscovery : string;
  CSIDriver : string
}.

(** Modelled from the spec: [srov1beta1.SpecialResourceModuleSelector] and
    [srov1beta1.SpecialResourceModuleWatch], declared in [api/v1beta1]
    outside the embedded files, follow the spec's watch specification
    schema: kind, apiVersion, namespace, name, path, and selectors with
    path, value and exclude. *)
Record SpecialResourceModuleSelector := {
  Selector_Path : string;
  Selector_Value : string;
  Selector_Exclude : bool
}.

Record SpecialResourceModuleWatch := {
  Watch_Kind : string;
  Watch_ApiVersion : string;
  Watch_Namespace : string;
  Watch_Name : string;
  Watch_Path : string;
  Watch_Selector : list SpecialResourceModuleSelector
}.

(** Modelled from the spec: [srov1beta1.SpecialResourceModuleVersionStatus],
    declared in [api/v1beta1], is the spec's persisted status of one
    version: the reconciled units and the completion flag. *)
Record SpecialResourceModuleVersionStatus := {
  ReconciledTemplates : list string;
  Complete : bool
}.

(** A node of the upgrade graph (lines 203-206). *)
Record versionNode := { Version : string; Payload : string }.

(** [chart.File]. *)
Record File := { File_Name : string; File_Data : string }.

(** A Go map index expression [v, ok := m[k]]: the zero value and
    [false] when the key is absent. *)
Definition index {V} (zero : V) (m : gmap string V) (k : string) : V * bool :=
  match m !! k with
  | Some v => (v, true)
  | None => (zero, false)
  end.

(** [sort.Slice(stateYAMLS, func(i, j) { return stateYAMLS[i].Name <
    stateYAMLS[j].Name })]; Go compares strings byte by byte.  The sort
    is by insertion: [sort.Slice] promises no order among files of equal
    name, insertion keeps theirs. *)
Fixpoint insertByName (f : File) (l : list File) : list File :=
  match l with
  | [] => [f]
  | g :: l' =>
      if String.ltb (File_Name g) (File_Name f) || String.eqb (File_Name g) (File_Name f)
      then g :: insertByName f l'
      else f :: l
  end.

Definition sortByName (l : list File) : list File :=
  foldr insertByName [] l.

(** The order of the names, byte by byte. *)
Definition nameLe (f g : File) : Prop := String.leb (File_Name f) (File_Name g) = true.

(** [len(s) == 0] on a string. *)
Definition isEmpty (s : string) : bool := Nat.eqb (String.length s) 0.

(** The loop of lines 249-254: the payload of the first node with the
    full version and a payload, or [imageURL] as it was. *)
Fixpoint scanNodes (full : string) (nodes : list versionNode) (imageURL : string)
  : string :=
  match nodes with
  | [] => imageURL
  | version :: nodes =>
      if String.eqb (Version version) full && negb (isEmpty (Payload version))
      then Payload version
      else scanNodes full nodes imageURL
  end.

(** [u.String()] after line 223: [url.Values.Encode] leaves letters,
    digits, [-] and [.] as they are. *)
Definition graphURL (stream major minor : string) : string :=
  "https://api.openshift.com/api/upgrades_info/v1/graph?channel="
  +:+ stream +:+ "-" +:+ major +:+ "." +:+ minor.

Definition streams : list string := ["fast"; "stable"; "candidate"].

(** [*http.Response]: the status code and what [ioutil.ReadAll] makes of
    the body. *)
Record Response (Data : Type) := {
  StatusCode : Z;
  Body : Data;
  ReadErr : option error
}.
Arguments StatusCode {Data} r.
Arguments Body {Data} r.
Arguments ReadErr {Data} r.

(** [chart.Chart]. *)
Record Chart (ChartMeta Values : Type) := {
  Chart_Metadata : ChartMeta;
  Chart_Templates : list File;
  Chart_Values : Values
}.
Arguments Chart_Metadata {ChartMeta Values} c.
Arguments Chart_Templates {ChartMeta Values} c.
Arguments Chart_Values {ChartMeta Values} c.

Record SpecialResourceModuleSpec (HelmChart Values : Type) := {
  Spec_Chart : HelmChart;
  Spec_Namespace : string;
  Spec_Set : Values;
  Spec_Watch : list SpecialResourceModuleWatch
}.
Arguments Spec_Chart {HelmChart Values} s.
Arguments Spec_Namespace {HelmChart Values} s.
Arguments Spec_Set {HelmChart Values} s.
Arguments Spec_Watch {HelmChart Values} s.

(** Modelled from the spec: [srov1beta1.SpecialResourceModule], declared in
    [api/v1beta1], with what the functions below read: the name, the spec
    (chart, namespace, value set, watch list) and [Status.Versions], here
    [Status_Versions], the spec's map from cluster version to status. *)
Record SpecialResourceModule (HelmChart Values : Type) := {
  SRM_Name : string;
  SRM_Spec : SpecialResourceModuleSpec HelmChart Values;
  Status_Versions : gmap string SpecialResourceModuleVersionStatus
}.
Arguments SRM_Name {HelmChart Values} s.
Arguments SRM_Spec {HelmChart Values} s.
Arguments Status_Versions {HelmChart Values} s.

Record Metadata (HelmChart Values : Type) := {
  OperatingSystem : string;
  KernelFullVersion : string;
  RTKernelFullVersion : string;
  DriverToolkitImage : string;
  Metadata_ClusterVersion : string;
  OSImageURL : string;
  GroupName : ResourceGroupName;
  Metadata_SpecialResourceModule : SpecialResourceModule HelmChart Values
}.
Arguments OperatingSystem {HelmChart Values} m.
Arguments KernelFullVersion {HelmChart Values} m.
Arguments RTKernelFullVersion {HelmChart Values} m.
Arguments DriverToolkitImage {HelmChart Values} m.
Arguments Metadata_ClusterVersion {HelmChart Values} m.
Arguments OSImageURL {HelmChart Values} m.
Arguments GroupName {HelmChart Values} m.
Arguments Metadata_SpecialResourceModule {HelmChart Values} m.

(** [k8serrors.IsNotFound]. *)
Definition IsNotFound (err : error) : bool :=
  match err with
  | StatusError StatusReasonNotFound _ => true
  | _ => false
  end.

(** The receiver [r *SpecialResourceModuleReconciler], as far as the
    functions below use it, with the package-level functions they call.
    [World] is whatever the cluster, the registry, the upgrade-graph
    service and Helm read and change.  [Unstructured], [Layer], [Data],
    [HelmChart], [ChartMeta] and [Values] stand for
    [unstructured.Unstructured], [v1.Layer], the bytes of a response
    body, the chart reference of a module's spec, the part of a
    [chart.Chart] besides its templates and values, and
    [map[string]interface{}]. *)
Record SpecialResourceModuleReconciler := {
  World : Type;
  Unstructured : Type;
  Layer : Type;
  Data : Type;
  HelmChart : Type;
  ChartMeta : Type;
  Values : Type;
  (** [r.KubeClient] *)
  KubeClient_List :
    string -> string -> World -> (list Unstructured * option error) * World;
  KubeClient_Get :
    string -> string -> string -> string -> World -> (Unstructured * option error) * World;
  KubeClient_StatusUpdate :
    SpecialResourceModule HelmChart Values -> World -> option error * World;
  (** [watcher.GetJSONPath] *)
  GetJSONPath : string -> Unstructured -> list string * option error;
  (** [r.Registry] *)
  Registry_LastLayer : string -> World -> (Layer * option error) * World;
  Registry_ReleaseManifests : Layer -> World -> (string * string * option error) * World;
  Registry_ExtractToolkitRelease :
    Layer -> World -> (registry.DriverToolkitEntry * option error) * World;
  (** [http.NewRequest("GET", url, nil)], [client.Do] and
      [json.Unmarshal] into a [versionGraph] *)
  http_NewRequest : string -> option error;
  client_Do : string -> World -> (Response Data * option error) * World;
  json_Unmarshal : Data -> list versionNode * option error;
  (** [r.Helmer], [r.Assets.ValidStateName], [chartutil.CoalesceValues]
      and [runtime.DefaultUnstructuredConverter.ToUnstructured] *)
  Helmer_Load : HelmChart -> World -> (Chart ChartMeta Values * option error) * World;
  Helmer_Run :
    Chart ChartMeta Values -> Values -> SpecialResourceModule HelmChart Values ->
    string -> string -> string -> string -> bool -> World -> option error * World;
  ValidStateName : string -> bool;
  CoalesceValues : Chart ChartMeta Values -> Values -> Values * option error;
  ToUnstructured : Metadata HelmChart Values -> Values * option error
}.

Section WithReconciler.

Variable r : SpecialResourceModuleReconciler.

Abbreviation chart := (Chart (ChartMeta r) (Values r)).
Abbreviation module := (SpecialResourceModule (HelmChart r) (Values r)).
Abbreviation metadata := (Metadata (HelmChart r) (Values r)).

(** The calls into the collaborators a run has made, oldest first. *)
Inductive Call :=
| CallList (kind apiVersion : string)
| CallGet (kind apiVersion namespace name : string)
| CallStatusUpdate (resource : module)
| CallLastLayer (image : string)
| CallReleaseManifests (layer : Layer r)
| CallExtractToolkitRelease (layer : Layer r)
| CallDo (url : string)
| CallLoad (c : HelmChart r)
| CallRun (step : chart) (values : Values r).

Record State := { world : World r; calls : list Call }.

(** Computations over the state; [None] is a run-time panic. *)
Definition M (A : Type) : Type := State -> option (A * State).

Definition ret {A} (a : A) : M A := fun s => Some (a, s).

Definition bind {A B} (m : M A) (k : A -> M B) : M B :=
  fun s =>
    match m s with
    | Some (a, s') => k a s'
    | None => None
    end.

Definition panic {A} : M A := fun _ => None.

(** A call into a collaborator: it acts on the world and is logged. *)
Definition call {A} (c : Call) (f : World r -> A * World r) : M A :=
  fun s =>
    let '(a, w) := f (world s) in
    Some (a, {| world := w; calls := calls s ++ [c] |}).

Notation "'let*' x := m 'in' k" := (bind m (fun x => k))
  (at level 10, x pattern, m at level 100, k at level 200).

(** [getAllResources] (lines 125-144). *)
Definition getAllResources (kind apiVersion namespace name : string)
  : M (list (Unstructured r) * option error) :=
  if String.eqb name "" then
    let* (items, err) := call (CallList kind apiVersion) (KubeClient_List r kind apiVersion) in
    match err with
    | Some e => ret ([], Some e)
    | None => ret (items, None)
    end
  else
    let* (obj, err) := call (CallGet kind apiVersion namespace name)
                            (KubeClient_Get r kind apiVersion namespace name) in
    ret ([obj], err).

(** The two inner loops of [filterResources] (lines 152-170), for one
    selector. *)
Fixpoint filterObjs (selector : SpecialResourceModuleSelector)
    (objs filteredObjects : list (Unstructured r))
  : list (Unstructured r) * option error :=
  match objs with
  | [] => (filteredObjects, None)
  | obj :: objs =>
      let '(candidates, err) := GetJSONPath r (Selector_Path selector) obj in
      match err with
      | Some e => (filteredObjects, Some e)
      | None =>
          let found := existsb (fun candidate => String.eqb candidate (Selector_Value selector))
                               candidates in
          let found := if Selector_Exclude selector then negb found else found in
          filterObjs selector objs
            (if found then filteredObjects ++ [obj] else filteredObjects)
      end
  end.

(** The loop over the selectors (line 151). *)
Fixpoint filterSelectors (selectors : list SpecialResourceModuleSelector)
    (objs filteredObjects : list (Unstructured r))
  : list (Unstructured r) * option error :=
  match selectors with
  | [] => (filteredObjects, None)
  | selector :: selectors =>
      let '(filteredObjects, err) := filterObjs selector objs filteredObjects in
      match err with
      | Some e => (filteredObjects, Some e)
      | None => filterSelectors selectors objs filteredObjects
      end
  end.

(** [filterResources] (lines 146-173). *)
Definition filterResources (selectors : list SpecialResourceModuleSelector)
    (objs : list (Unstructured r)) : list (Unstructured r) * option error :=
  match selectors with
  | [] => (objs, None)
  | _ => filterSelectors selectors objs []
  end.

(** [getVersionInfoFromImage] (lines 175-200). *)
Definition getVersionInfoFromImage (entry : string) : M (OCPVersionInfo * option error) :=
  let* (manifestsLastLayer, err) := call (CallLastLayer entry) (Registry_LastLayer r entry) in
  match err with
  | Some e => ret (zeroOCPVersionInfo, Some e)
  | None =>
  let* (version, dtkURL, err) :=
    call (CallReleaseManifests manifestsLastLayer)
         (Registry_ReleaseManifests r manifestsLastLayer) in
  match err with
  | Some e => ret (zeroOCPVersionInfo, Some e)
  | None =>
  let* (dtkLastLayer, err) := call (CallLastLayer dtkURL) (Registry_LastLayer r dtkURL) in
  match err with
  | Some e => ret (zeroOCPVersionInfo, Some e)
  | None =>
  let* (dtkEntry, err) :=
    call (CallExtractToolkitRelease dtkLastLayer)
         (Registry_ExtractToolkitRelease r dtkLastLayer) in
  match err with
  | Some e => ret (zeroOCPVersionInfo, Some e)
  | None =>
      ret ({| KernelVersion := registry.KernelFullVersion dtkEntry;
              RTKernelVersion := registry.RTKernelFullVersion dtkEntry;
              DTKImage := dtkURL;
              OSVersion := registry.OSVersion dtkEntry;
              OSImage := entry;
              ClusterVersion := version |}, None)
  end end end end.

Definition statusCodeError (code : Z) : error :=
  errorString ("unable to retrieve image. status code " +:+ pretty code).

(** The request of one stream and the decoding of its answer: the
    closure of lines 224-257 up to the scan of the nodes. *)
Definition fetchGraph (url : string) : M (list versionNode * option error) :=
  match http_NewRequest r url with
  | Some e => ret ([], Some e)
  | None =>
      let* (resp, err) := call (CallDo url) (client_Do r url) in
      match err with
      | Some e => ret ([], Some e)
      | None =>
          if negb (Z.eqb (StatusCode resp) 200) then
            ret ([], Some (statusCodeError (StatusCode resp)))
          else
            match ReadErr resp with
            | Some e => ret ([], Some e)
            | None =>
                let '(versions, err) := json_Unmarshal r (Body resp) in
                match err with
                | Some e => ret ([], Some e)
                | None => ret (versions, None)
                end
            end
      end
  end.

(** The loop over the streams (lines 222-260); [imageURL] is the
    variable the closure assigns.  An erroring stream makes the
    function return [("", err)]. *)
Fixpoint streamsLoop (full major minor : string) (streams : list string)
    (imageURL : string) : M (string * option error) :=
  match streams with
  | [] => ret (imageURL, None)
  | stream :: streams =>
      let* (versions, err) := fetchGraph (graphURL stream major minor) in
      match err with
      | Some e => ret ("", Some e)
      | None => streamsLoop full major minor streams (scanNodes full versions imageURL)
      end
  end.

Definition versionNotFound (entry : string) : error :=
  errorString ("version " +:+ entry +:+ " not found").

(** [getImageFromVersion] (lines 202-266).  [res[0], res[1], res[2]]
    panic when [entry] does not match. *)
Definition getImageFromVersion (entry : string) : M (string * option error) :=
  let res := FindStringSubmatch entry in
  match res !! 0%nat, res !! 1%nat, res !! 2%nat with
  | Some full, Some major, Some minor =>
      let* (imageURL, err) := streamsLoop full major minor streams "" in
      match err with
      | Some e => ret ("", Some e)
      | None =>
          if isEmpty imageURL then ret (imageURL, Some (versionNotFound entry))
          else ret (imageURL, None)
      end
  | _, _, _ => panic
  end.

Definition formatError (element : string) : error :=
  errorString ("format error. " +:+ element +:+ " is not a valid image/version").

(** Lines 293-306: the image an extracted string stands for. *)
Definition imageOf (element : string) : M (string * option error) :=
  if MatchString element then
    let* (tmp, err) := getImageFromVersion element in
    match err with
    | Some e => ret ("", Some e)
    | None => ret (tmp, None)
    end
  else if Contains element "@" || Contains element ":" then ret (element, None)
  else ret ("", Some (formatError element)).

(** The three nested loops of [getOCPVersions].  Each yields the
    version map and no error when it runs to its end, and [(∅, err)],
    the [return nil, err] of the function, when it is left early. *)
Fixpoint elementsLoop (versionMap : gmap string OCPVersionInfo) (result : list string)
  : M (gmap string OCPVersionInfo * option error) :=
  match result with
  | [] => ret (versionMap, None)
  | element :: result =>
      let* (image, err) := imageOf element in
      match err with
      | Some e => ret (∅, Some e)
      | None =>
          let* (info, err) := getVersionInfoFromImage image in
          match err with
          | Some e => ret (∅, Some e)
          | None => elementsLoop (<[ClusterVersion info := info]> versionMap) result
          end
      end
  end.

Fixpoint objsLoop (path : string) (versionMap : gmap string OCPVersionInfo)
    (objs : list (Unstructured r)) : M (gmap string OCPVersionInfo * option error) :=
  match objs with
  | [] => ret (versionMap, None)
  | obj :: objs =>
      let '(result, err) := GetJSONPath r path obj in
      match err with
      | Some _ => objsLoop path versionMap objs
      | None =>
          let* (versionMap, err) := elementsLoop versionMap result in
          match err with
          | Some e => ret (∅, Some e)
          | None => objsLoop path versionMap objs
          end
      end
  end.

Fixpoint watchLoop (versionMap : gmap string OCPVersionInfo)
    (watchList : list SpecialResourceModuleWatch)
  : M (gmap string OCPVersionInfo * option error) :=
  match watchList with
  | [] => ret (versionMap, None)
  | resource :: watchList =>
      let* (objs, err) :=
        getAllResources (Watch_Kind resource) (Watch_ApiVersion resource)
                        (Watch_Namespace resource) (Watch_Name resource) in
      match err with
      | Some e =>
          if IsNotFound e then watchLoop versionMap watchList
          else ret (∅, Some e)
      | None =>
          let '(objs, err) := filterResources (Watch_Selector resource) objs in
          match err with
          | Some e => ret (∅, Some e)
          | None =>
              let* (versionMap, err) := objsLoop (Watch_Path resource) versionMap objs in
              match err with
              | Some e => ret (∅, Some e)
              | None => watchLoop versionMap watchList
              end
          end
      end
  end.

(** [getOCPVersions] (lines 268-316). *)
Definition getOCPVersions (watchList : list SpecialResourceModuleWatch)
  : M (gmap string OCPVersionInfo * option error) :=
  watchLoop ∅ watchList.

(** [getMetadata] (lines 339-359). *)
Definition getMetadata (srm : module) (info : OCPVersionInfo) : metadata :=
  {| OperatingSystem := OSVersion info;
     KernelFullVersion := KernelVersion info;
     RTKernelFullVersion := RTKernelVersion info;
     DriverToolkitImage := DTKImage info;
     Metadata_ClusterVersion := ClusterVersion info;
     OSImageURL := OSImage info;
     GroupName :=
       {| DriverBuild := "driver-build";
          DriverContainer := "driver-container";
          RuntimeEnablement := "runtime-enablement";
          DevicePlugin := "device-plugin";
          DeviceMonitoring := "device-monitoring";
          DeviceDashboard := "device-dashboard";
          DeviceFeatureDiscovery := "device-feature-discovery";
          CSIDriver := "csi-driver" |};
     Metadata_SpecialResourceModule := srm |}.

(** Lines 362-365: [reconciledInputMap]. *)
Definition reconciledInputMap (reconciledInput : list string) : gmap string bool :=
  foldl (fun m element => <[element := true]> m) ∅ reconciledInput.

(** The loop of lines 375-385: the state templates still to apply, the
    names of those already reconciled, and the other templates. *)
Fixpoint partitionTemplates (inputMap : gmap string bool) (templates : list File)
    (stateYAMLS : list File) (result : list string) (nostate : list File)
  : list File * list string * list File :=
  match templates with
  | [] => (stateYAMLS, result, nostate)
  | template :: templates =>
      if ValidStateName r (File_Name template) then
        if negb (snd (index false inputMap (File_Name template))) then
          partitionTemplates inputMap templates (stateYAMLS ++ [template]) result nostate
        else
          partitionTemplates inputMap templates stateYAMLS
                             (result ++ [File_Name template]) nostate
      else
        partitionTemplates inputMap templates stateYAMLS result (nostate ++ [template])
  end.

Definition withTemplates (c : chart) (templates : list File) : chart :=
  {| Chart_Metadata := Chart_Metadata c; Chart_Templates := templates;
     Chart_Values := Chart_Values c |}.

Definition withValues (c : chart) (values : Values r) : chart :=
  {| Chart_Metadata := Chart_Metadata c; Chart_Templates := Chart_Templates c;
     Chart_Values := values |}.

(** [step] of lines 392-393: the templates without state and the one
    state template. *)
Definition stepOf (nostate : chart) (stateYAML : File) : chart :=
  withTemplates nostate (Chart_Templates nostate ++ [stateYAML]).

(** The body of the loop of lines 391-420 up to and including
    [r.Helmer.Run]: the error of the step, if any. *)
Definition applyState (srm : module) (md : metadata) (nostate : chart) (stateYAML : File)
  : M (option error) :=
  let step := stepOf nostate stateYAML in
  let '(values, err) := CoalesceValues r step (Spec_Set (SRM_Spec srm)) in
  let step := withValues step values in
  match err with
  | Some e => ret (Some e)
  | None =>
      let '(rinfo, err) := ToUnstructured r md in
      match err with
      | Some e => ret (Some e)
      | None =>
          let '(values, err) := CoalesceValues r step rinfo in
          let step := withValues step values in
          match err with
          | Some e => ret (Some e)
          | None =>
              call (CallRun step (Chart_Values step))
                   (Helmer_Run r step (Chart_Values step) srm (SRM_Name srm)
                               (Spec_Namespace (SRM_Spec srm))
                               (KernelFullVersion md) (OperatingSystem md) false)
          end
      end
  end.

(** The loop of lines 391-420 and the [return nil, nil] after it. *)
Fixpoint statesLoop (srm : module) (md : metadata) (nostate : chart)
    (stateYAMLS : list File) (result : list string) : M (list string * option error) :=
  match stateYAMLS with
  | [] => ret ([], None)
  | stateYAML :: stateYAMLS =>
      let* err := applyState srm md nostate stateYAML in
      match err with
      | Some e => ret (result, Some e)
      | None => statesLoop srm md nostate stateYAMLS (result ++ [File_Name stateYAML])
      end
  end.

(** [reconcileChart] (lines 361-422). *)
Definition reconcileChart (srm : module) (md : metadata) (reconciledInput : list string)
  : M (list string * option error) :=
  let inputMap := reconciledInputMap reconciledInput in
  let result := [] in
  let* (c, err) := call (CallLoad (Spec_Chart (SRM_Spec srm)))
                        (Helmer_Load r (Spec_Chart (SRM_Spec srm))) in
  match err with
  | Some e => ret (result, Some e)
  | None =>
      let '(stateYAMLS, result, templates) :=
        partitionTemplates inputMap (Chart_Templates c) [] result [] in
      let nostate := withTemplates c templates in
      let stateYAMLS := sortByName stateYAMLS in
      statesLoop srm md nostate stateYAMLS result
  end.

Definition withVersions (resource : module)
    (versions : gmap string SpecialResourceModuleVersionStatus) : module :=
  {| SRM_Name := SRM_Name resource; SRM_Spec := SRM_Spec resource;
     Status_Versions := versions |}.

(** The loop of lines 508-527 of [Reconcile]: the resource with its
    status as it stands, and the error [Reconcile] returns. *)
Fixpoint updateLoop (resource : module) (updateList : list OCPVersionInfo)
  : M (module * option error) :=
  match updateList with
  | [] => ret (resource, None)
  | element :: updateList =>
      let md := getMetadata resource element in
      let '(data, ok) :=
        index {| ReconciledTemplates := []; Complete := false |}
              (Status_Versions resource) (ClusterVersion element) in
      let inputList := if ok then ReconciledTemplates data else [] in
      let* (reconciledList, err) := reconcileChart resource md inputList in
      let resource :=
        withVersions resource
          (<[ClusterVersion element :=
               {| ReconciledTemplates := reconciledList;
                  Complete := Nat.eqb (length reconciledList) 0 |}]>
             (Status_Versions resource)) in
      let* e := call (CallStatusUpdate resource) (KubeClient_StatusUpdate r resource) in
      match e with
      | Some e => ret (resource, Some e)
      | None =>
          match err with
          | Some err => ret (resource, Some err)
          | None => updateLoop resource updateList
          end
      end
  end.

(** Whether a logged call is an apply of the templating collaborator. *)
Definition isRun (c : Call) : bool :=
  match c with
  | CallRun _ _ => true
  | _ => false
  end.

(** The state unit a logged apply rendered: the template [reconcileChart]
    appended to the templates without state. *)
Definition runName (c : Call) : option string :=
  match c with
  | CallRun step _ => File_Name <$> last (Chart_Templates step)
  | _ => None
  end.

Definition runNames (l : list Call) : list string := omap runName l.

(** [applied srm md nostate done s s']: from [s], the steps for the state
    templates [done], in this order, all succeed and leave [s']. *)
Inductive applied (srm : module) (md : metadata) (nostate : chart)
  : list File -> State -> State -> Prop :=
| applied_nil s : applied srm md nostate [] s s
| applied_cons stateYAML stateYAMLS s s1 s2 :
    applyState srm md nostate stateYAML s = Some (None, s1) ->
    applied srm md nostate stateYAMLS s1 s2 ->
    applied srm md nostate (stateYAML :: stateYAMLS) s s2.

(** Whether the supplied list names the template: the test of line 377. *)
Definition listed (reconciledInput : list string) (f : File) : bool :=
  snd (index false (reconciledInputMap reconciledInput) (File_Name f)).

(** The requests of the three channels, in the order of the loop. *)
Definition channelCalls (entry : string) : list Call :=
  (fun stream => CallDo (graphURL stream (majorOf entry) (minorOf entry))) <$> streams.

(** The state units of the bundle: the names of its templates that
    are valid state names. *)
Definition stateNames (c : chart) : list string :=
  File_Name <$> List.filter (fun f => ValidStateName r (File_Name f)) (Chart_Templates c).

End WithReconciler.

Arguments CallList {r} kind apiVersion.
Arguments CallGet {r} kind apiVersion namespace name.
Arguments CallStatusUpdate {r} resource.
Arguments CallLastLayer {r} image.
Arguments CallReleaseManifests {r} layer.
Arguments CallExtractToolkitRelease {r} layer.
Arguments CallDo {r} url.
Arguments CallLoad {r} c.
Arguments CallRun {r} step values.
Arguments world {r} s.
Arguments calls {r} s.
Arguments Build_State {r} world calls.
Arguments ret {r A} a.
Arguments bind {r A B} m k.
Arguments panic {r A}.
Arguments call {r A} c f.

(** The loop of lines 493-499 of [Reconcile], over the keys of
    [resource.Status.Versions] in the order [range] visits them. *)
Fixpoint statusLoop (clusterVersions : gmap string OCPVersionInfo)
    (resourceVersions : list string) (updateList deleteList : list OCPVersionInfo)
  : list OCPVersionInfo * list OCPVersionInfo :=
  match resourceVersions with
  | [] => (updateList, deleteList)
  | resourceVersion :: resourceVersions =>
      let '(data, ok) := index zeroOCPVersionInfo clusterVersions resourceVersion in
      if ok then statusLoop clusterVersions resourceVersions (updateList ++ [data]) deleteList
      else statusLoop clusterVersions resourceVersions updateList (deleteList ++ [data])
  end.

(** Lines 491-502: [updateList] and [deleteList].  [statusOrder] and
    [clusterOrder] are the orders in which the two [range] loops visit
    the keys of [resource.Status.Versions] and the values of
    [clusterVersions]; Go leaves them unspecified. *)
Definition versionLists (clusterVersions : gmap string OCPVersionInfo)
    (statusOrder : list string) (clusterOrder : list OCPVersionInfo)
  : list OCPVersionInfo * list OCPVersionInfo :=
  let '(updateList, deleteList) := statusLoop clusterVersions statusOrder [] [] in
  (updateList ++ clusterOrder, deleteList).

(** The spec's reading of the delete candidates: the versions that have
    a status and are absent from the resolved map. *)
Definition spec_deleteCandidates (clusterVersions : gmap string OCPVersionInfo)
    (statusOrder : list string) : list string :=
  List.filter (fun v => negb (snd (index zeroOCPVersionInfo clusterVersions v))) statusOrder.

(** A node that carries the version looked for and a payload (line 250). *)
Definition isMatch (full : string) (version : versionNode) : bool :=
  String.eqb (Version version) full && negb (isEmpty (Payload version)).

(** The spec's reading of [getImageFromVersion]'s choice: the first
    channel, in trial order, one of whose nodes matches decides. *)
Fixpoint spec_firstMatch (full : string) (graphs : list (list versionNode)) : string :=
  match graphs with
  | [] => ""
  | nodes :: graphs =>
      let found := scanNodes full nodes "" in
      if isEmpty found then spec_firstMatch full graphs else found
  end.

(** What the loop over the streams leaves in [imageURL]: every channel
    with a matching node overwrites what an earlier one left. *)
Definition lastMatch (full : string) (graphs : list (list versionNode)) (imageURL : string)
  : string :=
  foldl (fun imageURL nodes => scanNodes full nodes imageURL) imageURL graphs.

End controllers.

(** ** Package [warn] *)

Module warn.

(** Modelled from the spec: [warn.OnError] of package [pkg/warn], whose
    source is not part of the embedded files.  The spec calls the
    condition it reports "recoverable": the error is reported and the
    caller goes on with [k]. *)
Definition OnError {A} (err : option error) (k : A) : A := k.

End warn.

(** ** [pkg/upgrade/upgrade.go]: the node map and the release history *)

Module upgrade_cluster.

Import exit upgrade.



(** The node labels [NodeVersionInfo] reads. *)
Definition kernelFullLabel : string := "feature.node.kubernetes.io/kernel-version.full".
Definition versionIDLabel : string := "feature.node.kubernetes.io/system-os_release.VERSION_ID".
Definition rhelVersionLabel : string :=
  "feature.node.kubernetes.io/system-os_release.RHEL_VERSION".
Definition osIDLabel : string := "feature.node.kubernetes.io/system-os_release.ID".
Definition versionIDMajorLabel : string :=
  "feature.node.kubernetes.io/system-os_release.VERSION_ID.major".
Definition versionIDMinorLabel : string :=
  "feature.node.kubernetes.io/system-os_release.VERSION_ID.minor".

Definition labelNotFound (short : string) : error :=
  errorString ("Label " +:+ short +:+ " not found is NFD running? Check node labels").

(** [labels[key]]: the empty string when the key is absent. *)
Definition label (labels : gmap string string) (key : string) : string :=
  default "" (labels !! key).

(** The record of line 84, for a node without the RHEL label. *)
Definition fromOSRelease (labels : gmap string string) (clusterVersion : string)
  : NodeVersion :=
  let nodeOSrel := label labels osIDLabel in
  let nodeOSmaj := label labels versionIDMajorLabel in
  let nodeOSmin := label labels versionIDMinorLabel in
  {| OSVersion := nodeOSmaj +:+ "." +:+ nodeOSmin;
     OSMajor := nodeOSrel +:+ nodeOSmaj;
     OSMajorMinor := nodeOSrel +:+ nodeOSmaj +:+ "." +:+ nodeOSmin;
     ClusterVersion := clusterVersion;
     DriverToolkit := registry.zero |}.

(** The record of line 87; [rhelMaj] is [rhelVersion[0:1]]. *)
Definition fromRHEL (rhelVersion rhelMaj clusterVersion : string) : NodeVersion :=
  {| OSVersion := rhelVersion;
     OSMajor := "rhel" +:+ rhelMaj;
     OSMajorMinor := "rhel" +:+ rhelVersion;
     ClusterVersion := clusterVersion;
     DriverToolkit := registry.zero |}.

(** The loop of lines 60-89 over the labels of the nodes; [None] is the
    run-time panic of [rhelVersion[0:1]] on an empty string, [∅] the nil
    map returned with an error. *)
Fixpoint nodesLoop (nodes : list (gmap string string)) (info : gmap string NodeVersion)
  : option (gmap string NodeVersion * option error) :=
  match nodes with
  | [] => Some (info, None)
  | labels :: nodes =>
      match labels !! kernelFullLabel with
      | None => Some (∅, Some (labelNotFound kernelFullLabel))
      | Some kernelFullVersion =>
          match labels !! versionIDLabel with
          | None => Some (∅, Some (labelNotFound versionIDLabel))
          | Some clusterVersion =>
              match labels !! rhelVersionLabel with
              | None =>
                  nodesLoop nodes
                    (<[kernelFullVersion := fromOSRelease labels clusterVersion]> info)
              | Some rhelVersion =>
                  match rhelVersion with
                  | EmptyString => None
                  | String c _ =>
                      let rhelMaj := String c EmptyString in
                      nodesLoop nodes
                        (<[kernelFullVersion := fromRHEL rhelVersion rhelMaj clusterVersion]>
                           info)
                  end
              end
          end
      end
  end.

(** [NodeVersionInfo] (lines 53-92); [nodes] are the labels of
    [cache.Node.List.Items]. *)
Definition NodeVersionInfo (nodes : list (gmap string string))
  : option (gmap string NodeVersion * option error) :=
  nodesLoop nodes ∅.

(** The record [NodeVersionInfo] stores for a node, when it stores one. *)
Definition recordOf (labels : gmap string string) : option NodeVersion :=
  match labels !! versionIDLabel with
  | None => None
  | Some clusterVersion =>
      match labels !! rhelVersionLabel with
      | None => Some (fromOSRelease labels clusterVersion)
      | Some EmptyString => None
      | Some (String c rest) =>
          Some (fromRHEL (String c rest) (String c EmptyString) clusterVersion)
      end
  end.

(** A node that [NodeVersionInfo] can classify: it carries the two
    required labels and no empty RHEL label. *)
Definition classifiable (labels : gmap string string) : bool :=
  match labels !! kernelFullLabel, recordOf labels with
  | Some _, Some _ => true
  | _, _ => false
  end.

(** What the loop body of [NodeVersionInfo] does to the map for one
    classifiable node. *)
Definition store (info : gmap string NodeVersion) (labels : gmap string string)
  : gmap string NodeVersion :=
  match labels !! kernelFullLabel, recordOf labels with
  | Some kernelFullVersion, Some nodeVersion => <[kernelFullVersion := nodeVersion]> info
  | _, _ => info
  end.

(** The package-level functions of [pkg/registry] and [pkg/cluster] that
    [upgrade.go] calls.  A [v1.Layer] may be nil. *)
Record Packages := {
  World : Type;
  Layer : Type;
  isNil : Layer -> bool;
  LastLayer : string -> World -> Layer * World;
  ReleaseManifests : Layer -> World -> (string * string) * World;
  ExtractToolkitRelease :
    Layer -> World -> (registry.DriverToolkitEntry * option error) * World;
  VersionHistory : World -> (list string * option error) * World
}.

Section WithPackages.

Variable GOARCH : string.
Variable c : Packages.

(** The calls a run has made, oldest first. *)
Inductive Call :=
| CallLastLayer (image : string)
| CallReleaseManifests (layer : Layer c)
| CallExtractToolkitRelease (layer : Layer c)
| CallVersionHistory.

Record State := { world : World c; calls : list Call }.

Definition lastLayer (image : string) (s : State) : Layer c * State :=
  let '(r, w) := LastLayer c image (world s) in
  (r, {| world := w; calls := calls s ++ [CallLastLayer image] |}).

Definition releaseManifests (layer : Layer c) (s : State) : (string * string) * State :=
  let '(r, w) := ReleaseManifests c layer (world s) in
  (r, {| world := w; calls := calls s ++ [CallReleaseManifests layer] |}).

Definition extractToolkitRelease (layer : Layer c) (s : State)
  : (registry.DriverToolkitEntry * option error) * State :=
  let '(r, w) := ExtractToolkitRelease c layer (world s) in
  (r, {| world := w; calls := calls s ++ [CallExtractToolkitRelease layer] |}).


Definition noVersion : error := errorString "Could not extract version from payload".
Definition noDTKImage : error :=
  errorString "No DTK image found, DTK cannot be used in a Build".
Definition noDTKLayer (imageURL : string) : error :=
  errorString ("Cannot extract last layer for DTK from: " +:+ imageURL).

(** The result of [UpdateInfo] with the state it is reached in. *)
Definition withState {A} (res : Result A) (s : State) : Result (A * State) :=
  match res with
  | Returned a => Returned (a, s)
  | Exited e => Exited e
  end.

(** [DriverToolkitVersion] (lines 151-189): the loop over the entries of
    the version history; its [[]] case is the [return info, nil] after the
    loop. *)
Fixpoint DriverToolkitVersion (entries : list string) (info : gmap string NodeVersion)
    (s : State) : Result ((gmap string NodeVersion * option error) * State) :=
  match entries with
  | [] => Returned ((info, None), s)
  | entry :: entries =>
      let '(layer, s) := lastLayer entry s in
      if isNil c layer then DriverToolkitVersion entries info s
      else
        let '((version, imageURL), s) := releaseManifests layer s in
        let afterVersion :=
          if String.eqb imageURL "" then
            warn.OnError (Some noDTKImage) (Returned ((info, None), s))
          else
            let '(layer, s) := lastLayer imageURL s in
            let afterLayer :=
              let '((dtk, err), s) := extractToolkitRelease layer s in
              OnError err (withState (UpdateInfo GOARCH info dtk imageURL) s) in
            if isNil c layer then OnError (Some (noDTKLayer imageURL)) afterLayer
            else afterLayer in
        if String.eqb version "" then OnError (Some noVersion) afterVersion
        else afterVersion
  end.


(** The history entries whose image yields no layer ([registry.LastLayer]
    returns nil), visited one after the other from [s] to [s']. *)
Inductive skipped : list string -> State -> State -> Prop :=
| skipped_nil s : skipped [] s s
| skipped_cons entry entries s s' :
    isNil c (fst (lastLayer entry s)) = true ->
    skipped entries (snd (lastLayer entry s)) s' ->
    skipped (entry :: entries) s s'.

End WithPackages.

Arguments CallLastLayer {c} image.
Arguments CallReleaseManifests {c} layer.
Arguments CallExtractToolkitRelease {c} layer.
Arguments CallVersionHistory {c}.
Arguments world {c} s.
Arguments calls {c} s.
Arguments Build_State {c} world calls.

End upgrade_cluster.

(** * Package [filter] ([pkg/filter/filter.go]) *)

Module filter.

(** What the predicates read of an object: [obj] is the [runtime.Object]
    (its kind, and its rendering by [fmt.Sprintf("%+v", obj)]), [meta] the
    [v1.Object] accessor of the same event.  [Labels] is [None] for the nil
    map. *)
Record OwnerReference := { Kind : string }.

Record Object := { ObjectKind : string; Printed : string }.

Record Meta := {
  Name : string;
  SelfLink : string;
  OwnerReferences : list OwnerReference;
  Labels : option (gmap string string);
  Generation : Z;
  ResourceVersion : string
}.

Definition owned : string := "specialresource.openshift.io/owned".

(** [IsSpecialResource] (lines 77-97). *)
Definition IsSpecialResource (obj : Object) (meta : Meta) : bool :=
  let kind := ObjectKind obj in
  if String.eqb kind "SpecialResource" then true
  else
    let selfLink := SelfLink meta in
    if Contains selfLink "/apis/sro.openshift.io/v" then true
    else if String.eqb kind "" then
      let objstr := Printed obj in
      if Contains objstr "sro.openshift.io/v" then true else false
    else false.

(** The loop of lines 103-107: [Some false] is the [return false] of its
    body, [None] falling out of the loop. *)
Fixpoint refsLoop (refs : list OwnerReference) : option bool :=
  match refs with
  | [] => None
  | ref :: refs => if String.eqb (Kind ref) "SpecialResource" then Some false else refsLoop refs
  end.

(** [NotOwned] (lines 99-116).  The label is looked up inside the branch
    for the nil map (line 110), in that nil map. *)
Definition NotOwned (obj : Meta) : bool :=
  let refs := OwnerReferences obj in
  match refsLoop refs with
  | Some b => b
  | None =>
      match Labels obj with
      | None =>
          let labels : gmap string string := ∅ in
          match labels !! owned with
          | Some _ => false
          | None => true
          end
      | Some _ => true
      end
  end.

(** The events of [sigs.k8s.io/controller-runtime/pkg/event]. *)
Record CreateEvent := { Create_Meta : Meta; Create_Object : Object }.
Record UpdateEvent := {
  MetaOld : Meta; ObjectOld : Object; MetaNew : Meta; ObjectNew : Object
}.
Record DeleteEvent := { Delete_Meta : Meta; Delete_Object : Object }.
Record GenericEvent := { Generic_Meta : Meta; Generic_Object : Object }.

(** [predicate.Funcs]; each function also leaves the package variable
    [Mode] behind, which it returns beside its answer. *)
Record Funcs := {
  CreateFunc : CreateEvent -> bool * string;
  UpdateFunc : UpdateEvent -> bool * string;
  DeleteFunc : DeleteEvent -> bool * string;
  GenericFunc : GenericEvent -> bool * string
}.

(** [Predicate] (lines 118-211). *)
Definition Predicate : Funcs :=
  {| CreateFunc := fun e =>
       let Mode := "CREATE" in
       if IsSpecialResource (Create_Object e) (Create_Meta e) then (true, Mode)
       else if NotOwned (Create_Meta e) then (false, Mode)
       else (false, Mode);
     UpdateFunc := fun e =>
       let Mode := "UPDATE" in
       if Z.eqb (Generation (MetaOld e)) (Generation (MetaNew e)) then (false, Mode)
       else if String.eqb (ResourceVersion (MetaOld e)) (ResourceVersion (MetaNew e))
       then (false, Mode)
       else if IsSpecialResource (ObjectNew e) (MetaOld e) then (true, Mode)
       else if NotOwned (MetaNew e) then (false, Mode)
       else (true, Mode);
     DeleteFunc := fun e =>
       let Mode := "DELETE" in
       if IsSpecialResource (Delete_Object e) (Delete_Meta e) then (true, Mode)
       else if NotOwned (Delete_Meta e) then (false, Mode)
       else (true, Mode);
     GenericFunc := fun e =>
       let Mode := "GENERIC" in
       if IsSpecialResource (Generic_Object e) (Generic_Meta e) then (true, Mode)
       else if NotOwned (Generic_Meta e) then (false, Mode)
       else (true, Mode) |}.

End filter.

(** * Package [preflight], the run as a whole ([pkg/preflight/preflight.go]) *)

Module preflight_api.

(** [srov1beta1.SpecialResource], with what [PreflightUpgradeCheck] reads. *)
Record SpecialResource (HelmChart Values : Type) := {
  SR_Name : string;
  SR_Namespace : string;
  Spec_Chart : HelmChart;
  Spec_Set : Values
}.
Arguments SR_Name {HelmChart Values} s.
Arguments SR_Namespace {HelmChart Values} s.
Arguments Spec_Chart {HelmChart Values} s.
Arguments Spec_Set {HelmChart Values} s.

(** [runtime.RuntimeInformation], with the fields [preflight.go] reads or
    writes. *)
Record RuntimeInformation (HelmChart Values : Type) := {
  OperatingSystemMajor : string;
  OperatingSystemMajorMinor : string;
  OperatingSystemDecimal : string;
  KernelFullVersion : string;
  KernelPatchVersion : string;
  DriverToolkitImage : string;
  ClusterVersion : string;
  ClusterVersionMajorMinor : string;
  ClusterUpgradeInfo : gmap string upgrade.NodeVersion;
  OSImageURL : string;
  RuntimeInformation_SpecialResource : SpecialResource HelmChart Values
}.
Arguments OperatingSystemMajor {HelmChart Values} r.
Arguments OperatingSystemMajorMinor {HelmChart Values} r.
Arguments OperatingSystemDecimal {HelmChart Values} r.
Arguments KernelFullVersion {HelmChart Values} r.
Arguments KernelPatchVersion {HelmChart Values} r.
Arguments DriverToolkitImage {HelmChart Values} r.
Arguments ClusterVersion {HelmChart Values} r.
Arguments ClusterVersionMajorMinor {HelmChart Values} r.
Arguments ClusterUpgradeInfo {HelmChart Values} r.
Arguments OSImageURL {HelmChart Values} r.
Arguments RuntimeInformation_SpecialResource {HelmChart Values} r.

(** The zero [upgrade.NodeVersion], which indexing [ClusterUpgradeInfo]
    gives for a missing key. *)
Definition zeroNodeVersion : upgrade.NodeVersion :=
  {| upgrade.OSVersion := ""; upgrade.OSMajor := ""; upgrade.OSMajorMinor := "";
     upgrade.ClusterVersion := ""; upgrade.DriverToolkit := registry.zero |}.

(** The receiver [p *preflight] in full: [base] is the part the image
    check uses, the rest are [p.helmerAPI], [chartutil.CoalesceValues], the
    unstructured converter, [p.metricsAPI], [p.runtimeAPI], the other
    methods of [p.registryAPI], [utils.ParseOSInfo], [p.clusterInfoAPI],
    [p.kernelAPI] and [p.clusterAPI].  The gauge value of
    [SetUpgradeAlert] is the integer it is called with, 0 or 1. *)
Record API := {
  base : preflight.Collaborators;
  HelmChart : Type;
  ChartMeta : Type;
  Values : Type;
  Helmer_Load :
    HelmChart -> preflight.World base ->
    (controllers.Chart ChartMeta Values * option error) * preflight.World base;
  Helmer_GetHelmOutput :
    controllers.Chart ChartMeta Values -> Values -> string -> preflight.World base ->
    (string * option error) * preflight.World base;
  CoalesceValues : controllers.Chart ChartMeta Values -> Values -> Values * option error;
  ToUnstructured : RuntimeInformation HelmChart Values -> Values * option error;
  SetUpgradeAlert : string -> Z -> preflight.World base -> preflight.World base;
  InitRuntimeInfo :
    preflight.World base -> RuntimeInformation HelmChart Values * preflight.World base;
  LastLayer :
    string -> preflight.World base ->
    (preflight.Layer base * option error) * preflight.World base;
  ReleaseImageMachineOSConfig :
    preflight.Layer base -> preflight.World base ->
    (string * option error) * preflight.World base;
  ReleaseManifests :
    preflight.Layer base -> preflight.World base ->
    (string * option error) * preflight.World base;
  ParseOSInfo : string -> string * string * string * option error;
  GetDTKData :
    string -> preflight.World base ->
    (registry.DriverToolkitEntry * option error) * preflight.World base;
  PatchVersion : string -> string * option error;
  Version : preflight.World base -> (string * string * option error) * preflight.World base;
  Cluster_OSImageURL : preflight.World base -> (string * option error) * preflight.World base
}.

(** The layers, from [s] to [s'], that are fetched and carry no toolkit
    metadata: lines 187-196 of [daemonSetPreflightCheck] reach [continue]
    for each of them. *)
Inductive blank (p : preflight.Collaborators) (repo : string) (auth : preflight.Auth p)
  : list string -> preflight.State p -> preflight.State p -> Prop :=
| blank_nil s : blank p repo auth [] s s
| blank_cons digest digests s layer s1 dtk e s2 s' :
    preflight.getLayerByDigest p repo digest auth s = ((layer, None), s1) ->
    preflight.extractToolkitRelease p layer s1 = ((dtk, Some e), s2) ->
    blank p repo auth digests s2 s' ->
    blank p repo auth (digest :: digests) s s'.

Section WithAPI.

Variable a : API.

Abbreviation World := (preflight.World (base a)).
Abbreviation Layer := (preflight.Layer (base a)).
Abbreviation chart := (controllers.Chart (ChartMeta a) (Values a)).
Abbreviation specialResource := (SpecialResource (HelmChart a) (Values a)).
Abbreviation runtimeInformation := (RuntimeInformation (HelmChart a) (Values a)).

(** The calls a run has made, oldest first; [Registry] holds those of the
    image check. *)
Inductive Event :=
| Registry (c : preflight.Call (base a))
| CallLoad (c : HelmChart a)
| CallGetHelmOutput (c : chart) (values : Values a) (namespace : string)
| CallSetUpgradeAlert (crName : string) (value : Z)
| CallInitRuntimeInfo
| CallLastLayer (image : string)
| CallReleaseImageMachineOSConfig (layer : Layer)
| CallReleaseManifests (layer : Layer)
| CallGetDTKData (imageURL : string)
| CallVersion
| CallOSImageURL.

Record State := { world : World; events : list Event }.

Definition call {A} (f : World -> A * World) (e : Event) (s : State) : A * State :=
  let '(r, w) := f (world s) in
  (r, {| world := w; events := events s ++ [e] |}).

(** [p.handleYAMLsCheck], on the state of the run. *)
Definition handleYAMLsCheck (yamlsList upgradeKernelVersion : string) (s : State)
  : (bool * option error) * State :=
  let '(r, s') :=
    preflight.handleYAMLsCheck (base a) yamlsList upgradeKernelVersion
      {| preflight.world := world s; preflight.calls := [] |} in
  (r, {| world := preflight.world s';
         events := events s ++ (Registry <$> preflight.calls s') |}).

(** [alertUserIfNeeded] (lines 283-291). *)
Definition alertUserIfNeeded (verified : bool) (crName : string) (s : State) : State :=
  if verified then
    snd (call (fun w => (tt, SetUpgradeAlert a crName 0 w)) (CallSetUpgradeAlert crName 0) s)
  else
    snd (call (fun w => (tt, SetUpgradeAlert a crName 1 w)) (CallSetUpgradeAlert crName 1) s).

(** Lines 111-117 of [processFullChartTemplates]: the fields it writes
    into [*runInfo]. *)
Definition withNodeVersion (runInfo : runtimeInformation) (nodeVersion : upgrade.NodeVersion)
  : runtimeInformation :=
  {| OperatingSystemMajor := upgrade.OSMajor nodeVersion;
     OperatingSystemMajorMinor := upgrade.OSMajorMinor nodeVersion;
     OperatingSystemDecimal := upgrade.OSVersion nodeVersion;
     KernelFullVersion := KernelFullVersion runInfo;
     KernelPatchVersion := KernelPatchVersion runInfo;
     DriverToolkitImage := registry.ImageURL (upgrade.DriverToolkit nodeVersion);
     ClusterVersion := ClusterVersion runInfo;
     ClusterVersionMajorMinor := upgrade.ClusterVersion nodeVersion;
     ClusterUpgradeInfo := ClusterUpgradeInfo runInfo;
     OSImageURL := OSImageURL runInfo;
     RuntimeInformation_SpecialResource := RuntimeInformation_SpecialResource runInfo |}.

Definition withValues (c : chart) (values : Values a) : chart :=
  {| controllers.Chart_Metadata := controllers.Chart_Metadata c;
     controllers.Chart_Templates := controllers.Chart_Templates c;
     controllers.Chart_Values := values |}.

(** [processFullChartTemplates] (lines 97-137); the third component is
    [*runInfo] as the call leaves it. *)
Definition processFullChartTemplates (c : chart) (values : Values a)
    (runInfo : runtimeInformation) (namespace upgradeKernelVersion : string) (s : State)
  : ((string * option error) * runtimeInformation) * State :=
  let fullChart : chart :=
    {| controllers.Chart_Metadata := controllers.Chart_Metadata c;
       controllers.Chart_Templates := [] ++ controllers.Chart_Templates c;
       controllers.Chart_Values := controllers.Chart_Values c |} in
  let nodeVersion :=
    default zeroNodeVersion (ClusterUpgradeInfo runInfo !! upgradeKernelVersion) in
  let runInfo := withNodeVersion runInfo nodeVersion in
  let '(v, err) := CoalesceValues a fullChart values in
  let fullChart := withValues fullChart v in
  match err with
  | Some e => ((("", Some e), runInfo), s)
  | None =>
      let '(rinfo, err) := ToUnstructured a runInfo in
      match err with
      | Some e => ((("", Some e), runInfo), s)
      | None =>
          let '(v, err) := CoalesceValues a fullChart rinfo in
          let fullChart := withValues fullChart v in
          match err with
          | Some e => ((("", Some e), runInfo), s)
          | None =>
              let '(r, s) :=
                call (Helmer_GetHelmOutput a fullChart (controllers.Chart_Values fullChart)
                        namespace)
                  (CallGetHelmOutput fullChart (controllers.Chart_Values fullChart) namespace)
                  s in
              ((r, runInfo), s)
          end
      end
  end.

(** [sr.DeepCopyInto(&runInfo.SpecialResource)]. *)
Definition withSpecialResource (runInfo : runtimeInformation) (sr : specialResource)
  : runtimeInformation :=
  {| OperatingSystemMajor := OperatingSystemMajor runInfo;
     OperatingSystemMajorMinor := OperatingSystemMajorMinor runInfo;
     OperatingSystemDecimal := OperatingSystemDecimal runInfo;
     KernelFullVersion := KernelFullVersion runInfo;
     KernelPatchVersion := KernelPatchVersion runInfo;
     DriverToolkitImage := DriverToolkitImage runInfo;
     ClusterVersion := ClusterVersion runInfo;
     ClusterVersionMajorMinor := ClusterVersionMajorMinor runInfo;
     ClusterUpgradeInfo := ClusterUpgradeInfo runInfo;
     OSImageURL := OSImageURL runInfo;
     RuntimeInformation_SpecialResource := sr |}.

(** [PreflightUpgradeCheck] (lines 68-95): the error, and [*runInfo] as
    the call leaves it. *)
Definition PreflightUpgradeCheck (sr : specialResource) (runInfo : runtimeInformation)
    (s : State) : (option error * runtimeInformation) * State :=
  let runInfo := withSpecialResource runInfo sr in
  let '((c, err), s) := call (Helmer_Load a (Spec_Chart sr)) (CallLoad (Spec_Chart sr)) s in
  match err with
  | Some e => ((Some e, runInfo), s)
  | None =>
      let '(((yamlsList, err), runInfo), s) :=
        processFullChartTemplates c (Spec_Set sr) runInfo (SR_Namespace sr)
          (KernelFullVersion runInfo) s in
      match err with
      | Some e => ((Some e, runInfo), s)
      | None =>
          let '((verified, err), s) :=
            handleYAMLsCheck yamlsList (KernelFullVersion runInfo) s in
          match err with
          | Some e => ((Some e, runInfo), s)
          | None =>
              let s := alertUserIfNeeded verified (SR_Name sr) s in
              ((None, runInfo), s)
          end
      end
  end.

(** [getOSData] (lines 244-257). *)
Definition getOSData (image : string) (s : State)
  : (string * string * string * option error) * State :=
  let '((layer, err), s) := call (LastLayer a image) (CallLastLayer image) s in
  match err with
  | Some e => (("", "", "", Some e), s)
  | None =>
      let '((machineOSConfig, err), s) :=
        call (ReleaseImageMachineOSConfig a layer) (CallReleaseImageMachineOSConfig layer) s in
      match err with
      | Some e => (("", "", "", Some e), s)
      | None => (ParseOSInfo a machineOSConfig, s)
      end
  end.

Definition noDTKImage : error :=
  errorString "Failed to find the DTK image data in the release".

(** [getKernelFullVersion] (lines 259-281). *)
Definition getKernelFullVersion (image : string) (s : State)
  : (string * option error) * State :=
  let '((layer, err), s) := call (LastLayer a image) (CallLastLayer image) s in
  match err with
  | Some e => (("", Some e), s)
  | None =>
      let '((dtkImageURL, err), s) :=
        call (ReleaseManifests a layer) (CallReleaseManifests layer) s in
      match err with
      | Some e => (("", Some e), s)
      | None =>
          if String.eqb dtkImageURL "" then (("", Some noDTKImage), s)
          else
            let '((dtk, err), s) :=
              call (GetDTKData a dtkImageURL) (CallGetDTKData dtkImageURL) s in
            match err with
            | Some e => (("", Some e), s)
            | None => ((registry.KernelFullVersion dtk, err), s)
            end
      end
  end.

(** [PrepareRuntimeInfo] (lines 210-242); [None] is the nil pointer. *)
Definition PrepareRuntimeInfo (image : string) (s : State)
  : (option runtimeInformation * option error) * State :=
  let '(runInfo, s) := call (InitRuntimeInfo a) CallInitRuntimeInfo s in
  let '((major, majorMinor, decimal, err), s) := getOSData image s in
  match err with
  | Some e => ((None, Some e), s)
  | None =>
      let '((kernelFullVersion, err), s) := getKernelFullVersion image s in
      match err with
      | Some e => ((None, Some e), s)
      | None =>
          let '(kernelPatchVersion, err) := PatchVersion a kernelFullVersion in
          match err with
          | Some e => ((None, Some e), s)
          | None =>
              let '((clusterVersion, clusterVersionMajorMinor, err), s) :=
                call (Version a) CallVersion s in
              match err with
              | Some e => ((None, Some e), s)
              | None =>
                  let '((osImageURL, err), s) := call (Cluster_OSImageURL a) CallOSImageURL s in
                  match err with
                  | Some e => ((None, Some e), s)
                  | None =>
                      ((Some {| OperatingSystemMajor := major;
                                OperatingSystemMajorMinor := majorMinor;
                                OperatingSystemDecimal := decimal;
                                KernelFullVersion := kernelFullVersion;
                                KernelPatchVersion := kernelPatchVersion;
                                DriverToolkitImage := DriverToolkitImage runInfo;
                                ClusterVersion := clusterVersion;
                                ClusterVersionMajorMinor := clusterVersionMajorMinor;
                                ClusterUpgradeInfo := ClusterUpgradeInfo runInfo;
                                OSImageURL := osImageURL;
                                RuntimeInformation_SpecialResource :=
                                  RuntimeInformation_SpecialResource runInfo |},
                        None), s)
                  end
              end
          end
      end
  end.

(** The alerts a run has set, oldest first. *)
Definition alertOf (e : Event) : option (string * Z) :=
  match e with
  | CallSetUpgradeAlert crName value => Some (crName, value)
  | _ => None
  end.

Definition alerts (s : State) : list (string * Z) := omap alertOf (events s).

End WithAPI.

Arguments Registry {a} c.
Arguments CallLoad {a} c.
Arguments CallGetHelmOutput {a} c values namespace.
Arguments CallSetUpgradeAlert {a} crName value.
Arguments CallInitRuntimeInfo {a}.
Arguments CallLastLayer {a} image.
Arguments CallReleaseImageMachineOSConfig {a} layer.
Arguments CallReleaseManifests {a} layer.
Arguments CallGetDTKData {a} imageURL.
Arguments CallVersion {a}.
Arguments CallOSImageURL {a}.
Arguments world {a} s.
Arguments events {a} s.
Arguments Build_State {a} world events.

End preflight_api.

(** * Package [controllers], the reconciliation as a whole
    ([controllers/specialresourcemodule.go]) *)

Module controllers_run.

Import regexp.

(** ** The alphabet of [semver] *)

(** A regular expression that matches nothing, by its shape. *)
Fixpoint dead (r : re) : bool :=
  match r with
  | Void => true
  | Eps => false
  | Class _ => false
  | Cat r1 r2 => dead r1 || dead r2
  | Alt r1 r2 => dead r1 && dead r2
  | Star _ => false
  end.

(** No character class of [r] holds the byte [c]. *)
Fixpoint avoids (c : ascii) (r : re) : bool :=
  match r with
  | Void => true
  | Eps => true
  | Class p => negb (p c)
  | Cat r1 r2 => avoids c r1 && avoids c r2
  | Alt r1 r2 => avoids c r1 && avoids c r2
  | Star r => avoids c r
  end.

(** The bytes the constant [semver] (line 67) names: digits, letters,
    [-], [.] and [+]. *)
Definition alphabet (c : ascii) : bool :=
  between "0" "9" c || between "a" "z" c || between "A" "Z" c
  || Ascii.eqb "-" c || Ascii.eqb "." c || Ascii.eqb "+" c.

(** ** [filterResources] and [FindSRM] *)

(** The test of lines 157-168 of [filterResources]: whether the selector
    keeps an object with these candidates. *)
Definition keeps (selector : controllers.SpecialResourceModuleSelector)
    (candidates : list string) : bool :=
  let found :=
    existsb (fun candidate => String.eqb candidate (controllers.Selector_Value selector))
            candidates in
  if controllers.Selector_Exclude selector then negb found else found.

(** [srov1beta1.SpecialResourceModule] as [Reconcile] lists it: the module
    and the deletion timestamp of its metadata, [None] when it is nil. *)
Record Item (HelmChart Values : Type) := {
  Item_Module : controllers.SpecialResourceModule HelmChart Values;
  DeletionTimestamp : option Z
}.
Arguments Item_Module {HelmChart Values} i.
Arguments DeletionTimestamp {HelmChart Values} i.

(** The loop of [FindSRM] (lines 425-429), from index [i] on. *)
Fixpoint findFrom {HelmChart Values} (i : Z) (a : list (Item HelmChart Values)) (x : string)
  : Z * bool :=
  match a with
  | [] => ((-1)%Z, false)
  | n :: a =>
      if String.eqb x (controllers.SRM_Name (Item_Module n)) then (i, true)
      else findFrom (i + 1)%Z a x
  end.

(** [FindSRM] (lines 424-431). *)
Definition FindSRM {HelmChart Values} (a : list (Item HelmChart Values)) (x : string)
  : Z * bool :=
  findFrom 0%Z a x.

(** ** [getOCPVersions] *)

(** The entries of a version map are filed under their cluster version,
    and the release image and the toolkit image of each were read in the
    calls made since [base]: [current] is the log now. *)
Definition resolved (r : controllers.SpecialResourceModuleReconciler)
    (base : list (controllers.Call r)) (versionMap : gmap string controllers.OCPVersionInfo)
    (current : list (controllers.Call r)) : Prop :=
  forall k info,
    versionMap !! k = Some info ->
    controllers.ClusterVersion info = k /\
    exists l, current = base ++ l /\
              controllers.CallLastLayer (controllers.OSImage info) ∈ l /\
              controllers.CallLastLayer (controllers.DTKImage info) ∈ l.

(** The resource after the pass of one version: lines 516-519 of
    [Reconcile] store the names the pass returned and whether there were
    none. *)
Definition recorded (r : controllers.SpecialResourceModuleReconciler)
    (resource : controllers.SpecialResourceModule (controllers.HelmChart r)
                  (controllers.Values r))
    (element : controllers.OCPVersionInfo) (reconciledList : list string)
  : controllers.SpecialResourceModule (controllers.HelmChart r) (controllers.Values r) :=
  controllers.withVersions r resource
    (<[controllers.ClusterVersion element :=
         {| controllers.ReconciledTemplates := reconciledList;
            controllers.Complete := Nat.eqb (length reconciledList) 0 |}]>
       (controllers.Status_Versions resource)).

(** ** [Reconcile] *)

(** The receiver of [Reconcile]: [reconciler] is the part the functions of
    [controllers] use, the rest are [r.KubeClient.List] on the list of
    modules, [r.Watcher.ReconcileWatches] and [r.Creator.CreateFromYAML].
    [statusOrder] and [clusterOrder] are the orders in which [range]
    visits the keys of [resource.Status.Versions] and the values of
    [clusterVersions]; Go leaves them unspecified. *)
Record Manager := {
  reconciler : controllers.SpecialResourceModuleReconciler;
  KubeClient_ListModules :
    controllers.World reconciler ->
    (list (Item (controllers.HelmChart reconciler) (controllers.Values reconciler))
     * option error) * controllers.World reconciler;
  Watcher_ReconcileWatches :
    controllers.SpecialResourceModule (controllers.HelmChart reconciler)
      (controllers.Values reconciler) ->
    controllers.World reconciler -> option error * controllers.World reconciler;
  Creator_CreateFromYAML :
    string -> bool ->
    controllers.SpecialResourceModule (controllers.HelmChart reconciler)
      (controllers.Values reconciler) ->
    string -> string -> gmap string string -> string -> string ->
    controllers.World reconciler -> option error * controllers.World reconciler;
  statusOrder : gmap string controllers.SpecialResourceModuleVersionStatus -> list string;
  clusterOrder : gmap string controllers.OCPVersionInfo -> list controllers.OCPVersionInfo
}.

(** The document of lines 320-326, up to the name. *)
Definition nl : string := String (ascii_of_nat 10) EmptyString.
Definition quote : string := String (ascii_of_nat 34) EmptyString.

Definition namespaceHeader : string :=
  "apiVersion: v1" +:+ nl +:+
  "kind: Namespace" +:+ nl +:+
  "metadata:" +:+ nl +:+
  "  annotations:" +:+ nl +:+
  "    specialresource.openshift.io/wait: " +:+ quote +:+ "true" +:+ quote +:+ nl +:+
  "    openshift.io/cluster-monitoring: " +:+ quote +:+ "true" +:+ quote +:+ nl +:+
  "  name: ".

Section WithManager.

Variable m : Manager.

Abbreviation r := (reconciler m).
Abbreviation module :=
  (controllers.SpecialResourceModule (controllers.HelmChart r) (controllers.Values r)).

(** The calls a run has made, oldest first; [Inner] holds those of the
    functions of [controllers]. *)
Inductive Event :=
| Inner (c : controllers.Call r)
| CallListModules
| CallReconcileWatches (resource : module)
| CallCreateFromYAML (yaml : string) (owner : module) (name : string).

Record State := { world : controllers.World r; events : list Event }.

Definition call {A} (f : controllers.World r -> A * controllers.World r) (e : Event)
    (s : State) : A * State :=
  let '(a, w) := f (world s) in
  (a, {| world := w; events := events s ++ [e] |}).

(** A function of [controllers] on the state of the run; [None] is its
    panic. *)
Definition lift {A} (f : controllers.M r A) (s : State) : option (A * State) :=
  match f {| controllers.world := world s; controllers.calls := [] |} with
  | Some (a, s') =>
      Some (a, {| world := controllers.world s';
                  events := events s ++ (Inner <$> controllers.calls s') |})
  | None => None
  end.

Definition withNamespace (resource : module) (namespace : string) : module :=
  {| controllers.SRM_Name := controllers.SRM_Name resource;
     controllers.SRM_Spec :=
       {| controllers.Spec_Chart := controllers.Spec_Chart (controllers.SRM_Spec resource);
          controllers.Spec_Namespace := namespace;
          controllers.Spec_Set := controllers.Spec_Set (controllers.SRM_Spec resource);
          controllers.Spec_Watch := controllers.Spec_Watch (controllers.SRM_Spec resource) |};
     controllers.Status_Versions := controllers.Status_Versions resource |}.

(** [createNamespace] (lines 318-337).  [resource] is passed by value:
    the namespace it is given at line 332 stays in the copy. *)
Definition createNamespace (resource : module) (s : State) : option error * State :=
  let ns := namespaceHeader in
  let '(ns, resource) :=
    if negb (String.eqb (controllers.Spec_Namespace (controllers.SRM_Spec resource)) "")
    then (ns +:+ controllers.Spec_Namespace (controllers.SRM_Spec resource), resource)
    else
      let resource := withNamespace resource (controllers.SRM_Name resource) in
      (ns +:+ controllers.Spec_Namespace (controllers.SRM_Spec resource), resource) in
  call (Creator_CreateFromYAML m ns false resource (controllers.SRM_Name resource) "" ∅ "" "")
       (CallCreateFromYAML ns resource (controllers.SRM_Name resource)) s.

(** [Reconcile] (lines 448-531): the error it returns; [None] is a
    panic. *)
Definition Reconcile (name : string) (s : State) : option (option error * State) :=
  let '((items, err), s) := call (KubeClient_ListModules m) CallListModules s in
  match err with
  | Some e => Some (Some e, s)
  | None =>
      let '(request, found) := FindSRM items name in
      if negb found then Some (None, s)
      else
        match items !! Z.to_nat request with
        | None => None
        | Some item =>
            let resource := Item_Module item in
            match DeletionTimestamp item with
            | Some _ => Some (None, s)
            | None =>
                let '(err, s) :=
                  call (Watcher_ReconcileWatches m resource) (CallReconcileWatches resource) s in
                match err with
                | Some e => Some (Some e, s)
                | None =>
                    let '(_, s) := createNamespace resource s in
                    match lift (controllers.getOCPVersions r
                                  (controllers.Spec_Watch (controllers.SRM_Spec resource))) s with
                    | None => None
                    | Some ((clusterVersions, err), s) =>
                        match err with
                        | Some e => Some (Some e, s)
                        | None =>
                            let '(updateList, deleteList) :=
                              controllers.versionLists clusterVersions
                                (statusOrder m (controllers.Status_Versions resource))
                                (clusterOrder m clusterVersions) in
                            match lift (controllers.updateLoop r resource updateList) s with
                            | None => None
                            | Some ((_, err), s) => Some (err, s)
                            end
                        end
                    end
                end
            end
        end
  end.

(** The calls of the functions of [controllers] among the events. *)
Definition innerCalls (l : list Event) : list (controllers.Call r) :=
  omap (fun e => match e with
                 | Inner c => Some c
                 | _ => None
                 end) l.

End WithManager.

Arguments Inner {m} c.
Arguments CallListModules {m}.
Arguments CallReconcileWatches {m} resource.
Arguments CallCreateFromYAML {m} yaml owner name.
Arguments world {m} s.
Arguments events {m} s.
Arguments Build_State {m} world events.

End controllers_run.

(** * Worked instances

    Concrete collaborators on which the functions above can be run. *)

Module upgrade_examples.
Import exit upgrade.

(** A node labelled with kernel [4.18.0-305.el8.x86_64] and OS 8.4. *)
Definition node84 : NodeVersion :=
  {| OSVersion := "8.4"; OSMajor := "rhel8"; OSMajorMinor := "rhel8.4";
     ClusterVersion := "4.9"; DriverToolkit := registry.zero |}.

Definition info84 : gmap string NodeVersion := {[ "4.18.0-305.el8.x86_64" := node84 ]}.

Definition dtk (os : string) : registry.DriverToolkitEntry :=
  {| registry.ImageURL := "";
     registry.KernelFullVersion := "4.18.0-305.el8";
     registry.RTKernelFullVersion := "4.18.0-305.rt7.72.el8";
     registry.OSVersion := os |}.

(** An entry whose RT kernel string alone carries the architecture, and
    one whose kernel string carries it in the middle. *)
Definition dtkRTSuffixed : registry.DriverToolkitEntry :=
  {| registry.ImageURL := "";
     registry.KernelFullVersion := "4.18.0-305.el8";
     registry.RTKernelFullVersion := "4.18.0-305.rt7.72.el8.x86_64";
     registry.OSVersion := "8.4" |}.

Definition dtkDebug : registry.DriverToolkitEntry :=
  {| registry.ImageURL := "";
     registry.KernelFullVersion := "4.18.0-305.el8.x86_64+debug";
     registry.RTKernelFullVersion := "4.18.0-305.rt7.72.el8.x86_64+debug";
     registry.OSVersion := "8.4" |}.
End upgrade_examples.

Module preflight_examples.
Import preflight.

(** A rendered object: its kind and, for a DaemonSet, its containers. *)
Record Obj := { kind : string; containers : list Container }.

Definition convert (obj : Obj) : DaemonSet * option error :=
  ({| Spec := {| Template := {| PodTemplateSpec_Spec := {| Containers := containers obj |} |} |} |},
   None).

(** The rendered documents are given by name. *)
Definition daemonSet (image : string) : Obj :=
  {| kind := "DaemonSet";
     containers := [ {| Name := "driver"; Image := image |};
                     {| Name := "sidecar"; Image := "quay.io/x/sidecar:1" |} ] |}.
Definition buildConfig : Obj := {| kind := "BuildConfig"; containers := [] |}.

Definition parse (yamlsList : string) : list Obj * option error :=
  if String.eqb yamlsList "daemonset,buildconfig"
  then ([daemonSet "quay.io/x/driver:1"; buildConfig], None)
  else if String.eqb yamlsList "buildconfig,daemonset"
  then ([buildConfig; daemonSet "quay.io/x/driver:1"], None)
  else ([], Some (errorString "yaml: cannot parse")).

(** A registry that knows one image of three layers, the toolkit
    metadata sitting in the middle one; any other image is unreachable,
    and so is the layer [sha256:gone]. *)
Definition layersDigests (image : string) (w : unit)
  : (string * list string * unit * option error) * unit :=
  if String.eqb image "quay.io/x/driver:1"
  then (("quay.io/x/driver", ["sha256:1"; "sha256:2"; "sha256:3"], tt, None), w)
  else (("", [], tt, Some (errorString "unreachable")), w).

Definition layerByDigest (repo digest : string) (auth : unit) (w : unit)
  : (string * option error) * unit :=
  if String.eqb digest "sha256:gone" then (("", Some (errorString "blob unknown")), w)
  else ((digest, None), w).

Definition toolkitRelease (layer : string) (w : unit)
  : (registry.DriverToolkitEntry * option error) * unit :=
  if String.eqb layer "sha256:2"
  then (({| registry.ImageURL := "";
            registry.KernelFullVersion := "4.18.0-305.el8.x86_64";
            registry.RTKernelFullVersion := "";
            registry.OSVersion := "8.4" |}, None), w)
  else ((registry.zero, Some (errorString "no toolkit metadata")), w).

(** The collaborators of the examples. *)
Definition p0 : Collaborators :=
  {| World := unit; Unstructured := Obj; Layer := string; Auth := unit;
     GetKind := kind; GetObjectsFromYAML := parse; FromUnstructured := convert;
     GetLayersDigests := layersDigests; GetLayerByDigest := layerByDigest;
     ExtractToolkitRelease := toolkitRelease |}.

Definition start : State p0 := @Build_State p0 tt [].
End preflight_examples.

Module controllers_examples.
Import controllers.

(** A watched object: its name and the strings found at each path. *)
Record Obj := { objName : string; fields : list (string * list string) }.

Fixpoint assoc (k : string) (l : list (string * list string)) : option (list string) :=
  match l with
  | [] => None
  | (k', v) :: l => if String.eqb k k' then Some v else assoc k l
  end.

Definition jsonPath (path : string) (obj : Obj) : list string * option error :=
  match assoc path (fields obj) with
  | Some vs => (vs, None)
  | None => ([], Some (errorString (path +:+ " is not found")))
  end.

Definition versionObj : Obj :=
  {| objName := "version"; fields := [("{.status.desired.version}", ["4.12.5"])] |}.
Definition imageObj : Obj :=
  {| objName := "image";
     fields := [("{.status.desired.image}", ["quay.io/x/release@sha256:aaa"])] |}.
Definition otherObj : Obj :=
  {| objName := "other"; fields := [("{.spec.channel}", ["stable-4.12"])] |}.

Definition notFound (what : string) : error :=
  StatusError StatusReasonNotFound (what +:+ " not found").

Definition list0 (kind apiVersion : string) (w : unit)
  : (list Obj * option error) * unit :=
  if String.eqb kind "ClusterVersion" then (([otherObj; imageObj], None), w)
  else if String.eqb kind "MachineConfig" then (([], Some (notFound kind)), w)
  else (([], Some (errorString "the server is currently unable to handle the request")), w).

Definition get0 (kind apiVersion namespace name : string) (w : unit)
  : (Obj * option error) * unit :=
  if String.eqb name "version" then ((versionObj, None), w)
  else (({| objName := name; fields := [] |}, Some (notFound name)), w).

(** A registry with one release image and its toolkit image. *)
Definition lastLayer0 (image : string) (w : unit) : (string * option error) * unit :=
  if String.eqb image "quay.io/x/release@sha256:aaa" || String.eqb image "quay.io/x/dtk@sha256:bbb"
  then ((image, None), w)
  else (("", Some (errorString "manifest unknown")), w).

Definition releaseManifests0 (layer : string) (w : unit)
  : (string * string * option error) * unit :=
  if String.eqb layer "quay.io/x/release@sha256:aaa"
  then (("4.12.5", "quay.io/x/dtk@sha256:bbb", None), w)
  else (("", "", Some (errorString "no release manifests")), w).

Definition toolkitRelease0 (layer : string) (w : unit)
  : (registry.DriverToolkitEntry * option error) * unit :=
  if String.eqb layer "quay.io/x/dtk@sha256:bbb"
  then (({| registry.ImageURL := "";
            registry.KernelFullVersion := "5.14.0-70.13.1.el9_0.x86_64";
            registry.RTKernelFullVersion := "";
            registry.OSVersion := "9.0" |}, None), w)
  else ((registry.zero, Some (errorString "no toolkit metadata")), w).

(** An upgrade graph that lists 4.12.5 in the fast channel and, with
    another payload, in the candidate channel. *)
Definition do0 (url : string) (w : unit)
  : (Response (list versionNode) * option error) * unit :=
  if String.eqb url (graphURL "fast" "4" "12") then
    (({| StatusCode := 200;
         Body := [ {| Version := "4.12.4"; Payload := "quay.io/x/release@sha256:999" |};
                   {| Version := "4.12.5"; Payload := "quay.io/x/release@sha256:aaa" |} ];
         ReadErr := None |}, None), w)
  else if String.eqb url (graphURL "stable" "4" "12") then
    (({| StatusCode := 200; Body := []; ReadErr := None |}, None), w)
  else if String.eqb url (graphURL "candidate" "4" "12") then
    (({| StatusCode := 200;
         Body := [ {| Version := "4.12.5"; Payload := "quay.io/x/release@sha256:ccc" |} ];
         ReadErr := None |}, None), w)
  else (({| StatusCode := 404; Body := []; ReadErr := None |}, None), w).

Definition file (name : string) : File := {| File_Name := name; File_Data := "" |}.

(** Two bundles of three state units and one regular template; the unit
    [20-b] of the second cannot be applied. *)
Definition load0 (c : string) (w : unit) : (Chart unit unit * option error) * unit :=
  if String.eqb c "good" then
    (({| Chart_Metadata := tt;
         Chart_Templates := [file "20-b"; file "configmap.yaml"; file "10-a"; file "30-c"];
         Chart_Values := tt |}, None), w)
  else if String.eqb c "flaky" then
    (({| Chart_Metadata := tt;
         Chart_Templates := [ {| File_Name := "20-b"; File_Data := "invalid" |};
                              file "configmap.yaml"; file "10-a"; file "30-c" ];
         Chart_Values := tt |}, None), w)
  else (({| Chart_Metadata := tt; Chart_Templates := []; Chart_Values := tt |},
         Some (errorString "chart not found")), w).

Definition run0 (step : Chart unit unit) (values : unit)
    (srm : SpecialResourceModule string unit) (name namespace kernel os : string)
    (debug : bool) (w : unit) : option error * unit :=
  if existsb (fun f => String.eqb (File_Data f) "invalid") (Chart_Templates step)
  then (Some (errorString "apply failed"), w)
  else (None, w).

(** A state unit's name starts with a digit. *)
Definition validStateName0 (name : string) : bool :=
  match name with
  | String c _ => regexp.between "0" "9" c
  | EmptyString => false
  end.

Definition r0 : SpecialResourceModuleReconciler :=
  {| World := unit; Unstructured := Obj; Layer := string; Data := list versionNode;
     HelmChart := string; ChartMeta := unit; Values := unit;
     KubeClient_List := list0;
     KubeClient_Get := get0;
     KubeClient_StatusUpdate := fun _ w => (None, w);
     GetJSONPath := jsonPath;
     Registry_LastLayer := lastLayer0;
     Registry_ReleaseManifests := releaseManifests0;
     Registry_ExtractToolkitRelease := toolkitRelease0;
     http_NewRequest := fun _ => None;
     client_Do := do0;
     json_Unmarshal := fun d => (d, None);
     Helmer_Load := load0;
     Helmer_Run := run0;
     ValidStateName := validStateName0;
     CoalesceValues := fun _ v => (v, None);
     ToUnstructured := fun _ => (tt, None) |}.

Definition start : State r0 := @Build_State r0 tt [].

Definition srm0 (c : string) (versions : gmap string SpecialResourceModuleVersionStatus)
  : SpecialResourceModule string unit :=
  {| SRM_Name := "simple-kmod";
     SRM_Spec := {| Spec_Chart := c; Spec_Namespace := "simple-kmod"; Spec_Set := tt;
                    Spec_Watch := [] |};
     Status_Versions := versions |}.

Definition info0 : OCPVersionInfo :=
  {| KernelVersion := "5.14.0-70.13.1.el9_0.x86_64"; RTKernelVersion := "";
     DTKImage := "quay.io/x/dtk@sha256:bbb"; OSVersion := "9.0";
     OSImage := "quay.io/x/release@sha256:aaa"; ClusterVersion := "4.12.5" |}.

Definition md0 (c : string) : Metadata string unit := getMetadata r0 (srm0 c ∅) info0.

Definition watch (kind name path : string) : SpecialResourceModuleWatch :=
  {| Watch_Kind := kind; Watch_ApiVersion := "config.openshift.io/v1";
     Watch_Namespace := ""; Watch_Name := name; Watch_Path := path;
     Watch_Selector := [] |}.
(** What a complete pass over the bundle [good] stores and calls. *)
Definition completeStatus : SpecialResourceModuleVersionStatus :=
  {| ReconciledTemplates := []; Complete := true |}.

Definition goodStep (name : string) : Chart unit unit :=
  {| Chart_Metadata := tt; Chart_Templates := [file "configmap.yaml"; file name];
     Chart_Values := tt |}.

Definition goodPass (resource : SpecialResourceModule string unit) : list (Call r0) :=
  [ @CallLoad r0 "good"; @CallRun r0 (goodStep "10-a") tt; @CallRun r0 (goodStep "20-b") tt;
    @CallRun r0 (goodStep "30-c") tt; @CallStatusUpdate r0 resource ].

(** A third bundle, in which the unit [20-b] that cannot be applied stands
    after [30-c] and before [10-a]. *)
Definition load1 (c : string) (w : unit) : (Chart unit unit * option error) * unit :=
  if String.eqb c "shuffled" then
    (({| Chart_Metadata := tt;
         Chart_Templates := [ file "30-c"; {| File_Name := "20-b"; File_Data := "invalid" |};
                              file "configmap.yaml"; file "10-a" ];
         Chart_Values := tt |}, None), w)
  else load0 c w.

Definition r1 : SpecialResourceModuleReconciler :=
  {| World := unit; Unstructured := Obj; Layer := string; Data := list versionNode;
     HelmChart := string; ChartMeta := unit; Values := unit;
     KubeClient_List := list0;
     KubeClient_Get := get0;
     KubeClient_StatusUpdate := fun _ w => (None, w);
     GetJSONPath := jsonPath;
     Registry_LastLayer := lastLayer0;
     Registry_ReleaseManifests := releaseManifests0;
     Registry_ExtractToolkitRelease := toolkitRelease0;
     http_NewRequest := fun _ => None;
     client_Do := do0;
     json_Unmarshal := fun d => (d, None);
     Helmer_Load := load1;
     Helmer_Run := run0;
     ValidStateName := validStateName0;
     CoalesceValues := fun _ v => (v, None);
     ToUnstructured := fun _ => (tt, None) |}.

Definition start1 : State r1 := @Build_State r1 tt [].
End controllers_examples.

Module upgrade_cluster_examples.
Import exit upgrade upgrade_cluster.

(** A node labelled by NFD with the RHEL version of its OS. *)
Definition rhcosNode (kernel rhel : string) : gmap string string :=
  {[ kernelFullLabel := kernel; versionIDLabel := "4.9"; rhelVersionLabel := rhel;
     osIDLabel := "rhcos"; versionIDMajorLabel := "4"; versionIDMinorLabel := "9" ]}.

(** A node without the RHEL version label. *)
Definition fedoraNode (kernel : string) : gmap string string :=
  {[ kernelFullLabel := kernel; versionIDLabel := "36";
     osIDLabel := "fedora"; versionIDMajorLabel := "36" ]}.

(** A node NFD has labelled with the kernel only. *)
Definition bareNode (kernel : string) : gmap string string :=
  {[ kernelFullLabel := kernel ]}.

(** The registry, by image reference: a layer is the reference it was
    fetched from, [None] the nil layer. *)
Definition LastLayer0 (image : string) (w : unit) : option string * unit :=
  (if String.prefix "quay.io/gone/" image then None else Some image, w).

Definition ReleaseManifests0 (layer : option string) (w : unit) : (string * string) * unit :=
  (match layer with
   | Some "quay.io/release:4.9.0" => ("4.9.0", "")
   | Some "quay.io/release:4.9.1" => ("4.9.1", "quay.io/dtk:4.9.1")
   | Some "quay.io/release:4.9.2" => ("4.9.2", "quay.io/gone/dtk:4.9.2")
   | _ => ("", "")
   end, w).

Definition ExtractToolkitRelease0 (layer : option string) (w : unit)
  : (registry.DriverToolkitEntry * option error) * unit :=
  (match layer with
   | Some "quay.io/dtk:4.9.1" =>
       ({| registry.ImageURL := "";
           registry.KernelFullVersion := "4.18.0-305.el8";
           registry.RTKernelFullVersion := "4.18.0-305.rt7.72.el8";
           registry.OSVersion := "8.4" |}, None)
   | _ => (registry.zero, Some (errorString "no toolkit release in the layer"))
   end, w).

Definition c0 (history : list string) : Packages :=
  {| World := unit; Layer := option string;
     isNil := fun layer => match layer with Some _ => false | None => true end;
     LastLayer := LastLayer0;
     ReleaseManifests := ReleaseManifests0;
     ExtractToolkitRelease := ExtractToolkitRelease0;
     VersionHistory := fun w => ((history, None), w) |}.

Definition start (history : list string) : State (c0 history) :=
  @Build_State (c0 history) tt [].
End upgrade_cluster_examples.

Module filter_examples.
Import filter.

(** A DaemonSet deployed for a SpecialResource: labelled as owned, with or
    without the owner reference. *)
Definition daemonSet : Object := {| ObjectKind := "DaemonSet"; Printed := "&DaemonSet{}" |}.

Definition meta (refs : list OwnerReference) (generation : Z) (resourceVersion : string)
  : Meta :=
  {| Name := "driver-container";
     SelfLink := "/apis/apps/v1/namespaces/driver/daemonsets/driver-container";
     OwnerReferences := refs;
     Labels := Some {[ owned := "true" ]};
     Generation := generation;
     ResourceVersion := resourceVersion |}.

Definition ownerRefs : list OwnerReference :=
  [ {| Kind := "ReplicaSet" |}; {| Kind := "SpecialResource" |} ].
End filter_examples.

Module preflight_api_examples.
Import preflight_api.

(** The registry of [preflight_examples], with one more image: two layers,
    neither of which carries toolkit metadata. *)
Definition layersDigests (image : string) (w : unit)
  : (string * list string * unit * option error) * unit :=
  if String.eqb image "quay.io/x/plain:1"
  then (("quay.io/x/plain", ["sha256:a"; "sha256:b"], tt, None), w)
  else preflight_examples.layersDigests image w.

(** The rendered documents, by name. *)
Definition parse (yamlsList : string) : list preflight_examples.Obj * option error :=
  if String.eqb yamlsList "daemonset-missing"
  then ([preflight_examples.daemonSet "quay.io/x/missing:1"], None)
  else preflight_examples.parse yamlsList.

Definition p1 : preflight.Collaborators :=
  {| preflight.World := unit; preflight.Unstructured := preflight_examples.Obj;
     preflight.Layer := string; preflight.Auth := unit;
     preflight.GetKind := preflight_examples.kind;
     preflight.GetObjectsFromYAML := parse;
     preflight.FromUnstructured := preflight_examples.convert;
     preflight.GetLayersDigests := layersDigests;
     preflight.GetLayerByDigest := preflight_examples.layerByDigest;
     preflight.ExtractToolkitRelease := preflight_examples.toolkitRelease |}.

(** A chart is named after what it renders to; its one template carries
    that name. *)
Definition load (c : string) (w : unit) : (controllers.Chart unit string * option error) * unit :=
  if String.eqb c "no-such-chart"
  then (({| controllers.Chart_Metadata := tt; controllers.Chart_Templates := [];
            controllers.Chart_Values := "" |}, Some (errorString "chart not found")), w)
  else (({| controllers.Chart_Metadata := tt;
            controllers.Chart_Templates :=
              [ {| controllers.File_Name := c; controllers.File_Data := "" |} ];
            controllers.Chart_Values := "" |}, None), w).

Definition helmOutput (c : controllers.Chart unit string) (values namespace : string)
    (w : unit) : (string * option error) * unit :=
  match controllers.Chart_Templates c with
  | template :: _ => ((controllers.File_Name template, None), w)
  | [] => (("", Some (errorString "nothing to render")), w)
  end.

Definition blankInfo : RuntimeInformation string string :=
  {| OperatingSystemMajor := ""; OperatingSystemMajorMinor := "";
     OperatingSystemDecimal := ""; KernelFullVersion := ""; KernelPatchVersion := "";
     DriverToolkitImage := ""; ClusterVersion := ""; ClusterVersionMajorMinor := "";
     ClusterUpgradeInfo := ∅; OSImageURL := "";
     RuntimeInformation_SpecialResource :=
       {| SR_Name := ""; SR_Namespace := ""; Spec_Chart := ""; Spec_Set := "" |} |}.

Definition lastLayer (image : string) (w : unit) : (string * option error) * unit :=
  if String.eqb image "quay.io/gone/release:1"
  then (("", Some (errorString "unreachable")), w)
  else ((image, None), w).

Definition releaseManifests (layer : string) (w : unit) : (string * option error) * unit :=
  if String.eqb layer "quay.io/release:no-toolkit" then (("", None), w)
  else (("quay.io/dtk:4.9.1", None), w).

Definition dtkData (imageURL : string) (w : unit)
  : (registry.DriverToolkitEntry * option error) * unit :=
  (({| registry.ImageURL := imageURL;
       registry.KernelFullVersion := "4.18.0-305.el8.x86_64";
       registry.RTKernelFullVersion := "";
       registry.OSVersion := "8.4" |}, None), w).

Definition a0 : API :=
  {| base := p1; HelmChart := string; ChartMeta := unit; Values := string;
     Helmer_Load := load;
     Helmer_GetHelmOutput := helmOutput;
     CoalesceValues := fun c values => (values, None);
     ToUnstructured := fun runInfo => (KernelFullVersion runInfo, None);
     SetUpgradeAlert := fun crName value w => w;
     InitRuntimeInfo := fun w => (blankInfo, w);
     LastLayer := lastLayer;
     ReleaseImageMachineOSConfig := fun layer w => (("rhcos-48.84", None), w);
     ReleaseManifests := releaseManifests;
     ParseOSInfo := fun config => ("rhel8", "rhel8.4", "8.4", None);
     GetDTKData := dtkData;
     PatchVersion := fun kernelFullVersion => ("4.18.0-305", None);
     Version := fun w => (("4.9.1", "4.9", None), w);
     Cluster_OSImageURL := fun w => (("quay.io/os:4.9.1", None), w) |}.

(** A resource whose chart renders to [c], and the information of a run
    for an upgrade to kernel [4.18.0-305.el8.x86_64]. *)
Definition sr (c : string) : SpecialResource string string :=
  {| SR_Name := "simple-kmod"; SR_Namespace := "simple-kmod"; Spec_Chart := c;
     Spec_Set := "" |}.

Definition runInfo0 (info : gmap string upgrade.NodeVersion) : RuntimeInformation string string :=
  {| OperatingSystemMajor := "rhel8"; OperatingSystemMajorMinor := "rhel8.3";
     OperatingSystemDecimal := "8.3"; KernelFullVersion := "4.18.0-305.el8.x86_64";
     KernelPatchVersion := "4.18.0-305"; DriverToolkitImage := "";
     ClusterVersion := "4.9.1"; ClusterVersionMajorMinor := "4.8";
     ClusterUpgradeInfo := info; OSImageURL := "quay.io/os:4.9.1";
     RuntimeInformation_SpecialResource :=
       {| SR_Name := ""; SR_Namespace := ""; Spec_Chart := ""; Spec_Set := "" |} |}.

Definition start : State a0 := @Build_State a0 tt [].
End preflight_api_examples.

Module controllers_run_examples.
Import controllers controllers_examples controllers_run.

(** Three nodes, labelled with a tier and a zone. *)
Definition node (name tier zone : string) : Obj :=
  {| objName := name;
     fields := [("{.metadata.labels.tier}", [tier]); ("{.metadata.labels.zone}", [zone])] |}.

Definition nodeA : Obj := node "a" "gold" "east".
Definition nodeB : Obj := node "b" "silver" "east".
Definition nodeC : Obj := node "c" "gold" "west".

Definition selector (path value : string) (exclude : bool) : SpecialResourceModuleSelector :=
  {| Selector_Path := path; Selector_Value := value; Selector_Exclude := exclude |}.

(** The modules of the cluster: one that is being deleted, one that watches
    the cluster version and names no namespace, one whose watches cannot be
    set up, and one whose status is the one a complete pass has stored. *)
Definition srm1 (name : string) (versions : gmap string SpecialResourceModuleVersionStatus)
  : SpecialResourceModule string unit :=
  {| SRM_Name := name;
     SRM_Spec := {| Spec_Chart := "good"; Spec_Namespace := ""; Spec_Set := tt;
                    Spec_Watch := [watch "ClusterVersion" "" "{.status.desired.image}"] |};
     Status_Versions := versions |}.

Definition items0 : list (Item string unit) :=
  [ {| Item_Module := srm1 "old-kmod" ∅; DeletionTimestamp := Some 1667210000%Z |};
    {| Item_Module := srm1 "simple-kmod" ∅; DeletionTimestamp := None |};
    {| Item_Module := srm1 "unwatchable" ∅; DeletionTimestamp := None |};
    {| Item_Module := srm1 "complete-kmod" {[ "4.12.5" := completeStatus ]};
       DeletionTimestamp := None |} ].

Definition reconcileWatches0 (resource : SpecialResourceModule string unit) (w : unit)
  : option error * unit :=
  if String.eqb (SRM_Name resource) "unwatchable"
  then (Some (errorString "cannot watch"), w)
  else (None, w).

(** Creating the namespace is refused. *)
Definition m0 : Manager :=
  {| reconciler := r0;
     KubeClient_ListModules := fun w => ((items0, None), w);
     Watcher_ReconcileWatches := reconcileWatches0;
     Creator_CreateFromYAML :=
       fun yaml releaseInstalled owner name namespace nodeSelector kernel os w =>
         (Some (errorString "namespaces is forbidden"), w);
     statusOrder := fun versions => fst <$> map_to_list versions;
     clusterOrder := fun versions => snd <$> map_to_list versions |}.

Definition start : State m0 := @Build_State m0 tt [].
End controllers_run_examples.

(** * Properties

    ** Package [strings] *)

Lemma prefix_refl (a : string) : String.prefix a a = true.
Proof.
  induction a as [|c a IH]; [done|].
  simpl. destruct (ascii_dec c c); [done | congruence].
Qed.

Lemma Contains_refl (a : string) : Contains a a = true.
Proof. destruct a; simpl; [done|]. rewrite prefix_refl. destruct (ascii_dec a a); done. Qed.

Lemma append_cons (c : ascii) (a b : string) : String c a +:+ b = String c (a +:+ b).
Proof. reflexivity. Qed.

Lemma append_assoc (a b c : string) : a +:+ (b +:+ c) = (a +:+ b) +:+ c.
Proof. induction a as [|x a IH]; [done|]. by rewrite !append_cons, IH. Qed.

Lemma Contains_app_r (x a : string) : Contains (x +:+ a) a = true.
Proof.
  induction x as [|c x IH].
  - apply Contains_refl.
  - rewrite append_cons. simpl. rewrite IH. apply orb_true_r.
Qed.

Lemma Contains_dot_arch (v arch : string) : Contains (v +:+ "." +:+ arch) arch = true.
Proof. rewrite append_assoc. apply Contains_app_r. Qed.

Lemma eqb_false_iff (a b : string) : negb (String.eqb a b) = true <-> a <> b.
Proof.
  rewrite negb_true_iff. split.
  - intros H ->. by rewrite String.eqb_refl in H.
  - intros H. by apply String.eqb_neq.
Qed.

Module upgrade_facts.
Import exit upgrade.

Section WithArch.
Variable GOARCH : string.

Abbreviation runningArch := (upgrade.runningArch GOARCH).
Abbreviation normalizeArch := (upgrade.normalizeArch GOARCH).
Abbreviation UpdateInfo := (upgrade.UpdateInfo GOARCH).

Lemma normalizeArch_OSVersion dtk :
  registry.OSVersion (normalizeArch dtk) = registry.OSVersion dtk.
Proof. unfold upgrade.normalizeArch. by destruct (negb _). Qed.

Lemma enrich_enrich nv dtk : enrich (enrich nv dtk) dtk = enrich nv dtk.
Proof. done. Qed.

(** The two blocks of [UpdateInfo] unfolded. *)
Lemma matchKey_None info key osDTK dtk m k :
  info !! key = None -> matchKey info key osDTK dtk m k = k info m.
Proof. intros H. unfold matchKey. by rewrite H. Qed.

Lemma matchKey_mismatch info key osDTK dtk m k nv :
  info !! key = Some nv -> OSVersion nv <> osDTK ->
  matchKey info key osDTK dtk m k = Exited (mismatch (OSVersion nv) osDTK).
Proof.
  intros H Hne. unfold matchKey. rewrite H. simpl.
  apply eqb_false_iff in Hne. by rewrite Hne.
Qed.

Lemma matchKey_equal info key osDTK dtk m k nv :
  info !! key = Some nv -> OSVersion nv = osDTK ->
  matchKey info key osDTK dtk m k = k (<[key := enrich nv dtk]> info) true.
Proof.
  intros H He. unfold matchKey. rewrite H. simpl.
  rewrite He, String.eqb_refl. done.
Qed.

(** C8: for every node-version map and toolkit release, if the toolkit's
    arch-normalized kernel or RT-kernel version is a key of the map and the
    osVersion stored under that key differs from the toolkit's osVersion,
    [UpdateInfo] ends the process with the mismatch error and returns no
    map; when it returns, every record under one of the two keys had an
    equal osVersion and is replaced by its enrichment with the toolkit
    release, and no other record is touched. *)
Theorem UpdateInfo_osVersion_consistency
    (info : gmap string NodeVersion) (dtk : registry.DriverToolkitEntry)
    (imageURL : string) :
  let n := normalizeArch (withImageURL dtk imageURL) in
  (forall key nv,
      key = registry.KernelFullVersion n \/ key = registry.RTKernelFullVersion n ->
      info !! key = Some nv ->
      OSVersion nv <> registry.OSVersion dtk ->
      exists key' nv',
        (key' = registry.KernelFullVersion n \/ key' = registry.RTKernelFullVersion n) /\
        info !! key' = Some nv' /\
        OSVersion nv' <> registry.OSVersion dtk /\
        UpdateInfo info dtk imageURL
        = Exited (mismatch (OSVersion nv') (registry.OSVersion dtk)))
  /\
  (forall info' err,
      UpdateInfo info dtk imageURL = Returned (info', err) ->
      forall key nv,
        (key = registry.KernelFullVersion n \/ key = registry.RTKernelFullVersion n) ->
        info !! key = Some nv ->
        OSVersion nv = registry.OSVersion dtk /\ err = None /\
        info' !! key = Some (enrich nv n))
  /\
  (forall info',
      UpdateInfo info dtk imageURL = Returned (info', None) ->
      forall key,
        key <> registry.KernelFullVersion n -> key <> registry.RTKernelFullVersion n ->
        info' !! key = info !! key).
Proof.
  intros n. unfold upgrade.UpdateInfo. fold n.
  change (registry.OSVersion (withImageURL dtk imageURL)) with (registry.OSVersion dtk).
  set (kk := registry.KernelFullVersion n).
  set (rk := registry.RTKernelFullVersion n).
  set (os := registry.OSVersion dtk).
  assert (Hos : registry.OSVersion n = os) by apply normalizeArch_OSVersion.
  destruct (info !! kk) as [nvk|] eqn:Hk.
  - destruct (decide (OSVersion nvk = os)) as [Hek|Hnk].
    + rewrite (matchKey_equal _ _ _ _ _ _ _ Hk Hek).
      destruct (decide (rk = kk)) as [Heq|Hne].
      * (* both keys are the same string *)
        assert (Hr : <[kk:=enrich nvk n]> info !! rk = Some (enrich nvk n))
          by (rewrite Heq; apply lookup_insert_eq).
        rewrite (matchKey_equal _ _ _ _ _ _ _ Hr Hos). simpl.
        rewrite Heq, insert_insert_eq.
        split; [|split].
        -- intros key nv [->| ->] Hl Hn; rewrite ?Heq in Hl; congruence.
        -- intros info' err [= <- <-] key nv Hkey Hl.
           assert (key = kk) as -> by (destruct Hkey; congruence).
           rewrite lookup_insert_eq, enrich_enrich.
           split; [congruence|]. split; [done|congruence].
        -- intros info' [= <-] key H1 H2. by rewrite lookup_insert_ne.
      * assert (Hl1 : <[kk:=enrich nvk n]> info !! rk = info !! rk)
          by (by rewrite lookup_insert_ne).
        destruct (info !! rk) as [nvr|] eqn:Hr.
        -- destruct (decide (OSVersion nvr = os)) as [Her|Hnr].
           ++ rewrite (matchKey_equal _ _ _ _ _ _ _ Hl1 Her). simpl.
              split; [|split].
              ** intros key nv [->| ->] Hl Hn; congruence.
              ** intros info' err [= <- <-] key nv [->| ->] Hl.
                 --- rewrite lookup_insert_ne by done. rewrite lookup_insert_eq.
                     split; [congruence|]. split; [done|congruence].
                 --- rewrite lookup_insert_eq. split; [congruence|]. split; [done|congruence].
              ** intros info' [= <-] key H1 H2. by rewrite !lookup_insert_ne.
           ++ rewrite (matchKey_mismatch _ _ _ _ _ _ _ Hl1 Hnr).
              split; [|split]; [|intros; discriminate..].
              intros key nv _ _ _. exists rk, nvr. eauto.
        -- rewrite (matchKey_None _ _ _ _ _ _ Hl1). simpl.
           split; [|split].
           ++ intros key nv [->| ->] Hl Hn; congruence.
           ++ intros info' err [= <- <-] key nv [->| ->] Hl; [|congruence].
              rewrite lookup_insert_eq. split; [congruence|]. split; [done|congruence].
           ++ intros info' [= <-] key H1 H2. by rewrite lookup_insert_ne.
    + rewrite (matchKey_mismatch _ _ _ _ _ _ _ Hk Hnk).
      split; [|split]; [|intros; discriminate..].
      intros key nv _ _ _. exists kk, nvk. eauto.
  - rewrite (matchKey_None _ _ _ _ _ _ Hk).
    destruct (info !! rk) as [nvr|] eqn:Hr.
    + destruct (decide (OSVersion nvr = os)) as [Her|Hnr].
      * rewrite (matchKey_equal _ _ _ _ _ _ _ Hr Her). simpl.
        split; [|split].
        -- intros key nv [->| ->] Hl Hn; congruence.
        -- intros info' err [= <- <-] key nv [->| ->] Hl; [congruence|].
           rewrite lookup_insert_eq. split; [congruence|]. split; [done|congruence].
        -- intros info' [= <-] key H1 H2. by rewrite lookup_insert_ne.
      * rewrite (matchKey_mismatch _ _ _ _ _ _ _ Hr Hnr).
        split; [|split]; [|intros; discriminate..].
        intros key nv _ _ _. exists rk, nvr. eauto.
    + rewrite (matchKey_None _ _ _ _ _ _ Hr). simpl.
      split; [|split].
      * intros key nv [->| ->] Hl Hn; congruence.
      * intros info' err [= <- <-] key nv [->| ->] Hl; congruence.
      * intros info' [=].
Qed.

(** C9, as amended: [UpdateInfo] appends ["."] and the canonical
    architecture name (amd64 becomes x86_64, any other name is kept) to
    both the kernel and the RT-kernel version string exactly when the name
    does not occur anywhere in the kernel version string.  The kernel
    string used for matching then contains the name, normalizing twice is
    normalizing once, amd64 with kernel 4.18.0-305.el8 gives
    4.18.0-305.el8.x86_64, and the two normalized strings are the keys
    [UpdateInfo] searches. *)
Theorem normalizeArch_substring_test
    (info : gmap string NodeVersion) (dtk : registry.DriverToolkitEntry)
    (imageURL : string) :
  let n := normalizeArch dtk in
  (GOARCH = "amd64" -> runningArch = "x86_64") /\
  (GOARCH <> "amd64" -> runningArch = GOARCH) /\
  (Contains (registry.KernelFullVersion dtk) runningArch = false ->
     registry.KernelFullVersion n = registry.KernelFullVersion dtk +:+ "." +:+ runningArch /\
     registry.RTKernelFullVersion n
     = registry.RTKernelFullVersion dtk +:+ "." +:+ runningArch) /\
  (Contains (registry.KernelFullVersion dtk) runningArch = true -> n = dtk) /\
  Contains (registry.KernelFullVersion n) runningArch = true /\
  normalizeArch n = n /\
  (GOARCH = "amd64" -> registry.KernelFullVersion dtk = "4.18.0-305.el8" ->
     registry.KernelFullVersion n = "4.18.0-305.el8.x86_64") /\
  (let m := normalizeArch (withImageURL dtk imageURL) in
   info !! registry.KernelFullVersion m = None ->
   info !! registry.RTKernelFullVersion m = None ->
   UpdateInfo info dtk imageURL = Returned (∅, Some (notRunning m))).
Proof.
  intros n.
  assert (Hc : Contains (registry.KernelFullVersion n) runningArch = true).
  { subst n. unfold upgrade.normalizeArch.
    destruct (Contains (registry.KernelFullVersion dtk) runningArch) eqn:E; simpl;
      [done | apply Contains_dot_arch]. }
  refine (conj _ (conj _ (conj _ (conj _ (conj Hc (conj _ (conj _ _))))))).
  - intros ->. reflexivity.
  - intros Hne. unfold upgrade.runningArch.
    apply String.eqb_neq in Hne. by rewrite Hne.
  - intros H. subst n. unfold upgrade.normalizeArch. by rewrite H.
  - intros H. subst n. unfold upgrade.normalizeArch. by rewrite H.
  - unfold upgrade.normalizeArch at 1. by rewrite Hc.
  - intros Ha Hk. subst n. unfold upgrade.normalizeArch, upgrade.runningArch.
    rewrite Ha, Hk. reflexivity.
  - intros m Hk Hr. unfold upgrade.UpdateInfo. fold m.
    rewrite (matchKey_None _ _ _ _ _ _ Hk), (matchKey_None _ _ _ _ _ _ Hr). done.
Qed.

End WithArch.
End upgrade_facts.

Module preflight_facts.
Import preflight.

Section WithCollaborators.
Variable p : Collaborators.

(** The layer walk reports no error, whatever the registry does. *)
Lemma layersLoop_no_error repo auth k digests (s : State p) :
  snd (fst (layersLoop p repo auth k digests s)) = None.
Proof.
  revert s. induction digests as [|d digests IH]; intros s; simpl; [done|].
  unfold getLayerByDigest.
  destruct (GetLayerByDigest p repo d auth (world s)) as [[layer [e|]] w]; [done|].
  unfold extractToolkitRelease. simpl.
  destruct (ExtractToolkitRelease p layer w) as [[dtk [e|]] w']; [apply IH|].
  by destruct (negb _).
Qed.

(** The layer walk only fetches layers and reads them. *)
Lemma layersLoop_calls repo auth k digests (s : State p) :
  exists l, calls (snd (layersLoop p repo auth k digests s)) = calls s ++ l /\
            Forall (fun c => forall image, c <> CallGetLayersDigests image) l.
Proof.
  revert s. induction digests as [|d digests IH]; intros s; simpl.
  { exists []. by rewrite app_nil_r. }
  unfold getLayerByDigest.
  destruct (GetLayerByDigest p repo d auth (world s)) as [[layer [e|]] w]; simpl.
  { exists [CallGetLayerByDigest repo d]. split; [done|]. by repeat constructor. }
  unfold extractToolkitRelease. simpl.
  destruct (ExtractToolkitRelease p layer w) as [[dtk [e|]] w'].
  - destruct (IH {| world := w';
                    calls := (calls s ++ [CallGetLayerByDigest repo d])
                               ++ [CallExtractToolkitRelease layer] |}) as (l & -> & Hl).
    exists (CallGetLayerByDigest repo d :: CallExtractToolkitRelease layer :: l).
    simpl. rewrite <- !app_assoc. split; [done|]. by repeat constructor.
  - exists [CallGetLayerByDigest repo d; CallExtractToolkitRelease layer].
    split; [by destruct (negb _); simpl; rewrite <- app_assoc|]. by repeat constructor.
Qed.

(** C2, as amended: a registry failure while enumerating the layer digests
    of the workload image, or while fetching one layer by its digest, makes
    the check return the verdict [(false, nil)] and stop; the layer walk
    never returns an error, and [daemonSetPreflightCheck] returns one only
    when the DaemonSet cannot be converted or has no container. *)
Theorem daemonSetPreflightCheck_fetch_failure_is_false :
  (forall obj k (s : State p) ds c rest repo digests auth e w,
      FromUnstructured p obj = (ds, None) ->
      Containers (PodTemplateSpec_Spec (Template (Spec ds))) = c :: rest ->
      GetLayersDigests p (Image c) (world s) = ((repo, digests, auth, Some e), w) ->
      daemonSetPreflightCheck p obj k s
      = ((false, None),
         {| world := w; calls := calls s ++ [CallGetLayersDigests (Image c)] |}))
  /\
  (forall repo auth k digest digests (s : State p) layer e w,
      GetLayerByDigest p repo digest auth (world s) = ((layer, Some e), w) ->
      layersLoop p repo auth k (digest :: digests) s
      = ((false, None),
         {| world := w; calls := calls s ++ [CallGetLayerByDigest repo digest] |}))
  /\
  (forall obj k (s : State p) e,
      snd (fst (daemonSetPreflightCheck p obj k s)) = Some e ->
      snd (FromUnstructured p obj) = Some e \/
      (dsContainers p obj = [] /\ e = noContainer)).
Proof.
  split; [|split].
  - intros obj k s ds c rest repo digests auth e w Hc Hl Hg.
    unfold daemonSetPreflightCheck. rewrite Hc, Hl.
    unfold getLayersDigests. by rewrite Hg.
  - intros repo auth k digest digests s layer e w Hg. simpl.
    unfold getLayerByDigest. by rewrite Hg.
  - intros obj k s e. unfold daemonSetPreflightCheck, dsContainers.
    destruct (FromUnstructured p obj) as [ds [e'|]]; simpl; [intros [= ->]; by left|].
    destruct (Containers _) as [|c rest]; simpl; [intros [= <-]; by right|].
    unfold getLayersDigests.
    destruct (GetLayersDigests p (Image c) (world s)) as [[[[repo digests] auth] [e'|]] w];
      simpl; [done|].
    by rewrite layersLoop_no_error.
Qed.

(** C10: a DaemonSet whose pod template declares no containers makes the
    check fail with an error, before any registry call; with one container
    or more the outcome depends on the image of the first container only:
    two DaemonSets that agree on it give the same result from the same
    state, and the only image whose layer digests are enumerated is that
    one. *)
Theorem daemonSetPreflightCheck_first_container_only :
  (forall obj k (s : State p),
      dsContainers p obj = [] ->
      exists e, daemonSetPreflightCheck p obj k s = ((false, Some e), s))
  /\
  (forall obj1 obj2 k (s : State p) ds1 ds2 c1 rest1 c2 rest2,
      FromUnstructured p obj1 = (ds1, None) ->
      FromUnstructured p obj2 = (ds2, None) ->
      Containers (PodTemplateSpec_Spec (Template (Spec ds1))) = c1 :: rest1 ->
      Containers (PodTemplateSpec_Spec (Template (Spec ds2))) = c2 :: rest2 ->
      Image c1 = Image c2 ->
      daemonSetPreflightCheck p obj1 k s = daemonSetPreflightCheck p obj2 k s)
  /\
  (forall obj k (s : State p) ds c rest,
      FromUnstructured p obj = (ds, None) ->
      Containers (PodTemplateSpec_Spec (Template (Spec ds))) = c :: rest ->
      exists l,
        calls (snd (daemonSetPreflightCheck p obj k s))
        = calls s ++ CallGetLayersDigests (Image c) :: l /\
        Forall (fun call => forall image, call <> CallGetLayersDigests image) l).
Proof.
  split; [|split].
  - intros obj k s. unfold dsContainers, daemonSetPreflightCheck.
    destruct (FromUnstructured p obj) as [ds [e|]]; simpl; [by eexists|].
    intros ->. by eexists.
  - intros obj1 obj2 k s ds1 ds2 c1 rest1 c2 rest2 H1 H2 Hc1 Hc2 Hi.
    unfold daemonSetPreflightCheck. by rewrite H1, H2, Hc1, Hc2, Hi.
  - intros obj k s ds c rest Hc Hl.
    unfold daemonSetPreflightCheck. rewrite Hc, Hl.
    unfold getLayersDigests.
    destruct (GetLayersDigests p (Image c) (world s)) as [[[[repo digests] auth] [e|]] w];
      simpl.
    + exists []. by split.
    + destruct (layersLoop_calls repo auth k (reverse digests)
                  {| world := w; calls := calls s ++ [CallGetLayersDigests (Image c)] |})
        as (l & -> & Hf).
      exists l. simpl. by rewrite <- app_assoc.
Qed.

(** What the loop of [handleYAMLsCheck] comes to. *)
Lemma itemsLoop_find k verified items (s : State p) :
  itemsLoop p k verified items s
  = match find (isGoverning p) items with
    | None => ((verified, None), s)
    | Some obj =>
        if String.eqb (GetKind p obj) "BuildConfig" then ((verified, None), s)
        else
          let '((verified, err), s') := daemonSetPreflightCheck p obj k s in
          match err with
          | Some e => ((false, Some e), s')
          | None => ((verified, None), s')
          end
    end.
Proof.
  induction items as [|obj items IH]; simpl; [done|].
  unfold isGoverning.
  destruct (String.eqb (GetKind p obj) "BuildConfig") eqn:Eb; simpl; [by rewrite Eb|].
  destruct (String.eqb (GetKind p obj) "DaemonSet") eqn:Ed; simpl; [by rewrite Eb|].
  apply IH.
Qed.

Lemma find_hasKind_false items :
  hasKind p "DaemonSet" items = false ->
  match find (isGoverning p) items with
  | None => True
  | Some obj => String.eqb (GetKind p obj) "BuildConfig" = true
  end.
Proof.
  induction items as [|obj items IH]; simpl; [done|].
  unfold isGoverning.
  intros [Hd Hr]%orb_false_iff. rewrite Hd, orb_false_r.
  destruct (String.eqb (GetKind p obj) "BuildConfig") eqn:Eb; [done|]. by apply IH.
Qed.

(** C7, as amended: the first rendered object of kind BuildConfig or
    DaemonSet decides.  A BuildConfig there skips the image verification
    (the result is [true] and the state, with its call log, is untouched);
    a DaemonSet there is checked, whatever follows it; with neither, and in
    particular with no DaemonSet among the objects, the result is [true]
    and no registry call is made. *)
Theorem handleYAMLsCheck_first_governing_kind yamlsList k (s : State p) items :
  GetObjectsFromYAML p yamlsList = (items, None) ->
  handleYAMLsCheck p yamlsList k s
  = match find (isGoverning p) items with
    | None => ((true, None), s)
    | Some obj =>
        if String.eqb (GetKind p obj) "BuildConfig" then ((true, None), s)
        else
          let '((verified, err), s') := daemonSetPreflightCheck p obj k s in
          match err with
          | Some e => ((false, Some e), s')
          | None => ((verified, None), s')
          end
    end
  /\ (hasKind p "DaemonSet" items = false ->
      handleYAMLsCheck p yamlsList k s = ((true, None), s)).
Proof.
  intros Hp. unfold handleYAMLsCheck. rewrite Hp, itemsLoop_find.
  split; [done|].
  intros Hd%find_hasKind_false.
  destruct (find (isGoverning p) items) as [obj|]; [|done]. by rewrite Hd.
Qed.

End WithCollaborators.
End preflight_facts.

Module controllers_facts.
Import controllers.

(** ** The Go map index expression *)

Lemma index_ok {V} (zero : V) (m : gmap string V) (k : string) :
  snd (index zero m k) = true <-> is_Some (m !! k).
Proof.
  unfold index. destruct (m !! k); simpl; [split; eauto | split; [done | intros [? [=]]]].
Qed.

(** ** [Reconcile]: the update and delete lists *)

Lemma statusLoop_deleteList clusterVersions resourceVersions updateList deleteList :
  snd (statusLoop clusterVersions resourceVersions updateList deleteList)
  = deleteList
      ++ replicate (length (spec_deleteCandidates clusterVersions resourceVersions))
                   zeroOCPVersionInfo.
Proof.
  revert updateList deleteList.
  induction resourceVersions as [|v vs IH]; intros updateList deleteList; simpl.
  { by rewrite app_nil_r. }
  unfold index. destruct (clusterVersions !! v); simpl.
  - apply IH.
  - rewrite IH, <- app_assoc. done.
Qed.

(** C3: the delete list [Reconcile] computes has one entry for each
    version that has a status and is absent from the resolved map, and
    every entry is the zero [OCPVersionInfo], whose [ClusterVersion] is
    empty.  For the status of version 4.9.0 alone and an empty resolved
    map the list is [[OCPVersionInfo{}]], while the candidate is 4.9.0. *)
Theorem versionLists_deleteList_zero
    (clusterVersions : gmap string OCPVersionInfo) (statusOrder : list string)
    (clusterOrder : list OCPVersionInfo) :
  snd (versionLists clusterVersions statusOrder clusterOrder)
  = replicate (length (spec_deleteCandidates clusterVersions statusOrder)) zeroOCPVersionInfo
  /\ ClusterVersion <$> snd (versionLists clusterVersions statusOrder clusterOrder)
     = replicate (length (spec_deleteCandidates clusterVersions statusOrder)) ""
  /\ snd (versionLists ∅ ["4.9.0"] []) = [zeroOCPVersionInfo]
  /\ spec_deleteCandidates ∅ ["4.9.0"] = ["4.9.0"].
Proof.
  assert (H : snd (versionLists clusterVersions statusOrder clusterOrder)
              = replicate (length (spec_deleteCandidates clusterVersions statusOrder))
                          zeroOCPVersionInfo).
  { unfold versionLists.
    pose proof (statusLoop_deleteList clusterVersions statusOrder [] []) as H.
    destruct (statusLoop clusterVersions statusOrder [] []) as [u d]. simpl in *. done. }
  split; [exact H|]. split; [|by split].
  rewrite H, fmap_replicate. done.
Qed.

(** ** [sort.Slice] by name *)

Lemma insertByName_Permutation f l : insertByName f l ≡ₚ f :: l.
Proof.
  induction l as [|g l IH]; simpl; [done|].
  destruct (_ || _); [|done]. rewrite IH. apply Permutation_swap.
Qed.

Lemma sortByName_Permutation l : sortByName l ≡ₚ l.
Proof.
  induction l as [|f l IH]; simpl; [done|].
  unfold sortByName in *. simpl. by rewrite insertByName_Permutation, IH.
Qed.

Lemma nameLe_test f g :
  String.ltb (File_Name g) (File_Name f) || String.eqb (File_Name g) (File_Name f) = true
  <-> nameLe g f.
Proof.
  unfold nameLe, String.ltb, String.leb.
  destruct (String.compare (File_Name g) (File_Name f)) eqn:E; simpl.
  - apply String.compare_eq_iff in E. rewrite E, String.eqb_refl. tauto.
  - tauto.
  - split; [|done]. intros H%String.eqb_eq. rewrite H in E.
    pose proof (String.compare_antisym (File_Name f) (File_Name f)) as Ha.
    rewrite E in Ha. discriminate.
Qed.

Lemma nameLe_total f g : nameLe f g \/ nameLe g f.
Proof. unfold nameLe. destruct (String.leb_total (File_Name f) (File_Name g)); auto. Qed.

Lemma insertByName_Sorted f l : Sorted nameLe l -> Sorted nameLe (insertByName f l).
Proof.
  induction 1 as [|g l Hs IH Hh]; simpl; [by repeat constructor|].
  destruct (_ || _) eqn:E.
  - apply nameLe_test in E. constructor; [done|].
    destruct Hh as [|h l Hgh]; simpl; [by constructor|].
    destruct (_ || _); by constructor.
  - constructor; [by constructor|]. constructor.
    destruct (nameLe_total f g) as [|H]; [done|].
    apply nameLe_test in H. congruence.
Qed.

Lemma sortByName_Sorted l : Sorted nameLe (sortByName l).
Proof.
  induction l as [|f l IH]; [constructor|]. by apply insertByName_Sorted.
Qed.

(** The order of strings, byte by byte, is transitive. *)
Lemma compare_Lt_trans (a b c : string) :
  String.compare a b = Lt -> String.compare b c = Lt -> String.compare a c = Lt.
Proof.
  revert b c. induction a as [|x a IH]; intros [|y b] [|z c]; simpl; try done.
  unfold Ascii.compare.
  destruct (N.compare_spec (N_of_ascii x) (N_of_ascii y)) as [Hxy|Hxy|Hxy]; [| |done];
    destruct (N.compare_spec (N_of_ascii y) (N_of_ascii z)) as [Hyz|Hyz|Hyz]; try done.
  - rewrite Hxy, Hyz, N.compare_refl. apply IH.
  - intros _ _. by rewrite Hxy, (proj2 (N.compare_lt_iff _ _) Hyz).
  - intros _ _. by rewrite <- Hyz, (proj2 (N.compare_lt_iff _ _) Hxy).
  - intros _ _. by rewrite (proj2 (N.compare_lt_iff _ _) (N.lt_trans _ _ _ Hxy Hyz)).
Qed.

Lemma leb_trans (a b c : string) :
  String.leb a b = true -> String.leb b c = true -> String.leb a c = true.
Proof.
  unfold String.leb.
  destruct (String.compare a b) eqn:Eab; [| |done];
    destruct (String.compare b c) eqn:Ebc; try done; intros _ _.
  - apply String.compare_eq_iff in Eab, Ebc. subst.
    destruct (String.compare c c) eqn:E; try done.
    pose proof (String.compare_antisym c c) as Ha. rewrite E in Ha. discriminate.
  - apply String.compare_eq_iff in Eab. subst. by rewrite Ebc.
  - apply String.compare_eq_iff in Ebc. subst. by rewrite Eab.
  - by rewrite (compare_Lt_trans _ _ _ Eab Ebc).
Qed.

Lemma ltb_leb_false (a b : string) : String.ltb a b = true -> String.leb b a = false.
Proof.
  unfold String.ltb, String.leb. rewrite (String.compare_antisym b a).
  by destruct (String.compare a b).
Qed.

Lemma nameLe_trans f g h : nameLe f g -> nameLe g h -> nameLe f h.
Proof. unfold nameLe. apply leb_trans. Qed.

Lemma sortByName_StronglySorted l : StronglySorted nameLe (sortByName l).
Proof.
  apply Sorted.Sorted_StronglySorted; [|apply sortByName_Sorted].
  intros f g h. apply nameLe_trans.
Qed.

(** Around a state template of the sorted list: the ones before it do not
    sort after it, the ones after it do not sort before it. *)
Lemma sortByName_split l done failing rest :
  sortByName l = done ++ failing :: rest ->
  Forall (fun f => nameLe f failing) done /\ Forall (fun f => nameLe failing f) rest.
Proof.
  intros H. pose proof (sortByName_StronglySorted l) as Hs. rewrite H in Hs. split.
  - apply Forall_forall. intros f Hf.
    eapply (StronglySorted_app_1_elem_of nameLe done (failing :: rest)); [done|done|].
    apply elem_of_cons. by left.
  - apply StronglySorted_app_1_r in Hs. by apply StronglySorted_inv in Hs as [_ Hs].
Qed.

Lemma NoDup_fmap_filter {A B} (f : A -> B) (P : A -> bool) (l : list A) :
  NoDup (f <$> l) -> NoDup (f <$> List.filter P l).
Proof.
  induction l as [|x l IH]; simpl; [done|].
  intros [Hx Hl]%NoDup_cons. destruct (P x); simpl; [|by apply IH].
  apply NoDup_cons. split; [|by apply IH].
  intros Hin. apply Hx. apply list_elem_of_fmap in Hin as (y & -> & Hy).
  apply list_elem_of_fmap. exists y. split; [done|].
  apply list_elem_of_In, filter_In in Hy as [Hy _]. by apply list_elem_of_In.
Qed.

Lemma filter_andb {A} (P Q : A -> bool) (l : list A) :
  List.filter (fun x => P x && Q x) l = List.filter Q (List.filter P l).
Proof.
  induction l as [|x l IH]; simpl; [done|].
  destruct (P x); simpl; [|done]. destruct (Q x); by rewrite IH.
Qed.

(** ** The pattern [semver] *)

Lemma FindStringSubmatch_match entry :
  MatchString entry = true ->
  exists tail, FindStringSubmatch entry = entry :: majorOf entry :: minorOf entry :: tail.
Proof.
  intros H. unfold majorOf, minorOf, FindStringSubmatch. rewrite H.
  destruct (regexp.cut "+" entry) as [core_pre build].
  destruct (regexp.cut "-" core_pre) as [core prerelease].
  destruct (regexp.cut "." core) as [major rest].
  destruct (regexp.cut "." (default "" rest)) as [minor patch].
  simpl. by eexists.
Qed.

Lemma scanNodes_find full nodes imageURL :
  scanNodes full nodes imageURL
  = match find (isMatch full) nodes with
    | Some version => Payload version
    | None => imageURL
    end.
Proof.
  induction nodes as [|n nodes IH]; simpl; [done|].
  unfold isMatch at 1. by destruct (_ && _).
Qed.

Section WithReconciler.
Variable r : SpecialResourceModuleReconciler.

Abbreviation chart := (Chart (ChartMeta r) (Values r)).
Abbreviation module := (SpecialResourceModule (HelmChart r) (Values r)).
Abbreviation metadata := (Metadata (HelmChart r) (Values r)).

(** ** [reconcileChart] *)

Lemma reconciledInputMap_lookup (reconciledInput : list string) (x : string) :
  is_Some (reconciledInputMap reconciledInput !! x) <-> x ∈ reconciledInput.
Proof.
  unfold reconciledInputMap.
  assert (G : forall (m : gmap string bool),
             is_Some (foldl (fun m element => <[element := true]> m) m reconciledInput !! x)
             <-> is_Some (m !! x) \/ x ∈ reconciledInput).
  { induction reconciledInput as [|y l IH]; intros m; simpl.
    - rewrite elem_of_nil. tauto.
    - rewrite IH, elem_of_cons, lookup_insert_is_Some.
      destruct (decide (y = x)) as [->|]; [tauto|]. intuition congruence. }
  rewrite G, lookup_empty. split; [intros [[? [=]]|?]; done | by right].
Qed.

Lemma listed_elem_of reconciledInput f :
  listed reconciledInput f = true <-> File_Name f ∈ reconciledInput.
Proof. unfold listed. by rewrite index_ok, reconciledInputMap_lookup. Qed.

(** The first loop is three filters. *)
Lemma partitionTemplates_filter reconciledInput templates stateYAMLS result nostate :
  partitionTemplates r (reconciledInputMap reconciledInput) templates stateYAMLS result nostate
  = (stateYAMLS
       ++ List.filter (fun f => ValidStateName r (File_Name f)
                                && negb (listed reconciledInput f)) templates,
     result
       ++ (File_Name <$> List.filter (fun f => ValidStateName r (File_Name f)
                                               && listed reconciledInput f) templates),
     nostate ++ List.filter (fun f => negb (ValidStateName r (File_Name f))) templates).
Proof.
  revert stateYAMLS result nostate.
  induction templates as [|t ts IH]; intros stateYAMLS result nostate; simpl.
  { by rewrite !app_nil_r. }
  fold (listed reconciledInput t).
  destruct (ValidStateName r (File_Name t)); simpl.
  - destruct (listed reconciledInput t); simpl; rewrite IH, <- ?app_assoc; done.
  - rewrite IH, <- app_assoc. done.
Qed.

(** A step that succeeds has called the templating collaborator once,
    for its state template. *)
Lemma applyState_calls srm md nostate stateYAML (s s' : State r) err :
  applyState r srm md nostate stateYAML s = Some (err, s') ->
  (runNames r (calls s') = runNames r (calls s) ++ [File_Name stateYAML]) \/
  (s' = s /\ is_Some err).
Proof.
  unfold applyState.
  destruct (CoalesceValues r _ _) as [v1 [e1|]]; [intros [= <- <-]; right; eauto|].
  destruct (ToUnstructured r md) as [rinfo [e2|]]; [intros [= <- <-]; right; eauto|].
  destruct (CoalesceValues r _ rinfo) as [v2 [e3|]]; [intros [= <- <-]; right; eauto|].
  unfold call. destruct (Helmer_Run _ _ _ _ _ _ _ _ _ _) as [e w].
  intros [= <- <-]. left. simpl.
  unfold runNames. rewrite omap_app. f_equal. simpl.
  unfold stepOf, withValues, withTemplates. simpl. by rewrite last_snoc.
Qed.

Lemma applied_runNames srm md nostate done (s s' : State r) :
  applied r srm md nostate done s s' ->
  runNames r (calls s') = runNames r (calls s) ++ (File_Name <$> done).
Proof.
  induction 1 as [s|f fs s s1 s2 Hf _ IH]; simpl; [by rewrite app_nil_r|].
  rewrite IH. destruct (applyState_calls _ _ _ _ _ _ _ Hf) as [->|[_ [? [=]]]].
  by rewrite <- app_assoc.
Qed.

Lemma statesLoop_abort srm md nostate done failing rest result (s s1 s2 : State r) e :
  applied r srm md nostate done s s1 ->
  applyState r srm md nostate failing s1 = Some (Some e, s2) ->
  statesLoop r srm md nostate (done ++ failing :: rest) result s
  = Some ((result ++ (File_Name <$> done), Some e), s2).
Proof.
  intros Hd Hf. revert result.
  induction Hd as [s|f fs s s' s1 Hs _ IH]; intros result; simpl.
  - unfold bind. rewrite Hf. by rewrite app_nil_r.
  - unfold bind at 1. rewrite Hs. rewrite IH by done. by rewrite <- app_assoc.
Qed.

Lemma elem_of_stateNames (c : chart) x :
  x ∈ stateNames r c <->
  exists f, f ∈ Chart_Templates c /\ ValidStateName r (File_Name f) = true /\ File_Name f = x.
Proof.
  unfold stateNames. rewrite list_elem_of_fmap. split.
  - intros (f & -> & Hf). apply list_elem_of_In, filter_In in Hf as [Hf Hv].
    exists f. by rewrite list_elem_of_In.
  - intros (f & Hf & Hv & <-). exists f. split; [done|].
    apply list_elem_of_In, filter_In. by rewrite <- list_elem_of_In.
Qed.

(** The names [reconcileChart] records without applying: the state
    units of the bundle that the supplied list names. *)
Lemma skipped_elem_of reconciledInput (c : chart) x :
  x ∈ (File_Name <$> List.filter (fun f => ValidStateName r (File_Name f)
                                           && listed reconciledInput f)
                                 (Chart_Templates c))
  <-> x ∈ reconciledInput /\ x ∈ stateNames r c.
Proof.
  rewrite elem_of_stateNames, list_elem_of_fmap. split.
  - intros (f & -> & Hf). apply list_elem_of_In, filter_In in Hf as [Hf Hv].
    apply andb_true_iff in Hv as [Hv Hl]. apply listed_elem_of in Hl.
    split; [done|]. exists f. by rewrite list_elem_of_In.
  - intros (Hx & f & Hf & Hv & <-). exists f. split; [done|].
    apply list_elem_of_In, filter_In. rewrite <- list_elem_of_In. split; [done|].
    apply andb_true_iff. split; [done|]. by apply listed_elem_of.
Qed.

(** C6, as amended: when the steps for the state templates [done] succeed
    and the step for the next one, [failing], fails with [e],
    [reconcileChart] returns at once with [e] and with the supplied names
    that are state units of the bundle, followed by the names of [done]; a
    supplied name that names no state unit of the bundle is not returned.
    The state it leaves is the one the failing step left: the applies of
    the pass are those of [done] and at most that of [failing].  The units
    are taken in the order of their names: those of [done] do not sort
    after [failing], and a unit still to apply whose name sorts after that
    of [failing] is among the ones left, is not applied and its name is not
    returned.  The name of [failing], like that of any unit left, is not
    among the supplied names returned: it is returned only when a unit of
    [done] bears it too, which distinct names exclude. *)
Theorem reconcileChart_abort_keeps_progress
    (srm : module) (md : metadata) (reconciledInput : list string) (s s1 s2 : State r)
    (c : chart) (w : World r) (stateYAMLS templates done rest : list File)
    (skipped : list string) (failing : File) (e : error) :
  Helmer_Load r (Spec_Chart (SRM_Spec srm)) (world s) = ((c, None), w) ->
  partitionTemplates r (reconciledInputMap reconciledInput) (Chart_Templates c) [] [] []
  = (stateYAMLS, skipped, templates) ->
  sortByName stateYAMLS = done ++ failing :: rest ->
  applied r srm md (withTemplates r c templates) done
          (Build_State w (calls s ++ [CallLoad (Spec_Chart (SRM_Spec srm))])) s1 ->
  applyState r srm md (withTemplates r c templates) failing s1 = Some (Some e, s2) ->
  reconcileChart r srm md reconciledInput s
  = Some ((skipped ++ (File_Name <$> done), Some e), s2)
  /\ (forall x, x ∈ skipped <-> x ∈ reconciledInput /\ x ∈ stateNames r c)
  /\ (forall x, x ∈ skipped ++ (File_Name <$> done)
                <-> (x ∈ reconciledInput /\ x ∈ stateNames r c) \/ x ∈ (File_Name <$> done))
  /\ (Forall (fun f => nameLe f failing) done /\ Forall (fun f => nameLe failing f) rest)
  /\ (exists l,
         (l = [] \/ l = [File_Name failing]) /\
         runNames r (calls s2) = runNames r (calls s) ++ (File_Name <$> done) ++ l /\
         (forall u, u ∈ Chart_Templates c ->
                    ValidStateName r (File_Name u) = true ->
                    File_Name u ∉ reconciledInput ->
                    String.ltb (File_Name failing) (File_Name u) = true ->
                    u ∈ rest /\
                    (File_Name u ∉ skipped ++ (File_Name <$> done)) /\
                    (File_Name u ∉ (File_Name <$> done) ++ l)))
  /\ (forall u, u ∈ failing :: rest -> File_Name u ∉ skipped)
  /\ (NoDup (stateNames r c) ->
      forall u, u ∈ failing :: rest -> File_Name u ∉ skipped ++ (File_Name <$> done)).
Proof.
  intros Hload Hpart Hsort Hdone Hfail.
  rewrite partitionTemplates_filter in Hpart. simpl in Hpart.
  injection Hpart as <- <- <-.
  set (pending := List.filter (fun f => ValidStateName r (File_Name f)
                                        && negb (listed reconciledInput f))
                              (Chart_Templates c)) in *.
  assert (Hskip : forall x,
             x ∈ (File_Name <$> List.filter (fun f => ValidStateName r (File_Name f)
                                                      && listed reconciledInput f)
                                            (Chart_Templates c))
             <-> x ∈ reconciledInput /\ x ∈ stateNames r c)
    by apply skipped_elem_of.
  assert (Hperm : done ++ failing :: rest ≡ₚ pending).
  { rewrite <- Hsort. apply sortByName_Permutation. }
  assert (Hpending : forall u, u ∈ done ++ failing :: rest ->
                               File_Name u ∉ reconciledInput).
  { intros u Hu. rewrite Hperm in Hu. apply list_elem_of_In, filter_In in Hu as [_ Hu].
    apply andb_true_iff in Hu as [_ Hu]. apply negb_true_iff in Hu.
    intros Hin. apply listed_elem_of in Hin. congruence. }
  assert (Hleft : forall u, u ∈ failing :: rest ->
                            File_Name u ∉ File_Name <$> List.filter
                              (fun f => ValidStateName r (File_Name f)
                                        && listed reconciledInput f) (Chart_Templates c)).
  { intros u Hu Hin. apply Hskip in Hin as [Hin _]. revert Hin. apply Hpending.
    apply elem_of_app. by right. }
  assert (Hnames : NoDup (stateNames r c) ->
                   NoDup ((File_Name <$> done) ++ File_Name failing :: (File_Name <$> rest))).
  { intros Hnd.
    assert (Hp : NoDup (File_Name <$> pending)).
    { unfold pending.
      rewrite (filter_andb (fun f => ValidStateName r (File_Name f))
                 (fun f => negb (listed reconciledInput f))).
      by apply NoDup_fmap_filter. }
    rewrite <- Hperm in Hp. by rewrite fmap_app in Hp. }
  destruct (sortByName_split _ _ _ _ Hsort) as [Hbefore Hafter].
  assert (Hafterwards : forall u, u ∈ Chart_Templates c ->
             ValidStateName r (File_Name u) = true ->
             File_Name u ∉ reconciledInput ->
             String.ltb (File_Name failing) (File_Name u) = true ->
             u ∈ rest /\ (File_Name u ∉ File_Name <$> done) /\
             File_Name u <> File_Name failing).
  { intros u Hu Hv Hl Hlt. apply ltb_leb_false in Hlt.
    assert (Hne : File_Name u <> File_Name failing).
    { intros Heq. rewrite Heq in Hlt.
      destruct (String.leb_total (File_Name failing) (File_Name failing)); congruence. }
    assert (Hnd : File_Name u ∉ File_Name <$> done).
    { intros Hin. apply list_elem_of_fmap in Hin as (d & Heq & Hd).
      rewrite Forall_forall in Hbefore. specialize (Hbefore d Hd).
      unfold nameLe in Hbefore. rewrite <- Heq in Hbefore. congruence. }
    split; [|by split].
    assert (Hin : u ∈ done ++ failing :: rest).
    { rewrite Hperm. apply list_elem_of_In, filter_In. rewrite <- list_elem_of_In.
      split; [done|]. rewrite Hv. simpl. apply negb_true_iff.
      destruct (listed reconciledInput u) eqn:E; [|done].
      by apply listed_elem_of in E. }
    apply elem_of_app in Hin as [Hin|Hin].
    { exfalso. apply Hnd. apply list_elem_of_fmap. by exists u. }
    apply elem_of_cons in Hin as [->|Hin]; done. }
  split; [|split; [|split; [|split; [|split; [|split]]]]].
  - unfold reconcileChart, bind, call. rewrite Hload.
    rewrite partitionTemplates_filter. simpl. fold pending. rewrite Hsort.
    by eapply statesLoop_abort.
  - exact Hskip.
  - intros x. rewrite elem_of_app, Hskip. tauto.
  - by split.
  - apply applied_runNames in Hdone. simpl in Hdone.
    unfold runNames in Hdone at 2. rewrite omap_app in Hdone. simpl in Hdone.
    rewrite app_nil_r in Hdone. fold (runNames r (calls s)) in Hdone.
    assert (Hrest : forall l, (l = [] \/ l = [File_Name failing]) ->
               forall u, u ∈ Chart_Templates c ->
                 ValidStateName r (File_Name u) = true ->
                 File_Name u ∉ reconciledInput ->
                 String.ltb (File_Name failing) (File_Name u) = true ->
                 u ∈ rest /\
                 (File_Name u ∉ (File_Name <$> List.filter
                                   (fun f => ValidStateName r (File_Name f)
                                             && listed reconciledInput f) (Chart_Templates c))
                                ++ (File_Name <$> done)) /\
                 (File_Name u ∉ (File_Name <$> done) ++ l)).
    { intros l Hl u Hu Hv Hli Hlt.
      destruct (Hafterwards u Hu Hv Hli Hlt) as (Hur & Hnd & Hne).
      split; [done|]. split.
      - intros [Hin|Hin]%elem_of_app; [|done].
        apply (Hleft u); [|done]. apply elem_of_cons. by right.
      - intros [Hin|Hin]%elem_of_app; [done|].
        destruct Hl as [->| ->]; [by apply elem_of_nil in Hin|].
        apply elem_of_cons in Hin as [Hin|Hin]; [done | by apply elem_of_nil in Hin]. }
    pose proof Hfail as Hcalls. apply applyState_calls in Hcalls as [Hr|[-> _]].
    + exists [File_Name failing]. split; [by right|].
      split; [by rewrite Hr, Hdone, <- app_assoc|]. apply Hrest. by right.
    + exists []. split; [by left|].
      split; [by rewrite Hdone, app_nil_r|]. apply Hrest. by left.
  - exact Hleft.
  - intros Hnd u Hu Hin. apply Hnames in Hnd.
    apply NoDup_app in Hnd as (_ & Hdis & _).
    apply elem_of_app in Hin as [Hin|Hin]; [by apply (Hleft u)|].
    apply (Hdis _ Hin).
    apply elem_of_cons in Hu as [->|Hu]; [apply elem_of_cons; by left|].
    apply elem_of_cons. right. apply list_elem_of_fmap. by exists u.
Qed.

(** When the supplied list names every state unit of the bundle,
    [reconcileChart] loads the bundle, applies nothing (the call log gains
    the load and no apply) and returns the empty list with no error, not
    the supplied names. *)
Lemma reconcileChart_complete_returns_nil
    (srm : module) (md : metadata) (reconciledInput : list string) (s : State r)
    (c : chart) (w : World r) :
  Helmer_Load r (Spec_Chart (SRM_Spec srm)) (world s) = ((c, None), w) ->
  (forall x, x ∈ stateNames r c -> x ∈ reconciledInput) ->
  reconcileChart r srm md reconciledInput s
  = Some (([], None), Build_State w (calls s ++ [CallLoad (Spec_Chart (SRM_Spec srm))]))
  /\ List.filter (isRun r) (calls s ++ [CallLoad (Spec_Chart (SRM_Spec srm))])
     = List.filter (isRun r) (calls s).
Proof.
  intros Hload Hall. split.
  - assert (Hnil : List.filter (fun f => ValidStateName r (File_Name f)
                                           && negb (listed reconciledInput f))
                               (Chart_Templates c) = []).
    { destruct (List.filter _ _) as [|f l] eqn:E; [done|]. exfalso.
      assert (Hin : In f (f :: l)) by (by left).
      rewrite <- E in Hin. apply filter_In in Hin as [Hf Hv].
      apply andb_true_iff in Hv as [Hv Hl]. apply negb_true_iff in Hl.
      assert (listed reconciledInput f = true); [|congruence].
      apply listed_elem_of, Hall, elem_of_stateNames. exists f.
      by rewrite list_elem_of_In. }
    unfold reconcileChart, bind, call. rewrite Hload.
    rewrite partitionTemplates_filter. simpl. rewrite Hnil. done.
  - rewrite List.filter_app. simpl. by rewrite app_nil_r.
Qed.

(** ** [getImageFromVersion] *)

(** A request never panics, and logs at most its own call. *)
Lemma fetchGraph_total url (s : State r) :
  exists res s', fetchGraph r url s = Some (res, s') /\
                 (calls s' = calls s ++ [CallDo url] \/
                  (s' = s /\ is_Some (snd res))).
Proof.
  unfold fetchGraph.
  destruct (http_NewRequest r url) as [e|].
  { do 2 eexists. split; [done|]. right. eauto. }
  unfold bind, call.
  destruct (client_Do r url (world s)) as [[resp [e|]] w]; simpl.
  { do 2 eexists. split; [done|]. by left. }
  destruct (negb _); [do 2 eexists; split; [done|]; by left|].
  destruct (ReadErr resp); [do 2 eexists; split; [done|]; by left|].
  destruct (json_Unmarshal r (Body resp)) as [versions [e|]];
    do 2 eexists; (split; [done|]); by left.
Qed.

Lemma fetchGraph_ok_calls url (s s' : State r) versions :
  fetchGraph r url s = Some ((versions, None), s') ->
  calls s' = calls s ++ [CallDo url].
Proof.
  intros H. destruct (fetchGraph_total url s) as (res & s1 & E & [C|[_ [e He]]]);
    rewrite H in E; injection E as <- <-; [done | discriminate].
Qed.

Lemma streamsLoop_total full major minor ss imageURL (s : State r) :
  exists res s' l,
    streamsLoop r full major minor ss imageURL s = Some (res, s') /\
    calls s' = calls s ++ l /\
    l `prefix_of` ((fun stream => CallDo (graphURL stream major minor)) <$> ss).
Proof.
  revert imageURL s. induction ss as [|stream ss IH]; intros imageURL s; simpl.
  { exists (imageURL, None), s, []. by rewrite app_nil_r. }
  unfold bind.
  destruct (fetchGraph_total (graphURL stream major minor) s)
    as ([versions err] & s1 & -> & Hc).
  destruct err as [e|].
  - destruct Hc as [Hc|[-> _]].
    + do 2 eexists. exists [CallDo (graphURL stream major minor)].
      split; [done|]. split; [done|]. by apply prefix_cons, prefix_nil.
    + do 2 eexists. exists []. rewrite app_nil_r. split; [done|]. split; [done|].
      apply prefix_nil.
  - destruct Hc as [Hc|[_ [? [=]]]].
    destruct (IH (scanNodes full versions imageURL) s1) as (res & s' & l & -> & Hl & Hp).
    exists res, s', (CallDo (graphURL stream major minor) :: l).
    split; [done|]. split; [by rewrite Hl, Hc, <- app_assoc|]. by apply prefix_cons.
Qed.

Lemma getImageFromVersion_unfold entry :
  MatchString entry = true ->
  getImageFromVersion r entry
  = bind (streamsLoop r entry (majorOf entry) (minorOf entry) streams "")
         (fun '(imageURL, err) =>
            match err with
            | Some e => ret ("", Some e)
            | None =>
                if isEmpty imageURL then ret (imageURL, Some (versionNotFound entry))
                else ret (imageURL, None)
            end).
Proof.
  intros Hm. destruct (FindStringSubmatch_match entry Hm) as [tail Hf].
  unfold getImageFromVersion. rewrite Hf. reflexivity.
Qed.

Lemma getImageFromVersion_total entry (s : State r) :
  MatchString entry = true ->
  exists res s' l,
    getImageFromVersion r entry s = Some (res, s') /\
    calls s' = calls s ++ l /\
    l `prefix_of` channelCalls r entry.
Proof.
  intros Hm. rewrite (getImageFromVersion_unfold entry Hm). unfold bind.
  destruct (streamsLoop_total entry (majorOf entry) (minorOf entry) streams "" s)
    as ([imageURL err] & s' & l & -> & Hl & Hp).
  destruct err; [by eauto 6|]. destruct (isEmpty imageURL); by eauto 6.
Qed.

(** C4, as amended: for a valid semantic version, [getImageFromVersion]
    returns (it does not panic) and its requests are a prefix of those of
    the channels fast, stable, candidate, in this order.  When the three
    requests succeed, all three are made and the image returned is what the
    last channel with a matching node assigned, a later channel overwriting
    an earlier one; with no matching node the error is "version not found".
    Within one channel the first node with the full version and a non-empty
    payload is taken. *)
Theorem getImageFromVersion_last_channel_wins (entry : string) (s : State r) :
  MatchString entry = true ->
  (exists res s' l,
      getImageFromVersion r entry s = Some (res, s') /\
      calls s' = calls s ++ l /\
      l `prefix_of` channelCalls r entry)
  /\
  (forall fast stable candidate (s1 s2 s3 : State r),
      fetchGraph r (graphURL "fast" (majorOf entry) (minorOf entry)) s
      = Some ((fast, None), s1) ->
      fetchGraph r (graphURL "stable" (majorOf entry) (minorOf entry)) s1
      = Some ((stable, None), s2) ->
      fetchGraph r (graphURL "candidate" (majorOf entry) (minorOf entry)) s2
      = Some ((candidate, None), s3) ->
      let imageURL := lastMatch entry [fast; stable; candidate] "" in
      getImageFromVersion r entry s
      = Some ((imageURL,
               if isEmpty imageURL then Some (versionNotFound entry) else None), s3)
      /\ calls s3 = calls s ++ channelCalls r entry)
  /\
  (forall nodes imageURL,
      scanNodes entry nodes imageURL
      = match find (isMatch entry) nodes with
        | Some version => Payload version
        | None => imageURL
        end).
Proof.
  intros Hm. split; [by apply getImageFromVersion_total|]. split; [|apply scanNodes_find].
  intros fast stable candidate s1 s2 s3 H1 H2 H3 imageURL.
  split.
  - rewrite (getImageFromVersion_unfold entry Hm). unfold streams. simpl.
    unfold bind at 1. unfold bind at 1. rewrite H1. unfold bind at 1. rewrite H2.
    unfold bind at 1. rewrite H3. simpl.
    change (scanNodes entry candidate (scanNodes entry stable (scanNodes entry fast "")))
      with imageURL.
    by destruct (isEmpty imageURL).
  - rewrite (fetchGraph_ok_calls _ _ _ _ H3), (fetchGraph_ok_calls _ _ _ _ H2),
      (fetchGraph_ok_calls _ _ _ _ H1), <- !app_assoc. done.
Qed.

(** ** [getOCPVersions] *)

Lemma getAllResources_total kind apiVersion namespace name (s : State r) :
  is_Some (getAllResources r kind apiVersion namespace name s).
Proof.
  unfold getAllResources, bind, call.
  destruct (String.eqb name "").
  - destruct (KubeClient_List r kind apiVersion (world s)) as [[items [e|]] w]; by eexists.
  - destruct (KubeClient_Get r kind apiVersion namespace name (world s)) as [[obj err] w].
    by eexists.
Qed.

Lemma getVersionInfoFromImage_total entry (s : State r) :
  is_Some (getVersionInfoFromImage r entry s).
Proof.
  unfold getVersionInfoFromImage, bind, call.
  destruct (Registry_LastLayer r entry (world s)) as [[l1 [e|]] w1]; simpl; [by eexists|].
  destruct (Registry_ReleaseManifests r l1 w1) as [[[version dtkURL] [e|]] w2]; simpl;
    [by eexists|].
  destruct (Registry_LastLayer r dtkURL w2) as [[l2 [e|]] w3]; simpl; [by eexists|].
  destruct (Registry_ExtractToolkitRelease r l2 w3) as [[dtkEntry [e|]] w4]; by eexists.
Qed.

Lemma imageOf_total element (s : State r) : is_Some (imageOf r element s).
Proof.
  unfold imageOf. destruct (MatchString element) eqn:Hm.
  - unfold bind. destruct (getImageFromVersion_total element s Hm)
      as ([tmp err] & s' & l & -> & _). destruct err; by eexists.
  - destruct (_ || _); by eexists.
Qed.

Lemma elementsLoop_total versionMap result (s : State r) :
  exists m err s', elementsLoop r versionMap result s = Some ((m, err), s') /\
                   (is_Some err -> m = ∅).
Proof.
  revert versionMap s. induction result as [|x xs IH]; intros versionMap s; simpl.
  { do 3 eexists. split; [done|]. intros [? [=]]. }
  unfold bind at 1. destruct (imageOf_total x s) as [[[image err] s1] ->].
  destruct err as [e|]; [by do 3 eexists|].
  unfold bind at 1. destruct (getVersionInfoFromImage_total image s1) as [[[info err] s2] ->].
  destruct err as [e|]; [by do 3 eexists|]. apply IH.
Qed.

Lemma objsLoop_total path versionMap objs (s : State r) :
  exists m err s', objsLoop r path versionMap objs s = Some ((m, err), s') /\
                   (is_Some err -> m = ∅).
Proof.
  revert versionMap s. induction objs as [|obj objs IH]; intros versionMap s; simpl.
  { do 3 eexists. split; [done|]. intros [? [=]]. }
  destruct (GetJSONPath r path obj) as [result [e|]]; [apply IH|].
  unfold bind. destruct (elementsLoop_total versionMap result s) as (m & err & s1 & -> & _).
  destruct err as [e|]; [by do 3 eexists|]. apply IH.
Qed.

Lemma watchLoop_total versionMap watchList (s : State r) :
  exists m err s', watchLoop r versionMap watchList s = Some ((m, err), s') /\
                   (is_Some err -> m = ∅).
Proof.
  revert versionMap s. induction watchList as [|w ws IH]; intros versionMap s; simpl.
  { do 3 eexists. split; [done|]. intros [? [=]]. }
  unfold bind at 1.
  destruct (getAllResources_total (Watch_Kind w) (Watch_ApiVersion w) (Watch_Namespace w)
              (Watch_Name w) s) as [[[objs err] s1] ->].
  destruct err as [e|].
  { destruct (IsNotFound e); [apply IH | by do 3 eexists]. }
  destruct (filterResources r (Watch_Selector w) objs) as [objs' [e|]]; [by do 3 eexists|].
  unfold bind.
  destruct (objsLoop_total (Watch_Path w) versionMap objs' s1) as (m & err & s2 & -> & _).
  destruct err as [e|]; [by do 3 eexists|]. apply IH.
Qed.

(** C5, as amended: the resolution returns, and returns no map when it
    returns an error.  A retrieval error that is not "not found", a
    filtering error, a string that is neither a version nor an image, a
    graph-lookup error and an image-walking error abort it with that
    error, from whichever loop they occur in.  A "not found" of the
    retrieval, named or not, skips the watch; a failed extraction at the
    declared path skips the object. *)
Theorem getOCPVersions_abort_or_skip :
  (* the whole resolution returns, and with an error it returns no map *)
  (forall watchList (s : State r),
      exists m err s', getOCPVersions r watchList s = Some ((m, err), s') /\
                       (is_Some err -> m = ∅))
  /\
  (* retrieval: not found skips the watch, anything else aborts *)
  (forall versionMap resource watchList (s s1 : State r) objs e,
      getAllResources r (Watch_Kind resource) (Watch_ApiVersion resource)
                      (Watch_Namespace resource) (Watch_Name resource) s
      = Some ((objs, Some e), s1) ->
      watchLoop r versionMap (resource :: watchList) s
      = if IsNotFound e then watchLoop r versionMap watchList s1
        else Some ((∅, Some e), s1))
  /\
  (* filtering *)
  (forall versionMap resource watchList (s s1 : State r) objs objs' e,
      getAllResources r (Watch_Kind resource) (Watch_ApiVersion resource)
                      (Watch_Namespace resource) (Watch_Name resource) s
      = Some ((objs, None), s1) ->
      filterResources r (Watch_Selector resource) objs = (objs', Some e) ->
      watchLoop r versionMap (resource :: watchList) s = Some ((∅, Some e), s1))
  /\
  (* extraction at the declared path: the object is skipped *)
  (forall path versionMap obj objs (s : State r) result e,
      GetJSONPath r path obj = (result, Some e) ->
      objsLoop r path versionMap (obj :: objs) s = objsLoop r path versionMap objs s)
  /\
  (* classification *)
  (forall versionMap element result (s : State r),
      MatchString element = false ->
      Contains element "@" = false -> Contains element ":" = false ->
      elementsLoop r versionMap (element :: result) s
      = Some ((∅, Some (formatError element)), s))
  /\
  (* graph lookup *)
  (forall versionMap element result (s s1 : State r) image e,
      MatchString element = true ->
      getImageFromVersion r element s = Some ((image, Some e), s1) ->
      elementsLoop r versionMap (element :: result) s = Some ((∅, Some e), s1))
  /\
  (* image walking *)
  (forall versionMap element result (s s1 s2 : State r) image info e,
      imageOf r element s = Some ((image, None), s1) ->
      getVersionInfoFromImage r image s1 = Some ((info, Some e), s2) ->
      elementsLoop r versionMap (element :: result) s = Some ((∅, Some e), s2))
  /\
  (* an error of an inner loop leaves the outer ones *)
  (forall path versionMap obj objs (s s1 : State r) result m e,
      GetJSONPath r path obj = (result, None) ->
      elementsLoop r versionMap result s = Some ((m, Some e), s1) ->
      objsLoop r path versionMap (obj :: objs) s = Some ((∅, Some e), s1))
  /\
  (forall versionMap resource watchList (s s1 s2 : State r) objs objs' m e,
      getAllResources r (Watch_Kind resource) (Watch_ApiVersion resource)
                      (Watch_Namespace resource) (Watch_Name resource) s
      = Some ((objs, None), s1) ->
      filterResources r (Watch_Selector resource) objs = (objs', None) ->
      objsLoop r (Watch_Path resource) versionMap objs' s1 = Some ((m, Some e), s2) ->
      watchLoop r versionMap (resource :: watchList) s = Some ((∅, Some e), s2)).
Proof.
  repeat apply conj.
  - intros watchList s. apply watchLoop_total.
  - intros versionMap resource watchList s s1 objs e H. simpl. unfold bind at 1.
    rewrite H. by destruct (IsNotFound e).
  - intros versionMap resource watchList s s1 objs objs' e H Hf. simpl. unfold bind at 1.
    by rewrite H, Hf.
  - intros path versionMap obj objs s result e H. simpl. by rewrite H.
  - intros versionMap element result s Hm Ha Hc. simpl. unfold bind at 1, imageOf.
    by rewrite Hm, Ha, Hc.
  - intros versionMap element result s s1 image e Hm H. simpl. unfold bind at 1, imageOf.
    rewrite Hm. unfold bind at 1. by rewrite H.
  - intros versionMap element result s s1 s2 image info e Hi Hv. simpl. unfold bind at 1.
    rewrite Hi. unfold bind at 1. by rewrite Hv.
  - intros path versionMap obj objs s s1 result m e Hj He. simpl. rewrite Hj.
    unfold bind at 1. by rewrite He.
  - intros versionMap resource watchList s s1 s2 objs objs' m e H Hf Ho. simpl.
    unfold bind at 1. rewrite H, Hf. unfold bind at 1. by rewrite Ho.
Qed.

End WithReconciler.
End controllers_facts.

Module upgrade_cluster_facts.
Import exit upgrade upgrade_cluster.

(** ** More of package [strings] *)

Lemma prefix_app (a b : string) : String.prefix a (a +:+ b) = true.
Proof.
  induction a as [|c a IH].
  - simpl. by destruct b.
  - rewrite append_cons. simpl. destruct (ascii_dec c c); [done | congruence].
Qed.

Lemma HasSuffix_refl (a : string) : HasSuffix a a = true.
Proof. destruct a; cbn [HasSuffix]; by rewrite String.eqb_refl. Qed.

Lemma HasSuffix_app (a b : string) : HasSuffix (a +:+ b) b = true.
Proof.
  induction a as [|c a IH].
  - apply HasSuffix_refl.
  - rewrite append_cons. cbn [HasSuffix]. rewrite IH. apply orb_true_r.
Qed.

(** ** [NodeVersionInfo] *)

Lemma nodesLoop_step labels nodes info :
  classifiable labels = true ->
  nodesLoop (labels :: nodes) info = nodesLoop nodes (store info labels).
Proof.
  unfold classifiable, store, recordOf. simpl.
  destruct (labels !! kernelFullLabel) as [k|]; [|done].
  destruct (labels !! versionIDLabel) as [v|]; [|done].
  destruct (labels !! rhelVersionLabel) as [[|ch rest]|]; done.
Qed.

Lemma nodesLoop_classifiable nodes info :
  forallb classifiable nodes = true ->
  nodesLoop nodes info = Some (foldl store info nodes, None).
Proof.
  revert info. induction nodes as [|labels nodes IH]; intros info H; [done|].
  apply andb_true_iff in H as [Hl Hn]. rewrite nodesLoop_step by done. by apply IH.
Qed.

Lemma nodesLoop_app pre nodes info :
  forallb classifiable pre = true ->
  nodesLoop (pre ++ nodes) info = nodesLoop nodes (foldl store info pre).
Proof.
  revert info. induction pre as [|labels pre IH]; intros info H; [done|].
  apply andb_true_iff in H as [Hl Hn]. simpl app. rewrite nodesLoop_step by done.
  by apply IH.
Qed.

(** X1: a node without one of the two required labels makes
    [NodeVersionInfo] fail with the error that names the first missing
    label, and return the nil map: the records of the nodes before it are
    dropped and the nodes after it are not looked at. *)
Theorem NodeVersionInfo_missing_label
    (pre post : list (gmap string string)) (labels : gmap string string) :
  forallb classifiable pre = true ->
  labels !! kernelFullLabel = None \/ labels !! versionIDLabel = None ->
  NodeVersionInfo (pre ++ labels :: post)
  = Some (∅, Some (labelNotFound
                     (if decide (labels !! kernelFullLabel = None) then kernelFullLabel
                      else versionIDLabel))).
Proof.
  intros Hpre Hmiss. unfold NodeVersionInfo. rewrite nodesLoop_app by done. simpl.
  destruct (decide (labels !! kernelFullLabel = None)) as [->|Hk]; [done|].
  destruct (labels !! kernelFullLabel) as [k|]; [|done].
  destruct Hmiss as [H0 | H0]; [done | by rewrite H0].
Qed.

(** X2: a node whose RHEL version label is present and empty makes
    [NodeVersionInfo] panic ([rhelVersion[0:1]] is out of range), when the
    nodes before it are classified and it carries the two required
    labels. *)
Theorem NodeVersionInfo_empty_rhel_label_panics
    (pre post : list (gmap string string)) (labels : gmap string string) :
  forallb classifiable pre = true ->
  is_Some (labels !! kernelFullLabel) ->
  is_Some (labels !! versionIDLabel) ->
  labels !! rhelVersionLabel = Some "" ->
  NodeVersionInfo (pre ++ labels :: post) = None.
Proof.
  intros Hpre [k Hk] [v Hv] Hr. unfold NodeVersionInfo. rewrite nodesLoop_app by done.
  simpl. by rewrite Hk, Hv, Hr.
Qed.

Lemma store_lookup info labels key :
  classifiable labels = true ->
  store info labels !! key
  = if decide (labels !! kernelFullLabel = Some key) then recordOf labels else info !! key.
Proof.
  unfold classifiable, store.
  destruct (labels !! kernelFullLabel) as [k|]; [|done].
  destruct (recordOf labels) as [nv|]; [|done]. intros _.
  destruct (decide (Some k = Some key)) as [[= ->]|Hne].
  - apply lookup_insert_eq.
  - apply lookup_insert_ne. congruence.
Qed.

Lemma foldl_store_lookup nodes info key :
  forallb classifiable nodes = true ->
  foldl store info nodes !! key
  = match last (List.filter (fun labels => bool_decide (labels !! kernelFullLabel = Some key))
                            nodes) with
    | Some labels => recordOf labels
    | None => info !! key
    end.
Proof.
  revert info. induction nodes as [|labels nodes IH]; intros info H; [done|].
  apply andb_true_iff in H as [Hl Hn]. simpl. rewrite IH by done.
  destruct (bool_decide (labels !! kernelFullLabel = Some key)) eqn:E.
  - apply bool_decide_eq_true in E.
    destruct (List.filter _ nodes) as [|l ls] eqn:F.
    + simpl. rewrite store_lookup by done. by rewrite decide_True.
    + rewrite last_cons_cons. destruct (last (l :: ls)) eqn:L; [done|]. by apply last_None in L.
  - apply bool_decide_eq_false in E.
    destruct (last (List.filter _ nodes)); [done|].
    rewrite store_lookup by done. by rewrite decide_False.
Qed.

(** X3: when every node can be classified, [NodeVersionInfo] returns no
    error, the keys of its map are exactly the kernel versions the nodes
    are labelled with, and the record under a kernel version is the one of
    the last node labelled with it. *)
Theorem NodeVersionInfo_keys_last_node_wins (nodes : list (gmap string string)) :
  forallb classifiable nodes = true ->
  exists info,
    NodeVersionInfo nodes = Some (info, None) /\
    (forall key, is_Some (info !! key)
                 <-> exists labels, labels ∈ nodes /\ labels !! kernelFullLabel = Some key) /\
    (forall pre labels post key,
        nodes = pre ++ labels :: post ->
        labels !! kernelFullLabel = Some key ->
        (forall later, later ∈ post -> later !! kernelFullLabel <> Some key) ->
        info !! key = recordOf labels).
Proof.
  intros H. exists (foldl store ∅ nodes).
  split; [by apply nodesLoop_classifiable|]. split.
  - intros key. rewrite foldl_store_lookup by done.
    destruct (last _) as [labels|] eqn:E.
    + apply last_Some in E as [l' E].
      assert (Hin : In labels (List.filter
                (fun labels => bool_decide (labels !! kernelFullLabel = Some key)) nodes)).
      { rewrite E. apply in_or_app. right. by left. }
      apply filter_In in Hin as [Hin Hk]. apply bool_decide_eq_true in Hk.
      split.
      * intros _. exists labels. by rewrite list_elem_of_In.
      * intros _. rewrite forallb_forall in H. specialize (H _ Hin).
        unfold classifiable in H. rewrite Hk in H. by destruct (recordOf labels).
    + apply last_None in E. rewrite lookup_empty. split; [intros [? [=]]|].
      intros (labels & Hin & Hk). exfalso.
      assert (Hf : In labels (List.filter
                (fun labels => bool_decide (labels !! kernelFullLabel = Some key)) nodes)).
      { apply filter_In. rewrite <- list_elem_of_In. split; [done|].
        by apply bool_decide_eq_true. }
      by rewrite E in Hf.
  - intros pre labels post key -> Hk Hpost.
    rewrite foldl_store_lookup by done.
    rewrite List.filter_app. simpl. rewrite bool_decide_eq_true_2 by done.
    assert (Hnil : List.filter
              (fun labels => bool_decide (labels !! kernelFullLabel = Some key)) post = []).
    { destruct (List.filter _ post) as [|l ls] eqn:F; [done|]. exfalso.
      assert (Hin : In l (l :: ls)) by (by left). rewrite <- F in Hin.
      apply filter_In in Hin as [Hin Hl]. apply bool_decide_eq_true in Hl.
      apply (Hpost l); [by apply list_elem_of_In | done]. }
    rewrite Hnil. by rewrite last_snoc.
Qed.

Lemma recordOf_shape labels nv :
  recordOf labels = Some nv ->
  String.prefix (OSMajor nv) (OSMajorMinor nv) = true /\
  HasSuffix (OSMajorMinor nv) (OSVersion nv) = true /\
  DriverToolkit nv = registry.zero.
Proof.
  unfold recordOf. destruct (labels !! versionIDLabel) as [v|]; [|done].
  destruct (labels !! rhelVersionLabel) as [[|ch rest]|].
  - done.
  - intros [= <-]. unfold fromRHEL. cbn [OSMajor OSMajorMinor OSVersion DriverToolkit].
    split; [|split; [|done]].
    + change ("rhel" +:+ String ch rest) with (("rhel" +:+ String ch "") +:+ rest).
      apply prefix_app.
    + apply (HasSuffix_app "rhel").
  - intros [= <-]. unfold fromOSRelease. cbn [OSMajor OSMajorMinor OSVersion DriverToolkit].
    split; [|split; [|done]].
    + rewrite (append_assoc (label labels osIDLabel)). apply prefix_app.
    + apply HasSuffix_app.
Qed.

(** X4: every record [NodeVersionInfo] returns is well formed: its
    [OSMajor] is a prefix of its [OSMajorMinor], its [OSVersion] a suffix
    of it, and no toolkit release is attached yet. *)
Theorem NodeVersionInfo_records_well_formed
    (nodes : list (gmap string string)) (info : gmap string NodeVersion) (err : option error)
    (key : string) (nv : NodeVersion) :
  NodeVersionInfo nodes = Some (info, err) ->
  info !! key = Some nv ->
  String.prefix (OSMajor nv) (OSMajorMinor nv) = true /\
  HasSuffix (OSMajorMinor nv) (OSVersion nv) = true /\
  DriverToolkit nv = registry.zero.
Proof.
  unfold NodeVersionInfo.
  assert (G : forall acc,
             (forall k v, acc !! k = Some v ->
                          String.prefix (OSMajor v) (OSMajorMinor v) = true /\
                          HasSuffix (OSMajorMinor v) (OSVersion v) = true /\
                          DriverToolkit v = registry.zero) ->
             nodesLoop nodes acc = Some (info, err) ->
             info !! key = Some nv ->
             String.prefix (OSMajor nv) (OSMajorMinor nv) = true /\
             HasSuffix (OSMajorMinor nv) (OSVersion nv) = true /\
             DriverToolkit nv = registry.zero).
  { induction nodes as [|labels nodes IH]; intros acc Hacc; simpl.
    - intros [= <- <-]. apply Hacc.
    - destruct (labels !! kernelFullLabel) as [k|] eqn:Hk;
        [|intros [= <- <-]; by rewrite lookup_empty].
      destruct (labels !! versionIDLabel) as [v|] eqn:Hv;
        [|intros [= <- <-]; by rewrite lookup_empty].
      assert (Hrec : forall r, recordOf labels = Some r ->
                forall k' v', <[k := r]> acc !! k' = Some v' ->
                  String.prefix (OSMajor v') (OSMajorMinor v') = true /\
                  HasSuffix (OSMajorMinor v') (OSVersion v') = true /\
                  DriverToolkit v' = registry.zero).
      { intros r Hr k' v'. rewrite lookup_insert. destruct (decide (k = k')).
        - intros [= <-]. by eapply recordOf_shape.
        - apply Hacc. }
      destruct (labels !! rhelVersionLabel) as [[|ch rest]|] eqn:Hr; [done| |].
      + apply IH, Hrec. unfold recordOf. by rewrite Hv, Hr.
      + apply IH, Hrec. unfold recordOf. by rewrite Hv, Hr. }
  apply G. intros k v. by rewrite lookup_empty.
Qed.

Section WithPackages.
Variable GOARCH : string.
Variable c : Packages.

(** ** [UpdateInfo], once more *)

(** X5: when [UpdateInfo] returns a map, the map has the keys it was given:
    correlation adds no node record and removes none.  The toolkit release
    it attached carries the image reference passed as [imageURL], whatever
    the release itself said. *)
Theorem UpdateInfo_keeps_keys
    (info info' : gmap string NodeVersion) (dtk : registry.DriverToolkitEntry)
    (imageURL : string) :
  UpdateInfo GOARCH info dtk imageURL = Returned (info', None) ->
  dom info' = dom info /\
  exists key nv,
    info' !! key = Some nv /\
    registry.ImageURL (DriverToolkit nv) = imageURL /\
    OSVersion nv = registry.OSVersion dtk.
Proof.
  unfold UpdateInfo.
  set (n := normalizeArch GOARCH (withImageURL dtk imageURL)).
  change (registry.OSVersion (withImageURL dtk imageURL)) with (registry.OSVersion dtk).
  assert (Hurl : registry.ImageURL n = imageURL).
  { subst n. unfold normalizeArch. by destruct (negb _). }
  assert (Hos : registry.OSVersion n = registry.OSVersion dtk).
  { subst n. unfold normalizeArch. by destruct (negb _). }
  assert (Hdom : forall (m : gmap string NodeVersion) k v v',
             m !! k = Some v -> dom (<[k := v']> m) = dom m).
  { intros m k v v' Hm. rewrite dom_insert_L.
    apply subseteq_union_1_L, singleton_subseteq_l, elem_of_dom. eauto. }
  unfold matchKey at 1.
  destruct (info !! registry.KernelFullVersion n) as [nvk|] eqn:Hk.
  - simpl. destruct (negb (String.eqb (OSVersion nvk) (registry.OSVersion dtk))); [done|].
    unfold matchKey.
    destruct (<[registry.KernelFullVersion n:=enrich nvk n]> info
                !! registry.RTKernelFullVersion n) as [nvr|] eqn:Hr.
    + simpl. destruct (negb (String.eqb (OSVersion nvr) (registry.OSVersion dtk))); [done|].
      simpl. intros [= <-]. split.
      * rewrite (Hdom _ _ _ _ Hr). by rewrite (Hdom _ _ _ _ Hk).
      * exists (registry.RTKernelFullVersion n), (enrich nvr n).
        by rewrite lookup_insert_eq.
    + simpl. intros [= <-]. split; [by rewrite (Hdom _ _ _ _ Hk)|].
      exists (registry.KernelFullVersion n), (enrich nvk n). by rewrite lookup_insert_eq.
  - unfold matchKey. destruct (info !! registry.RTKernelFullVersion n) as [nvr|] eqn:Hr.
    + simpl. destruct (negb (String.eqb (OSVersion nvr) (registry.OSVersion dtk))); [done|].
      simpl. intros [= <-]. split; [by rewrite (Hdom _ _ _ _ Hr)|].
      exists (registry.RTKernelFullVersion n), (enrich nvr n). by rewrite lookup_insert_eq.
    + simpl. intros [=].
Qed.

(** ** [DriverToolkitVersion] *)

Lemma DriverToolkitVersion_skipped entries rest info (s s' : State c) :
  skipped c entries s s' ->
  DriverToolkitVersion GOARCH c (entries ++ rest) info s
  = DriverToolkitVersion GOARCH c rest info s'.
Proof.
  induction 1 as [s|entry entries s s' Hn _ IH]; [done|].
  simpl. destruct (lastLayer c entry s) as [layer s1]. simpl in *. by rewrite Hn.
Qed.

Lemma skipped_calls entries (s s' : State c) :
  skipped c entries s s' -> calls s' = calls s ++ (CallLastLayer <$> entries).
Proof.
  induction 1 as [s|entry entries s s' Hn _ IH]; [by rewrite app_nil_r|].
  rewrite IH. unfold lastLayer. destruct (LastLayer c entry (world s)). simpl.
  by rewrite <- app_assoc.
Qed.

(** X6: when no entry of the history yields a layer, [DriverToolkitVersion]
    returns the node map as it was, with no error, after one [LastLayer]
    call for each entry, in order. *)
Theorem DriverToolkitVersion_no_layer
    (entries : list string) (info : gmap string NodeVersion) (s s' : State c) :
  skipped c entries s s' ->
  DriverToolkitVersion GOARCH c entries info s = Returned ((info, None), s') /\
  calls s' = calls s ++ (CallLastLayer <$> entries).
Proof.
  intros H. split; [|by apply skipped_calls].
  rewrite <- (app_nil_r entries). by rewrite (DriverToolkitVersion_skipped _ _ _ _ _ H).
Qed.

(** X7: the first entry that yields a layer decides: whatever follows it in
    the history is never fetched and does not change the outcome. *)
Theorem DriverToolkitVersion_first_layer_decides
    (before rest rest' : list string) (entry : string) (info : gmap string NodeVersion)
    (s s1 : State c) :
  skipped c before s s1 ->
  isNil c (fst (lastLayer c entry s1)) = false ->
  DriverToolkitVersion GOARCH c (before ++ entry :: rest) info s
  = DriverToolkitVersion GOARCH c (before ++ entry :: rest') info s.
Proof.
  intros Hs Hn. rewrite !(DriverToolkitVersion_skipped _ _ _ _ _ Hs). simpl.
  destruct (lastLayer c entry s1) as [layer s2]. simpl in Hn. by rewrite Hn.
Qed.

(** X8: a release that names its version and no toolkit image ends the scan:
    the node map is returned as it was, with no error, and the toolkit is
    not fetched. *)
Theorem DriverToolkitVersion_release_without_toolkit
    (before rest : list string) (entry version : string) (info : gmap string NodeVersion)
    (s s1 : State c) :
  skipped c before s s1 ->
  isNil c (fst (lastLayer c entry s1)) = false ->
  fst (releaseManifests c (fst (lastLayer c entry s1)) (snd (lastLayer c entry s1)))
  = (version, "") ->
  version <> "" ->
  let s2 := snd (releaseManifests c (fst (lastLayer c entry s1)) (snd (lastLayer c entry s1))) in
  DriverToolkitVersion GOARCH c (before ++ entry :: rest) info s = Returned ((info, None), s2)
  /\ calls s2
     = calls s ++ (CallLastLayer <$> before)
         ++ [CallLastLayer entry; CallReleaseManifests (fst (lastLayer c entry s1))].
Proof.
  intros Hs Hn Hm Hv s2. split.
  - rewrite (DriverToolkitVersion_skipped _ _ _ _ _ Hs). simpl.
    destruct (lastLayer c entry s1) as [layer s1']. simpl in *. rewrite Hn.
    subst s2. destruct (releaseManifests c layer s1') as [[v u] s2']. simpl in *.
    injection Hm as -> ->. simpl. apply String.eqb_neq in Hv. by rewrite Hv.
  - subst s2. unfold releaseManifests, lastLayer.
    rewrite (skipped_calls _ _ _ Hs).
    destruct (LastLayer c entry (world s1)) as [layer w1]. simpl.
    destruct (ReleaseManifests c layer w1) as [r w2]. simpl.
    by rewrite <- !app_assoc.
Qed.

(** ** [ClusterInfo] *)


End WithPackages.
End upgrade_cluster_facts.

Module filter_facts.
Import filter.

Lemma refsLoop_None refs :
  refsLoop refs = None <-> forall ref, ref ∈ refs -> Kind ref <> "SpecialResource".
Proof.
  induction refs as [|ref refs IH]; simpl.
  - split; [|done]. intros _ ref Hin. by apply elem_of_nil in Hin.
  - destruct (String.eqb (Kind ref) "SpecialResource") eqn:E.
    + apply String.eqb_eq in E. split; [done|]. intros H. exfalso.
      apply (H ref); [apply elem_of_cons; by left | done].
    + apply String.eqb_neq in E. rewrite IH. split.
      * intros H r Hin. apply elem_of_cons in Hin as [-> | Hin]; [done | by apply H].
      * intros H r Hin. apply H, elem_of_cons. by right.
Qed.

Lemma refsLoop_Some refs b : refsLoop refs = Some b -> b = false.
Proof.
  induction refs as [|ref refs IH]; simpl; [done|].
  destruct (String.eqb (Kind ref) "SpecialResource"); [congruence | done].
Qed.

Lemma refsLoop_owned refs :
  refsLoop refs = Some false <-> exists ref, ref ∈ refs /\ Kind ref = "SpecialResource".
Proof.
  split.
  - intros E.
    destruct (decide (Exists (fun ref => Kind ref = "SpecialResource") refs)) as [Hex | Hnex].
    + apply Exists_exists in Hex. exact Hex.
    + exfalso. assert (Hn : refsLoop refs = None); [|congruence].
      apply refsLoop_None. intros ref Hin Hk. apply Hnex, Exists_exists. eauto.
  - intros (ref & Hin & Hk). destruct (refsLoop refs) as [b|] eqn:E.
    + by rewrite (refsLoop_Some _ _ E).
    + exfalso. by apply (proj1 (refsLoop_None _) E ref).
Qed.

Lemma NotOwned_refsLoop (obj : Meta) :
  NotOwned obj = false <-> refsLoop (OwnerReferences obj) = Some false.
Proof.
  unfold NotOwned. destruct (refsLoop (OwnerReferences obj)) as [b|] eqn:E.
  - rewrite (refsLoop_Some _ _ E). done.
  - destruct (Labels obj); split; intros H; discriminate H.
Qed.

(** X10: [NotOwned] looks at the owner references only: an object is owned
    exactly when one of them has kind [SpecialResource].  The labels of the
    object, the ownership label included, never change the answer. *)
Theorem NotOwned_owner_references_only (obj : Meta) :
  (NotOwned obj = false
   <-> exists ref, ref ∈ OwnerReferences obj /\ Kind ref = "SpecialResource") /\
  forall labels,
    NotOwned {| Name := Name obj; SelfLink := SelfLink obj;
                OwnerReferences := OwnerReferences obj; Labels := labels;
                Generation := Generation obj; ResourceVersion := ResourceVersion obj |}
    = NotOwned obj.
Proof.
  split.
  - rewrite NotOwned_refsLoop. apply refsLoop_owned.
  - intros labels. unfold NotOwned. cbn [OwnerReferences Labels].
    destruct (refsLoop (OwnerReferences obj)); [done|].
    by destruct labels, (Labels obj).
Qed.

(** X11: an object that a SpecialResource owns and that is not itself a
    special resource does not pass the predicate when it is created, and
    passes it when it is deleted, on a generic event, and on an update that
    changes both its generation and its resource version. *)
Theorem Predicate_owned_object
    (obj : Object) (m old : Meta) (objOld : Object) (ref : OwnerReference) :
  ref ∈ OwnerReferences m ->
  Kind ref = "SpecialResource" ->
  IsSpecialResource obj m = false ->
  IsSpecialResource obj old = false ->
  Generation old <> Generation m ->
  ResourceVersion old <> ResourceVersion m ->
  CreateFunc Predicate {| Create_Meta := m; Create_Object := obj |} = (false, "CREATE") /\
  DeleteFunc Predicate {| Delete_Meta := m; Delete_Object := obj |} = (true, "DELETE") /\
  GenericFunc Predicate {| Generic_Meta := m; Generic_Object := obj |} = (true, "GENERIC") /\
  UpdateFunc Predicate {| MetaOld := old; ObjectOld := objOld; MetaNew := m; ObjectNew := obj |}
  = (true, "UPDATE").
Proof.
  intros Hin Hk Hsr Hsro Hg Hv.
  assert (Hown : NotOwned m = false).
  { apply NotOwned_refsLoop, refsLoop_owned. eauto. }
  cbn [Predicate CreateFunc DeleteFunc GenericFunc UpdateFunc Create_Meta Create_Object
       Delete_Meta Delete_Object Generic_Meta Generic_Object MetaOld MetaNew ObjectNew].
  rewrite Hsr, Hsro, Hown.
  apply Z.eqb_neq in Hg. apply String.eqb_neq in Hv. by rewrite Hg, Hv.
Qed.

(** X12: an update passes the predicate exactly when it changes the
    generation and the resource version and either the new object is a
    special resource (judged with the old metadata) or the new metadata name
    a SpecialResource owner.  So a change that keeps the generation, or one
    that keeps the resource version, is dropped even for a SpecialResource. *)
Theorem Predicate_update_passes (e : UpdateEvent) :
  fst (UpdateFunc Predicate e) = true
  <-> Generation (MetaOld e) <> Generation (MetaNew e) /\
      ResourceVersion (MetaOld e) <> ResourceVersion (MetaNew e) /\
      (IsSpecialResource (ObjectNew e) (MetaOld e) = true \/
       exists ref, ref ∈ OwnerReferences (MetaNew e) /\ Kind ref = "SpecialResource").
Proof.
  rewrite <- refsLoop_owned, <- NotOwned_refsLoop. cbn [Predicate UpdateFunc].
  destruct (Z.eqb_spec (Generation (MetaOld e)) (Generation (MetaNew e))) as [Hg | Hg];
    [simpl; intuition congruence|].
  destruct (String.eqb_spec (ResourceVersion (MetaOld e)) (ResourceVersion (MetaNew e)))
    as [Hv | Hv]; [simpl; intuition congruence|].
  destruct (IsSpecialResource (ObjectNew e) (MetaOld e)); [simpl; intuition|].
  destruct (NotOwned (MetaNew e)); simpl; intuition congruence.
Qed.

End filter_facts.

Module preflight_api_facts.
Import preflight_api.

(** ** The layer walk of [daemonSetPreflightCheck] *)

Section WithCollaborators.
Variable p : preflight.Collaborators.

Lemma layersLoop_blank repo auth k digests rest (s s' : preflight.State p) :
  blank p repo auth digests s s' ->
  preflight.layersLoop p repo auth k (digests ++ rest) s
  = preflight.layersLoop p repo auth k rest s'.
Proof.
  induction 1 as [s|digest digests s layer s1 dtk e s2 s' Hl He _ IH]; [done|].
  simpl. by rewrite Hl, He.
Qed.

(** X13: the layers of the image are walked from the last digest to the
    first, and the first layer on the way that carries toolkit metadata
    gives the verdict: [true] exactly when its kernel version is the upgrade
    kernel version, with no error.  The walk ends there: the state returned
    is the one after reading that layer, so no layer below it is fetched. *)
Theorem daemonSetPreflightCheck_newest_toolkit_layer_decides
    (obj : preflight.Unstructured p) (k : string) (s s1 s2 s3 s4 : preflight.State p)
    (ds : preflight.DaemonSet) (c : preflight.Container) (rest : list preflight.Container)
    (repo : string) (auth : preflight.Auth p) (older newer : list string) (digest : string)
    (layer : preflight.Layer p) (dtk : registry.DriverToolkitEntry) :
  preflight.FromUnstructured p obj = (ds, None) ->
  preflight.Containers
    (preflight.PodTemplateSpec_Spec (preflight.Template (preflight.Spec ds))) = c :: rest ->
  preflight.getLayersDigests p (preflight.Image c) s
  = ((repo, older ++ digest :: newer, auth, None), s1) ->
  blank p repo auth (reverse newer) s1 s2 ->
  preflight.getLayerByDigest p repo digest auth s2 = ((layer, None), s3) ->
  preflight.extractToolkitRelease p layer s3 = ((dtk, None), s4) ->
  preflight.daemonSetPreflightCheck p obj k s
  = ((String.eqb (registry.KernelFullVersion dtk) k, None), s4).
Proof.
  intros Hc Hl Hg Hb Hf He. unfold preflight.daemonSetPreflightCheck.
  rewrite Hc, Hl, Hg. rewrite reverse_app, reverse_cons, <- app_assoc.
  rewrite (layersLoop_blank _ _ _ _ _ _ _ Hb). simpl. rewrite Hf, He.
  by destruct (String.eqb (registry.KernelFullVersion dtk) k).
Qed.

(** X14: when every layer of the image can be fetched and none carries
    toolkit metadata, the check answers [false] with no error, after
    reading all of them from the last digest to the first. *)
Theorem daemonSetPreflightCheck_no_toolkit_layer
    (obj : preflight.Unstructured p) (k : string) (s s1 s2 : preflight.State p)
    (ds : preflight.DaemonSet) (c : preflight.Container) (rest : list preflight.Container)
    (repo : string) (auth : preflight.Auth p) (digests : list string) :
  preflight.FromUnstructured p obj = (ds, None) ->
  preflight.Containers
    (preflight.PodTemplateSpec_Spec (preflight.Template (preflight.Spec ds))) = c :: rest ->
  preflight.getLayersDigests p (preflight.Image c) s = ((repo, digests, auth, None), s1) ->
  blank p repo auth (reverse digests) s1 s2 ->
  preflight.daemonSetPreflightCheck p obj k s = ((false, None), s2).
Proof.
  intros Hc Hl Hg Hb. unfold preflight.daemonSetPreflightCheck.
  rewrite Hc, Hl, Hg. rewrite <- (app_nil_r (reverse digests)).
  by rewrite (layersLoop_blank _ _ _ _ _ _ _ Hb).
Qed.

End WithCollaborators.

Section WithAPI.
Variable a : API.

(** ** The alerts of a run *)

Lemma alerts_app (w w' : preflight.World (base a)) (l l' : list (Event a)) :
  alerts a {| world := w'; events := l ++ l' |}
  = alerts a {| world := w; events := l |} ++ alerts a {| world := w; events := l' |}.
Proof. unfold alerts. simpl. apply omap_app. Qed.

Lemma alerts_call {A} (f : preflight.World (base a) -> A * preflight.World (base a))
    (e : Event a) (s : State a) :
  alerts a (snd (call a f e s)) = alerts a s ++ omap (alertOf a) [e].
Proof.
  unfold call. destruct (f (world s)) as [r w]. unfold alerts. simpl.
  by rewrite omap_app.
Qed.

Lemma alerts_handleYAMLsCheck yamlsList k (s : State a) :
  alerts a (snd (handleYAMLsCheck a yamlsList k s)) = alerts a s.
Proof.
  unfold handleYAMLsCheck.
  destruct (preflight.handleYAMLsCheck _ _ _ _) as [r s']. unfold alerts. simpl.
  rewrite omap_app.
  assert (H : forall l : list (preflight.Call (base a)),
             omap (alertOf a) (Registry <$> l) = []).
  { induction l as [|x l IH]; [done|]. simpl. exact IH. }
  by rewrite H, app_nil_r.
Qed.

Lemma processFullChartTemplates_runInfo c values runInfo namespace k (s : State a) :
  snd (fst (processFullChartTemplates a c values runInfo namespace k s))
  = withNodeVersion a runInfo (default zeroNodeVersion (ClusterUpgradeInfo runInfo !! k)).
Proof.
  unfold processFullChartTemplates.
  destruct (CoalesceValues a _ values) as [v [e|]]; [done|].
  destruct (ToUnstructured a _) as [rinfo [e|]]; [done|].
  destruct (CoalesceValues a _ rinfo) as [v' [e|]]; [done|].
  by destruct (call a _ _ s) as [r s'].
Qed.

Lemma alerts_processFullChartTemplates c values runInfo namespace k (s : State a) :
  alerts a (snd (processFullChartTemplates a c values runInfo namespace k s)) = alerts a s.
Proof.
  unfold processFullChartTemplates.
  destruct (CoalesceValues a _ values) as [v [e|]]; [done|].
  destruct (ToUnstructured a _) as [rinfo [e|]]; [done|].
  destruct (CoalesceValues a _ rinfo) as [v' [e|]]; [done|].
  match goal with
  | |- context [call a ?f ?e s] =>
      pose proof (alerts_call f e s) as H; destruct (call a f e s) as [r s']
  end.
  simpl in *. by rewrite H, app_nil_r.
Qed.

(** X15: [PreflightUpgradeCheck] sets the upgrade alert of the resource
    exactly once when it returns no error, as the last thing it does, to 0
    or to 1; when it returns an error it sets no alert at all, so the gauge
    keeps the value of an earlier run. *)
Theorem PreflightUpgradeCheck_alert
    (sr : SpecialResource (HelmChart a) (Values a))
    (runInfo : RuntimeInformation (HelmChart a) (Values a)) (s : State a) :
  let s' := snd (PreflightUpgradeCheck a sr runInfo s) in
  match fst (fst (PreflightUpgradeCheck a sr runInfo s)) with
  | Some _ => alerts a s' = alerts a s
  | None =>
      exists value before,
        (value = 0 \/ value = 1)%Z /\
        events s' = before ++ [CallSetUpgradeAlert (SR_Name sr) value] /\
        alerts a s' = alerts a s ++ [(SR_Name sr, value)]
  end.
Proof.
  unfold PreflightUpgradeCheck.
  pose proof (alerts_call (Helmer_Load a (Spec_Chart sr)) (CallLoad (Spec_Chart sr)) s) as H1.
  destruct (call a (Helmer_Load a (Spec_Chart sr)) _ s) as [[c [e|]] s1]; simpl in *;
    [by rewrite H1, app_nil_r|].
  rewrite app_nil_r in H1.
  match goal with
  | |- context [processFullChartTemplates a c ?v ?ri ?ns ?k s1] =>
      pose proof (alerts_processFullChartTemplates c v ri ns k s1) as H2;
      destruct (processFullChartTemplates a c v ri ns k s1) as [[[yamlsList [e|]] runInfo'] s2]
  end; simpl in *; [by rewrite H2, H1|].
  pose proof (alerts_handleYAMLsCheck yamlsList (KernelFullVersion runInfo') s2) as H3.
  destruct (handleYAMLsCheck a yamlsList _ s2) as [[verified [e|]] s3]; simpl in *;
    [by rewrite H3, H2, H1|].
  unfold alertUserIfNeeded.
  destruct verified.
  - exists 0%Z, (events s3). split; [by left|]. split; [done|].
    rewrite alerts_call. simpl. by rewrite H3, H2, H1.
  - exists 1%Z, (events s3). split; [by right|]. split; [done|].
    rewrite alerts_call. simpl. by rewrite H3, H2, H1.
Qed.

(** X16: whatever [PreflightUpgradeCheck] returns, it leaves the resource it
    was given in [runInfo.SpecialResource] and keeps the kernel version and
    the upgrade map of [runInfo].  Once the chart is loaded, and whether or
    not a later step fails, the OS fields, the cluster version and the
    toolkit image of [runInfo] are those of the node record stored under
    [runInfo.KernelFullVersion], and blank when the map has none. *)
Theorem PreflightUpgradeCheck_runInfo
    (sr : SpecialResource (HelmChart a) (Values a))
    (runInfo : RuntimeInformation (HelmChart a) (Values a)) (s : State a) :
  let runInfo' := snd (fst (PreflightUpgradeCheck a sr runInfo s)) in
  let nodeVersion :=
    default zeroNodeVersion (ClusterUpgradeInfo runInfo !! KernelFullVersion runInfo) in
  RuntimeInformation_SpecialResource runInfo' = sr /\
  KernelFullVersion runInfo' = KernelFullVersion runInfo /\
  ClusterUpgradeInfo runInfo' = ClusterUpgradeInfo runInfo /\
  (snd (fst (Helmer_Load a (Spec_Chart sr) (world s))) = None ->
   OperatingSystemMajor runInfo' = upgrade.OSMajor nodeVersion /\
   OperatingSystemMajorMinor runInfo' = upgrade.OSMajorMinor nodeVersion /\
   OperatingSystemDecimal runInfo' = upgrade.OSVersion nodeVersion /\
   ClusterVersionMajorMinor runInfo' = upgrade.ClusterVersion nodeVersion /\
   DriverToolkitImage runInfo' = registry.ImageURL (upgrade.DriverToolkit nodeVersion)) /\
  (ClusterUpgradeInfo runInfo !! KernelFullVersion runInfo = None ->
   snd (fst (Helmer_Load a (Spec_Chart sr) (world s))) = None ->
   OperatingSystemMajor runInfo' = "" /\ OperatingSystemMajorMinor runInfo' = "" /\
   OperatingSystemDecimal runInfo' = "" /\ ClusterVersionMajorMinor runInfo' = "" /\
   DriverToolkitImage runInfo' = "").
Proof.
  unfold PreflightUpgradeCheck, call.
  destruct (Helmer_Load a (Spec_Chart sr) (world s)) as [[c [e|]] w]; simpl.
  { repeat split; try done; intros; discriminate. }
  match goal with
  | |- context [processFullChartTemplates a c ?v ?ri ?ns ?k ?s1] =>
      pose proof (processFullChartTemplates_runInfo c v ri ns k s1) as H2;
      destruct (processFullChartTemplates a c v ri ns k s1) as [[[yamlsList err] runInfo'] s2]
  end.
  simpl in H2. subst runInfo'.
  assert (G : forall r : option error * RuntimeInformation (HelmChart a) (Values a),
             snd r = withNodeVersion a (withSpecialResource a runInfo sr)
                       (default zeroNodeVersion
                          (ClusterUpgradeInfo runInfo !! KernelFullVersion runInfo)) ->
             RuntimeInformation_SpecialResource (snd r) = sr /\
             KernelFullVersion (snd r) = KernelFullVersion runInfo /\
             ClusterUpgradeInfo (snd r) = ClusterUpgradeInfo runInfo /\
             (@None error = None ->
              OperatingSystemMajor (snd r)
              = upgrade.OSMajor (default zeroNodeVersion
                  (ClusterUpgradeInfo runInfo !! KernelFullVersion runInfo)) /\
              OperatingSystemMajorMinor (snd r)
              = upgrade.OSMajorMinor (default zeroNodeVersion
                  (ClusterUpgradeInfo runInfo !! KernelFullVersion runInfo)) /\
              OperatingSystemDecimal (snd r)
              = upgrade.OSVersion (default zeroNodeVersion
                  (ClusterUpgradeInfo runInfo !! KernelFullVersion runInfo)) /\
              ClusterVersionMajorMinor (snd r)
              = upgrade.ClusterVersion (default zeroNodeVersion
                  (ClusterUpgradeInfo runInfo !! KernelFullVersion runInfo)) /\
              DriverToolkitImage (snd r)
              = registry.ImageURL (upgrade.DriverToolkit (default zeroNodeVersion
                  (ClusterUpgradeInfo runInfo !! KernelFullVersion runInfo)))) /\
             (ClusterUpgradeInfo runInfo !! KernelFullVersion runInfo = None ->
              @None error = None ->
              OperatingSystemMajor (snd r) = "" /\ OperatingSystemMajorMinor (snd r) = "" /\
              OperatingSystemDecimal (snd r) = "" /\ ClusterVersionMajorMinor (snd r) = "" /\
              DriverToolkitImage (snd r) = "")).
  { intros [e0 r] Hr. simpl in Hr. subst r. simpl.
    split; [done|]. split; [done|]. split; [done|]. split; [done|].
    intros Hn _. by rewrite Hn. }
  destruct err as [e|]; [by apply G|].
  destruct (handleYAMLsCheck a yamlsList _ s2) as [[verified [e|]] s3]; by apply G.
Qed.

(** What [PreflightUpgradeCheck] comes to once the chart is loaded and
    rendered. *)
Lemma PreflightUpgradeCheck_rendered sr runInfo (s s1 s2 : State a) c yamlsList runInfo' :
  call a (Helmer_Load a (Spec_Chart sr)) (CallLoad (Spec_Chart sr)) s = ((c, None), s1) ->
  processFullChartTemplates a c (Spec_Set sr) (withSpecialResource a runInfo sr)
    (SR_Namespace sr) (KernelFullVersion runInfo) s1
  = (((yamlsList, None), runInfo'), s2) ->
  PreflightUpgradeCheck a sr runInfo s
  = let '((verified, err), s3) :=
      handleYAMLsCheck a yamlsList (KernelFullVersion runInfo) s2 in
    match err with
    | Some e => ((Some e, runInfo'), s3)
    | None => ((None, runInfo'), alertUserIfNeeded a verified (SR_Name sr) s3)
    end.
Proof.
  intros H1 H2. unfold PreflightUpgradeCheck. rewrite H1.
  change (KernelFullVersion (withSpecialResource a runInfo sr))
    with (KernelFullVersion runInfo).
  rewrite H2.
  pose proof (processFullChartTemplates_runInfo c (Spec_Set sr)
                (withSpecialResource a runInfo sr) (SR_Namespace sr)
                (KernelFullVersion runInfo) s1) as Hr.
  rewrite H2 in Hr. simpl in Hr. by rewrite Hr.
Qed.

(** X17: a rendered chart whose first object of kind BuildConfig or
    DaemonSet is a BuildConfig clears the alert: [PreflightUpgradeCheck]
    returns no error, contacts no registry, and its one call after the
    rendering sets the alert of the resource to 0. *)
Theorem PreflightUpgradeCheck_buildconfig_clears_alert
    sr runInfo (s s1 s2 : State a) c yamlsList runInfo' items obj :
  call a (Helmer_Load a (Spec_Chart sr)) (CallLoad (Spec_Chart sr)) s = ((c, None), s1) ->
  processFullChartTemplates a c (Spec_Set sr) (withSpecialResource a runInfo sr)
    (SR_Namespace sr) (KernelFullVersion runInfo) s1
  = (((yamlsList, None), runInfo'), s2) ->
  preflight.GetObjectsFromYAML (base a) yamlsList = (items, None) ->
  find (preflight.isGoverning (base a)) items = Some obj ->
  preflight.GetKind (base a) obj = "BuildConfig" ->
  PreflightUpgradeCheck a sr runInfo s
  = ((None, runInfo'),
     {| world := SetUpgradeAlert a (SR_Name sr) 0 (world s2);
        events := events s2 ++ [CallSetUpgradeAlert (SR_Name sr) 0] |}).
Proof.
  intros H1 H2 Hy Hf Hk. rewrite (PreflightUpgradeCheck_rendered _ _ _ _ _ _ _ _ H1 H2).
  unfold handleYAMLsCheck, preflight.handleYAMLsCheck. rewrite Hy.
  rewrite preflight_facts.itemsLoop_find, Hf, Hk. simpl. by rewrite app_nil_r.
Qed.

(** X18: when the registry cannot list the layers of the image of the first
    DaemonSet, [PreflightUpgradeCheck] does not fail: it returns no error
    and raises the alert of the resource to 1. *)
Theorem PreflightUpgradeCheck_unreachable_image_raises_alert
    sr runInfo (s s1 s2 : State a) c yamlsList runInfo' items obj ds container rest
    repo digests auth e w :
  call a (Helmer_Load a (Spec_Chart sr)) (CallLoad (Spec_Chart sr)) s = ((c, None), s1) ->
  processFullChartTemplates a c (Spec_Set sr) (withSpecialResource a runInfo sr)
    (SR_Namespace sr) (KernelFullVersion runInfo) s1
  = (((yamlsList, None), runInfo'), s2) ->
  preflight.GetObjectsFromYAML (base a) yamlsList = (items, None) ->
  find (preflight.isGoverning (base a)) items = Some obj ->
  preflight.GetKind (base a) obj = "DaemonSet" ->
  preflight.FromUnstructured (base a) obj = (ds, None) ->
  preflight.Containers
    (preflight.PodTemplateSpec_Spec (preflight.Template (preflight.Spec ds)))
  = container :: rest ->
  preflight.GetLayersDigests (base a) (preflight.Image container) (world s2)
  = ((repo, digests, auth, Some e), w) ->
  PreflightUpgradeCheck a sr runInfo s
  = ((None, runInfo'),
     {| world := SetUpgradeAlert a (SR_Name sr) 1 w;
        events := events s2
                    ++ [Registry (preflight.CallGetLayersDigests (preflight.Image container));
                        CallSetUpgradeAlert (SR_Name sr) 1] |}).
Proof.
  intros H1 H2 Hy Hf Hk Hc Hl Hg. rewrite (PreflightUpgradeCheck_rendered _ _ _ _ _ _ _ _ H1 H2).
  unfold handleYAMLsCheck, preflight.handleYAMLsCheck. rewrite Hy.
  rewrite preflight_facts.itemsLoop_find, Hf, Hk. simpl.
  unfold preflight.daemonSetPreflightCheck. rewrite Hc, Hl.
  unfold preflight.getLayersDigests. simpl. rewrite Hg. simpl.
  by rewrite <- app_assoc.
Qed.

(** ** [PrepareRuntimeInfo] *)

(** X19: [getKernelFullVersion] asks for toolkit data only with a non-empty
    image reference, and at most once; a release whose manifests name no
    toolkit image gives the error of line 272, not an empty version. *)
Theorem getKernelFullVersion_toolkit_reference (image : string) (s : State a) :
  let r := getKernelFullVersion a image s in
  (exists l, events (snd r) = events s ++ l /\
             forall imageURL, CallGetDTKData imageURL ∈ l ->
               imageURL <> "" /\
               l = [CallLastLayer image;
                    CallReleaseManifests (fst (fst (LastLayer a image (world s))));
                    CallGetDTKData imageURL]) /\
  (forall layer w w',
      LastLayer a image (world s) = ((layer, None), w) ->
      ReleaseManifests a layer w = (("", None), w') ->
      fst r = ("", Some noDTKImage)).
Proof.
  unfold getKernelFullVersion, call. simpl.
  destruct (LastLayer a image (world s)) as [[layer [e|]] w]; simpl.
  { split; [|intros ? ? ? [=]]. eexists. split; [done|].
    intros u Hin. repeat (apply elem_of_cons in Hin as [Hin|Hin]; [discriminate|]).
    by apply elem_of_nil in Hin. }
  destruct (ReleaseManifests a layer w) as [[dtkImageURL [e|]] w1] eqn:Hm; simpl.
  { split; [|intros ? ? ? [= <- <-]; rewrite Hm; intros [=]]. eexists.
    split; [by rewrite <- app_assoc|].
    intros u Hin. repeat (apply elem_of_cons in Hin as [Hin|Hin]; [discriminate|]).
    by apply elem_of_nil in Hin. }
  destruct (String.eqb_spec dtkImageURL "") as [-> | Hne]; simpl.
  { split; [|done]. eexists. split; [by rewrite <- app_assoc|].
    intros u Hin. repeat (apply elem_of_cons in Hin as [Hin|Hin]; [discriminate|]).
    by apply elem_of_nil in Hin. }
  split; [|intros ? ? ? [= <- <-]; rewrite Hm; intros [= ? ?]; by subst].
  destruct (GetDTKData a dtkImageURL w1) as [[dtk [e|]] w2]; simpl.
  - eexists. split; [by rewrite <- !app_assoc|]. intros u Hin.
    repeat (apply elem_of_cons in Hin as [Hin|Hin]; [try discriminate|]).
    + injection Hin as ->. done.
    + by apply elem_of_nil in Hin.
  - eexists. split; [by rewrite <- !app_assoc|]. intros u Hin.
    repeat (apply elem_of_cons in Hin as [Hin|Hin]; [try discriminate|]).
    + injection Hin as ->. done.
    + by apply elem_of_nil in Hin.
Qed.

(** X20: [PrepareRuntimeInfo] returns either the run information and no
    error, or an error and the nil pointer, never both and never neither.
    A successful run has made eight calls, in this order: it fetches the
    last layer of the release image twice, once for the OS data and once
    for the toolkit reference, which is not empty. *)
Theorem PrepareRuntimeInfo_result (image : string) (s s' : State a)
    (runInfo : option (RuntimeInformation (HelmChart a) (Values a))) (err : option error) :
  PrepareRuntimeInfo a image s = ((runInfo, err), s') ->
  (runInfo = None <-> err <> None) /\
  (err = None ->
   exists layer1 layer2 imageURL,
     imageURL <> "" /\
     events s'
     = events s ++ [CallInitRuntimeInfo; CallLastLayer image;
                    CallReleaseImageMachineOSConfig layer1; CallLastLayer image;
                    CallReleaseManifests layer2; CallGetDTKData imageURL;
                    CallVersion; CallOSImageURL]).
Proof.
  unfold PrepareRuntimeInfo, getOSData, getKernelFullVersion, call. simpl.
  destruct (InitRuntimeInfo a (world s)) as [ri w0]; simpl.
  destruct (LastLayer a image w0) as [[layer1 [e|]] w1]; simpl;
    [intros [= <- <- <-]; split; [done | intros [=]]|].
  destruct (ReleaseImageMachineOSConfig a layer1 w1) as [[config [e|]] w2]; simpl;
    [intros [= <- <- <-]; split; [done | intros [=]]|].
  destruct (ParseOSInfo a config) as [[[major majorMinor] decimal] [e|]]; simpl;
    [intros [= <- <- <-]; split; [done | intros [=]]|].
  destruct (LastLayer a image w2) as [[layer2 [e|]] w3]; simpl;
    [intros [= <- <- <-]; split; [done | intros [=]]|].
  destruct (ReleaseManifests a layer2 w3) as [[dtkImageURL [e|]] w4]; simpl;
    [intros [= <- <- <-]; split; [done | intros [=]]|].
  destruct (String.eqb_spec dtkImageURL "") as [-> | Hne]; simpl;
    [intros [= <- <- <-]; split; [done | intros [=]]|].
  destruct (GetDTKData a dtkImageURL w4) as [[dtk [e|]] w5]; simpl;
    [intros [= <- <- <-]; split; [done | intros [=]]|].
  destruct (PatchVersion a (registry.KernelFullVersion dtk)) as [patch [e|]]; simpl;
    [intros [= <- <- <-]; split; [done | intros [=]]|].
  destruct (Version a w5) as [[[cv cvmm] [e|]] w6]; simpl;
    [intros [= <- <- <-]; split; [done | intros [=]]|].
  destruct (Cluster_OSImageURL a w6) as [[url [e|]] w7]; simpl;
    [intros [= <- <- <-]; split; [done | intros [=]]|].
  intros [= <- <- <-]. split; [done|]. intros _.
  exists layer1, layer2, dtkImageURL. split; [done|]. simpl.
  by rewrite <- !app_assoc.
Qed.

End WithAPI.
End preflight_api_facts.

Module controllers_run_facts.
Import regexp controllers controllers_run.

(** ** The alphabet of [semver] *)

Lemma dead_deriv c r : dead r = true -> dead (deriv c r) = true.
Proof.
  induction r as [| |p|r1 IH1 r2 IH2|r1 IH1 r2 IH2|r IH]; simpl; try done.
  - intros [H|H]%orb_true_iff.
    + destruct (nullable r1) eqn:N; simpl; rewrite (IH1 H); simpl; [|done].
      clear IH1 IH2. exfalso. revert N H. clear.
      induction r1 as [| |p|a IHa b IHb|a IHa b IHb|a IHa]; simpl; try done.
      * intros [Na Nb]%andb_true_iff [H|H]%orb_true_iff; auto.
      * intros [N|N]%orb_true_iff [Ha Hb]%andb_true_iff; auto.
    + destruct (nullable r1); simpl; rewrite ?(IH2 H), H, ?orb_true_r; done.
  - intros [H1 H2]%andb_true_iff. by rewrite IH1, IH2.
Qed.

Lemma dead_not_nullable r : dead r = true -> nullable r = false.
Proof.
  induction r as [| |p|r1 IH1 r2 IH2|r1 IH1 r2 IH2|r IH]; simpl; try done.
  - intros [H|H]%orb_true_iff; [by rewrite IH1 | by rewrite IH2, andb_false_r].
  - intros [H1 H2]%andb_true_iff. by rewrite IH1, IH2.
Qed.

Lemma dead_matches r s : dead r = true -> matches r s = false.
Proof.
  revert r. induction s as [|c s IH]; intros r H; simpl.
  - by apply dead_not_nullable.
  - by apply IH, dead_deriv.
Qed.

Lemma avoids_deriv_dead c r : avoids c r = true -> dead (deriv c r) = true.
Proof.
  induction r as [| |p|r1 IH1 r2 IH2|r1 IH1 r2 IH2|r IH]; simpl; try done.
  - intros H%negb_true_iff. by rewrite H.
  - intros [H1 H2]%andb_true_iff.
    destruct (nullable r1); simpl; by rewrite IH1, ?IH2.
  - intros [H1 H2]%andb_true_iff. by rewrite IH1, IH2.
  - intros H. by rewrite IH.
Qed.

Lemma avoids_deriv c a r : avoids c r = true -> avoids c (deriv a r) = true.
Proof.
  induction r as [| |p|r1 IH1 r2 IH2|r1 IH1 r2 IH2|r IH]; simpl; try done.
  - intros _. by destruct (p a).
  - intros [H1 H2]%andb_true_iff.
    destruct (nullable r1); simpl; by rewrite IH1, H2, ?IH2.
  - intros [H1 H2]%andb_true_iff. by rewrite IH1, IH2.
  - intros H. by rewrite IH, H.
Qed.

Lemma Contains_byte_cons c a s :
  Contains (String a s) (String c "") = Ascii.eqb c a || Contains s (String c "").
Proof.
  cbn [Contains]. f_equal. simpl.
  destruct (ascii_dec c a) as [->|Hne].
  - rewrite Ascii.eqb_refl. by destruct s.
  - by apply Ascii.eqb_neq in Hne as ->.
Qed.

Lemma avoids_matches c r s :
  avoids c r = true -> matches r s = true -> Contains s (String c "") = false.
Proof.
  revert r. induction s as [|a s IH]; intros r Ha Hm; [done|].
  rewrite Contains_byte_cons. simpl in Hm.
  destruct (Ascii.eqb_spec c a) as [->|Hne]; simpl.
  - by rewrite (dead_matches _ _ (avoids_deriv_dead _ _ Ha)) in Hm.
  - eapply IH; [|exact Hm]. by apply avoids_deriv.
Qed.

Lemma avoids_semver c : alphabet c = false -> avoids c semver = true.
Proof.
  unfold alphabet. intros H.
  apply orb_false_iff in H as [H Hplus]. apply orb_false_iff in H as [H Hdot].
  apply orb_false_iff in H as [H Hhyphen]. apply orb_false_iff in H as [H Hupper].
  apply orb_false_iff in H as [Hdigit Hlower].
  assert (Hd19 : between "1" "9" c = false).
  { unfold between in *. apply andb_false_iff.
    apply andb_false_iff in Hdigit as [H|H]; [left|right; done].
    apply Nat.leb_gt in H. apply Nat.leb_gt.
    change (nat_of_ascii "0") with 48%nat in H.
    change (nat_of_ascii "1") with 49%nat. lia. }
  assert (Hzero : Ascii.eqb "0" c = false).
  { destruct (Ascii.eqb_spec "0" c) as [<-|]; [|done]. discriminate Hdigit. }
  unfold semver, numericId, prereleaseId, buildId, Opt, Plus, chr, digit, digit19,
    letterHyphen, alnumHyphen.
  cbn [avoids]. by rewrite Hplus, Hdot, Hhyphen, Hupper, Hlower, Hdigit, Hd19, Hzero.
Qed.

(** X21: a string that [versionRegex] matches is made of digits, letters,
    [-], [.] and [+] only.  In particular it holds neither [@] nor [:], so
    the version branch of [getOCPVersions] and its image branch never
    compete for the same string. *)
Theorem MatchString_alphabet (element : string) :
  MatchString element = true ->
  (forall c, Contains element (String c "") = true -> alphabet c = true) /\
  Contains element "@" = false /\ Contains element ":" = false.
Proof.
  intros Hm.
  assert (G : forall c, alphabet c = false -> Contains element (String c "") = false).
  { intros c Hc. eapply avoids_matches; [by apply avoids_semver | exact Hm]. }
  split; [|split; by apply G].
  intros c Hc. destruct (alphabet c) eqn:E; [done|]. by rewrite (G c E) in Hc.
Qed.

(** ** [FindSRM] *)

Section WithTypes.
Context {HelmChart Values : Type}.

Lemma findFrom_spec (i : Z) (a : list (Item HelmChart Values)) (x : string) :
  match findFrom i a x with
  | (j, true) =>
      exists before n after,
        a = before ++ n :: after /\ j = (i + Z.of_nat (length before))%Z /\
        SRM_Name (Item_Module n) = x /\
        Forall (fun n' => SRM_Name (Item_Module n') <> x) before
  | (j, false) => j = (-1)%Z /\ Forall (fun n => SRM_Name (Item_Module n) <> x) a
  end.
Proof.
  revert i. induction a as [|n a IH]; intros i; simpl; [done|].
  destruct (String.eqb_spec x (SRM_Name (Item_Module n))) as [->|Hne].
  - exists [], n, a. simpl. repeat split; [lia | constructor].
  - specialize (IH (i + 1)%Z). destruct (findFrom (i + 1) a x) as [j [|]].
    + destruct IH as (before & n' & after & -> & -> & Hn & Hb).
      exists (n :: before), n', after. simpl. repeat split; [lia | done |].
      constructor; [congruence | done].
    + destruct IH as [-> Hf]. split; [done|]. constructor; [congruence | done].
Qed.

(** X22: [FindSRM] returns the index of the first module of the list with
    the name looked for, and [true]; when no module has that name it
    returns -1 and [false].  A name that occurs twice is found at its first
    occurrence. *)
Theorem FindSRM_first (a : list (Item HelmChart Values)) (x : string) :
  match FindSRM a x with
  | (i, true) =>
      exists before n after,
        a = before ++ n :: after /\ i = Z.of_nat (length before) /\
        a !! Z.to_nat i = Some n /\
        SRM_Name (Item_Module n) = x /\
        Forall (fun n' => SRM_Name (Item_Module n') <> x) before
  | (i, false) => i = (-1)%Z /\ Forall (fun n => SRM_Name (Item_Module n) <> x) a
  end.
Proof.
  unfold FindSRM. pose proof (findFrom_spec 0 a x) as H.
  destruct (findFrom 0 a x) as [i [|]]; [|done].
  destruct H as (before & n & after & -> & -> & Hn & Hb).
  exists before, n, after. repeat split; try done.
  rewrite Z.add_0_l, Nat2Z.id. by rewrite list_lookup_middle.
Qed.

Lemma first_named_unique (x : string) (before before' after after' : list (Item HelmChart Values))
    (item n : Item HelmChart Values) :
  before ++ item :: after = before' ++ n :: after' ->
  Forall (fun n => SRM_Name (Item_Module n) <> x) before ->
  Forall (fun n => SRM_Name (Item_Module n) <> x) before' ->
  SRM_Name (Item_Module item) = x ->
  SRM_Name (Item_Module n) = x ->
  before' = before /\ n = item.
Proof.
  intros Heq Hb Hb' Hi Hn. revert before' Heq Hb'.
  induction before as [|b before IH]; intros [|b' before'] Heq Hb'; simpl in Heq.
  - by injection Heq as -> _.
  - injection Heq as <- _. apply Forall_cons in Hb' as [Hne _]. done.
  - injection Heq as -> _. apply Forall_cons in Hb as [Hne _]. done.
  - injection Heq as -> Heq. apply Forall_cons in Hb as [_ Hb].
    apply Forall_cons in Hb' as [_ Hb'].
    destruct (IH Hb before' Heq Hb') as [-> ->]. done.
Qed.

End WithTypes.

Section WithReconciler.
Variable r : SpecialResourceModuleReconciler.

(** ** [filterResources] *)

Lemma filterObjs_filter selector objs filteredObjects :
  Forall (fun obj => snd (GetJSONPath r (Selector_Path selector) obj) = None) objs ->
  filterObjs r selector objs filteredObjects
  = (filteredObjects
       ++ List.filter (fun obj => keeps selector
                                    (fst (GetJSONPath r (Selector_Path selector) obj))) objs,
     None).
Proof.
  intros H. revert filteredObjects.
  induction H as [|obj objs Hobj _ IH]; intros filteredObjects; simpl.
  { by rewrite app_nil_r. }
  destruct (GetJSONPath r (Selector_Path selector) obj) as [candidates err].
  simpl in Hobj. subst err. rewrite IH. unfold keeps. simpl.
  destruct (if Selector_Exclude selector then _ else _); [by rewrite <- app_assoc | done].
Qed.

Lemma filterSelectors_flat_map selectors objs filteredObjects :
  Forall (fun selector =>
            Forall (fun obj => snd (GetJSONPath r (Selector_Path selector) obj) = None) objs)
         selectors ->
  filterSelectors r selectors objs filteredObjects
  = (filteredObjects
       ++ flat_map (fun selector =>
                      List.filter (fun obj => keeps selector
                                     (fst (GetJSONPath r (Selector_Path selector) obj))) objs)
                   selectors,
     None).
Proof.
  intros H. revert filteredObjects.
  induction H as [|selector selectors Hs _ IH]; intros filteredObjects; simpl.
  { by rewrite app_nil_r. }
  rewrite (filterObjs_filter _ _ _ Hs), IH. by rewrite <- app_assoc.
Qed.

(** X23: with no selector [filterResources] returns the objects as they
    are.  With selectors, and when every path can be read in every object,
    it returns, selector after selector, the objects that selector keeps,
    in their order: the selectors are alternatives, and an object that two
    of them keep is returned twice. *)
Theorem filterResources_union
    (selectors : list SpecialResourceModuleSelector) (objs : list (Unstructured r)) :
  Forall (fun selector =>
            Forall (fun obj => snd (GetJSONPath r (Selector_Path selector) obj) = None) objs)
         selectors ->
  filterResources r selectors objs
  = (match selectors with
     | [] => objs
     | _ =>
         flat_map (fun selector =>
                     List.filter (fun obj => keeps selector
                                    (fst (GetJSONPath r (Selector_Path selector) obj))) objs)
                  selectors
     end, None).
Proof.
  intros H. unfold filterResources. destruct selectors as [|selector selectors]; [done|].
  by rewrite (filterSelectors_flat_map _ _ _ H).
Qed.

(** ** [getImageFromVersion] *)

Lemma streamsLoop_ok_calls full major minor ss imageURL (s s' : controllers.State r) image :
  streamsLoop r full major minor ss imageURL s = Some ((image, None), s') ->
  calls s' = calls s ++ ((fun stream => CallDo (graphURL stream major minor)) <$> ss) /\
  (isEmpty imageURL = false -> isEmpty image = false).
Proof.
  revert imageURL s. induction ss as [|stream ss IH]; intros imageURL s; simpl.
  { intros [= <- <-]. by rewrite app_nil_r. }
  unfold bind at 1.
  destruct (fetchGraph r (graphURL stream major minor) s) as [[[versions [e|]] s1]|] eqn:E;
    [done| |done].
  intros H. apply IH in H as [Hc Hi].
  rewrite Hc, (controllers_facts.fetchGraph_ok_calls _ _ _ _ _ E), <- app_assoc.
  split; [done|]. intros Hne. apply Hi.
  rewrite controllers_facts.scanNodes_find.
  destruct (find _ versions) as [version|] eqn:F; [|done].
  apply find_some in F as [_ F]. unfold isMatch in F.
  apply andb_true_iff in F as [_ F]. by apply negb_true_iff in F.
Qed.

(** X24: when [getImageFromVersion] returns no error for a version, the
    image it returns is not empty and the three channels fast, stable and
    candidate have all been asked, in this order, and nothing else. *)
Theorem getImageFromVersion_success (entry image : string) (s s' : controllers.State r) :
  MatchString entry = true ->
  getImageFromVersion r entry s = Some ((image, None), s') ->
  isEmpty image = false /\ calls s' = calls s ++ channelCalls r entry.
Proof.
  intros Hm. rewrite (controllers_facts.getImageFromVersion_unfold r entry Hm).
  unfold bind.
  destruct (streamsLoop r entry (majorOf entry) (minorOf entry) streams "" s)
    as [[[imageURL [e|]] s1]|] eqn:E; [done| |done].
  destruct (isEmpty imageURL) eqn:Hi; [done|].
  intros [= <- <-]. split; [done|]. by apply streamsLoop_ok_calls in E as [-> _].
Qed.

(** X25: a channel whose request fails makes [getImageFromVersion] return
    that error with the empty image, at once: what an earlier channel had
    found is dropped, and the channels after it are not asked. *)
Theorem getImageFromVersion_failing_channel (entry : string) (s : controllers.State r) :
  MatchString entry = true ->
  (forall versions e s1,
      fetchGraph r (graphURL "fast" (majorOf entry) (minorOf entry)) s
      = Some ((versions, Some e), s1) ->
      getImageFromVersion r entry s = Some (("", Some e), s1))
  /\
  (forall fast versions e s1 s2,
      fetchGraph r (graphURL "fast" (majorOf entry) (minorOf entry)) s
      = Some ((fast, None), s1) ->
      fetchGraph r (graphURL "stable" (majorOf entry) (minorOf entry)) s1
      = Some ((versions, Some e), s2) ->
      getImageFromVersion r entry s = Some (("", Some e), s2))
  /\
  (forall fast stable versions e s1 s2 s3,
      fetchGraph r (graphURL "fast" (majorOf entry) (minorOf entry)) s
      = Some ((fast, None), s1) ->
      fetchGraph r (graphURL "stable" (majorOf entry) (minorOf entry)) s1
      = Some ((stable, None), s2) ->
      fetchGraph r (graphURL "candidate" (majorOf entry) (minorOf entry)) s2
      = Some ((versions, Some e), s3) ->
      getImageFromVersion r entry s = Some (("", Some e), s3)).
Proof.
  intros Hm. rewrite (controllers_facts.getImageFromVersion_unfold r entry Hm).
  unfold streams. cbn [streamsLoop]. repeat split.
  - intros versions e s1 H1. unfold bind. by rewrite H1.
  - intros fast versions e s1 s2 H1 H2. unfold bind. rewrite H1. by rewrite H2.
  - intros fast stable versions e s1 s2 s3 H1 H2 H3. unfold bind. rewrite H1. rewrite H2.
    by rewrite H3.
Qed.

(** ** [getOCPVersions] *)

Lemma resolved_app base versionMap l l' :
  resolved r base versionMap l -> resolved r base versionMap (l ++ l').
Proof.
  intros H k info Hk. destruct (H k info Hk) as (? & l0 & -> & ? & ?).
  split; [done|]. exists (l0 ++ l'). rewrite <- app_assoc.
  split; [done|]. split; apply elem_of_app; by left.
Qed.

Lemma resolved_empty base l : resolved r base ∅ l.
Proof. intros k info. by rewrite lookup_empty. Qed.

Lemma getVersionInfoFromImage_calls entry (s s' : controllers.State r) info err :
  getVersionInfoFromImage r entry s = Some ((info, err), s') ->
  exists l, calls s' = calls s ++ l /\
            (err = None ->
             CallLastLayer (OSImage info) ∈ l /\ CallLastLayer (DTKImage info) ∈ l).
Proof.
  unfold getVersionInfoFromImage, bind, controllers.call.
  destruct (Registry_LastLayer r entry (controllers.world s)) as [[l1 [e|]] w1]; simpl;
    [intros [= <- <- <-]; by eexists|].
  destruct (Registry_ReleaseManifests r l1 w1) as [[[version dtkURL] [e|]] w2]; simpl;
    [intros [= <- <- <-]; eexists; by rewrite <- app_assoc|].
  destruct (Registry_LastLayer r dtkURL w2) as [[l2 [e|]] w3]; simpl;
    [intros [= <- <- <-]; eexists; by rewrite <- !app_assoc|].
  destruct (Registry_ExtractToolkitRelease r l2 w3) as [[dtkEntry [e|]] w4];
    intros [= <- <- <-]; simpl.
  { eexists. by rewrite <- !app_assoc. }
  exists [CallLastLayer entry; CallReleaseManifests l1; CallLastLayer dtkURL;
          CallExtractToolkitRelease l2].
  split; [by rewrite <- !app_assoc|]. intros _. split.
  - apply elem_of_cons. by left.
  - do 2 (apply elem_of_cons; right). apply elem_of_cons. by left.
Qed.

Lemma imageOf_calls element (s s' : controllers.State r) res :
  imageOf r element s = Some (res, s') -> exists l, calls s' = calls s ++ l.
Proof.
  unfold imageOf. destruct (MatchString element) eqn:Hm.
  - unfold bind.
    destruct (controllers_facts.getImageFromVersion_total r element s Hm)
      as ([tmp err] & s1 & l & -> & Hl & _).
    destruct err; intros [= <- <-]; eauto.
  - destruct (_ || _); intros [= <- <-]; exists []; by rewrite app_nil_r.
Qed.

Lemma elementsLoop_resolved base versionMap result (s s' : controllers.State r) m err :
  (exists l0, calls s = base ++ l0) ->
  resolved r base versionMap (calls s) ->
  elementsLoop r versionMap result s = Some ((m, err), s') ->
  (exists l, calls s' = calls s ++ l) /\ resolved r base m (calls s').
Proof.
  revert versionMap s. induction result as [|x xs IH]; intros versionMap s Hb Hr; simpl.
  { intros [= <- <- <-]. split; [|done]. exists []. by rewrite app_nil_r. }
  unfold bind at 1.
  destruct (imageOf r x s) as [[[image err1] s1]|] eqn:Ei; [|done].
  destruct (imageOf_calls _ _ _ _ Ei) as [l1 Hl1].
  destruct err1 as [e|].
  { intros [= <- <- <-]. split; [by exists l1 | apply resolved_empty]. }
  unfold bind at 1.
  destruct (getVersionInfoFromImage r image s1) as [[[info err2] s2]|] eqn:Ev; [|done].
  destruct (getVersionInfoFromImage_calls _ _ _ _ _ Ev) as (l2 & Hl2 & Hin).
  destruct err2 as [e|].
  { intros [= <- <- <-]. split; [|apply resolved_empty].
    exists (l1 ++ l2). by rewrite Hl2, Hl1, <- app_assoc. }
  destruct Hb as [l0 Hl0]. destruct (Hin eq_refl) as [Ho Hd].
  assert (Hb2 : exists l, calls s2 = base ++ l).
  { exists (l0 ++ l1 ++ l2). by rewrite Hl2, Hl1, Hl0, <- !app_assoc. }
  assert (Hr2 : resolved r base (<[ClusterVersion info := info]> versionMap) (calls s2)).
  { intros k info' Hk. apply lookup_insert_Some in Hk as [[<- <-]|[Hne Hk]].
    - split; [done|]. exists (l0 ++ l1 ++ l2).
      split; [by rewrite Hl2, Hl1, Hl0, <- !app_assoc|].
      split; do 2 (apply elem_of_app; right); done.
    - rewrite Hl2, Hl1, <- app_assoc. exact (resolved_app _ _ _ _ Hr k info' Hk). }
  intros H. destruct (IH _ _ Hb2 Hr2 H) as [[l3 Hl3] Hres].
  split; [|done]. exists (l1 ++ l2 ++ l3). by rewrite Hl3, Hl2, Hl1, <- !app_assoc.
Qed.

Lemma objsLoop_resolved base path versionMap objs (s s' : controllers.State r) m err :
  (exists l0, calls s = base ++ l0) ->
  resolved r base versionMap (calls s) ->
  objsLoop r path versionMap objs s = Some ((m, err), s') ->
  (exists l, calls s' = calls s ++ l) /\ resolved r base m (calls s').
Proof.
  revert versionMap s. induction objs as [|obj objs IH]; intros versionMap s Hb Hr; simpl.
  { intros [= <- <- <-]. split; [|done]. exists []. by rewrite app_nil_r. }
  destruct (GetJSONPath r path obj) as [result [e|]]; [by apply IH|].
  unfold bind.
  destruct (elementsLoop r versionMap result s) as [[[m1 err1] s1]|] eqn:E; [|done].
  destruct (elementsLoop_resolved _ _ _ _ _ _ _ Hb Hr E) as ([l1 Hl1] & Hr1).
  destruct err1 as [e|].
  { intros [= <- <- <-]. split; [by exists l1 | apply resolved_empty]. }
  assert (Hb1 : exists l, calls s1 = base ++ l).
  { destruct Hb as [l0 Hl0]. exists (l0 ++ l1). by rewrite Hl1, Hl0, <- app_assoc. }
  intros H. destruct (IH _ _ Hb1 Hr1 H) as [[l2 Hl2] Hr2].
  split; [|done]. exists (l1 ++ l2). by rewrite Hl2, Hl1, <- app_assoc.
Qed.

Lemma getAllResources_calls kind apiVersion namespace name (s s' : controllers.State r) res :
  getAllResources r kind apiVersion namespace name s = Some (res, s') ->
  exists l, calls s' = calls s ++ l.
Proof.
  unfold getAllResources, bind, controllers.call. destruct (String.eqb name "").
  - destruct (KubeClient_List r kind apiVersion (controllers.world s)) as [[items [e|]] w];
      intros [= <- <-]; by eexists.
  - destruct (KubeClient_Get r kind apiVersion namespace name (controllers.world s))
      as [[obj err] w].
    intros [= <- <-]. by eexists.
Qed.

Lemma watchLoop_resolved base versionMap watchList (s s' : controllers.State r) m err :
  (exists l0, calls s = base ++ l0) ->
  resolved r base versionMap (calls s) ->
  watchLoop r versionMap watchList s = Some ((m, err), s') ->
  (exists l, calls s' = calls s ++ l) /\ resolved r base m (calls s').
Proof.
  revert versionMap s. induction watchList as [|w ws IH]; intros versionMap s Hb Hr; simpl.
  { intros [= <- <- <-]. split; [|done]. exists []. by rewrite app_nil_r. }
  unfold bind at 1.
  destruct (getAllResources r (Watch_Kind w) (Watch_ApiVersion w) (Watch_Namespace w)
              (Watch_Name w) s) as [[[objs err0] s1]|] eqn:Eg; [|done].
  destruct (getAllResources_calls _ _ _ _ _ _ _ Eg) as [l1 Hl1].
  assert (Hr1 : resolved r base versionMap (calls s1)) by (rewrite Hl1; by apply resolved_app).
  assert (Hb1 : exists l0, calls s1 = base ++ l0).
  { destruct Hb as [l0 Hl0]. exists (l0 ++ l1). by rewrite Hl1, Hl0, <- app_assoc. }
  destruct err0 as [e|].
  { destruct (IsNotFound e).
    - intros H. destruct (IH _ _ Hb1 Hr1 H) as ([l2 Hl2] & Hr2).
      split; [|done]. exists (l1 ++ l2). by rewrite Hl2, Hl1, <- app_assoc.
    - intros [= <- <- <-]. split; [by exists l1 | apply resolved_empty]. }
  destruct (filterResources r (Watch_Selector w) objs) as [objs' [e|]].
  { intros [= <- <- <-]. split; [by exists l1 | apply resolved_empty]. }
  unfold bind.
  destruct (objsLoop r (Watch_Path w) versionMap objs' s1) as [[[m1 err1] s2]|] eqn:Eo;
    [|done].
  destruct (objsLoop_resolved _ _ _ _ _ _ _ _ Hb1 Hr1 Eo) as ([l2 Hl2] & Hr2).
  destruct err1 as [e|].
  { intros [= <- <- <-]. split; [|apply resolved_empty].
    exists (l1 ++ l2). by rewrite Hl2, Hl1, <- app_assoc. }
  assert (Hb2 : exists l0, calls s2 = base ++ l0).
  { destruct Hb1 as [l0 Hl0]. exists (l0 ++ l2). by rewrite Hl2, Hl0, <- app_assoc. }
  intros H. destruct (IH _ _ Hb2 Hr2 H) as ([l3 Hl3] & Hr3).
  split; [|done]. exists (l1 ++ l2 ++ l3). by rewrite Hl3, Hl2, Hl1, <- !app_assoc.
Qed.

(** X26: every entry of the map [getOCPVersions] returns is filed under its
    own cluster version, and was resolved in this run: the calls it made
    include reading the last layer of the entry's release image and of its
    toolkit image.  A map with an entry comes with no error. *)
Theorem getOCPVersions_entries
    (watchList : list SpecialResourceModuleWatch) (s s' : controllers.State r)
    (versionMap : gmap string OCPVersionInfo) (err : option error)
    (k : string) (info : OCPVersionInfo) :
  getOCPVersions r watchList s = Some ((versionMap, err), s') ->
  versionMap !! k = Some info ->
  err = None /\
  ClusterVersion info = k /\
  exists l, calls s' = calls s ++ l /\
            CallLastLayer (OSImage info) ∈ l /\ CallLastLayer (DTKImage info) ∈ l.
Proof.
  intros H Hk. unfold getOCPVersions in H.
  split.
  { destruct (controllers_facts.watchLoop_total r ∅ watchList s) as (m & e & s1 & E & He).
    rewrite H in E. injection E as <- <- <-.
    destruct err as [e0|]; [|done]. rewrite He in Hk by eauto. by rewrite lookup_empty in Hk. }
  assert (Hb : exists l0, calls s = calls s ++ l0) by (exists []; by rewrite app_nil_r).
  destruct (watchLoop_resolved (calls s) ∅ watchList s s' versionMap err Hb
              (resolved_empty _ _) H) as [_ Hr].
  exact (Hr k info Hk).
Qed.

(** ** [reconcileChart] and the loop of [Reconcile] *)

Lemma statesLoop_applied srm md nostate stateYAMLS result (s s' : controllers.State r) :
  applied r srm md nostate stateYAMLS s s' ->
  statesLoop r srm md nostate stateYAMLS result s = Some (([], None), s').
Proof.
  intros H. revert result.
  induction H as [s|f fs s s1 s2 Hf _ IH]; intros result; simpl; [done|].
  unfold bind. rewrite Hf. apply IH.
Qed.

Lemma statesLoop_success srm md nostate stateYAMLS result (s s' : controllers.State r) names :
  statesLoop r srm md nostate stateYAMLS result s = Some ((names, None), s') -> names = [].
Proof.
  revert result s. induction stateYAMLS as [|f fs IH]; intros result s; simpl.
  { by intros [= <- <-]. }
  unfold bind. destruct (applyState r srm md nostate f s) as [[[e|] s1]|]; [done| |done].
  apply IH.
Qed.

(** A pass that returns no error returns no name either. *)
Lemma reconcileChart_success srm md reconciledInput (s s' : controllers.State r) names :
  reconcileChart r srm md reconciledInput s = Some ((names, None), s') -> names = [].
Proof.
  unfold reconcileChart, bind, controllers.call.
  destruct (Helmer_Load r _ _) as [[c [e|]] w]; simpl; [done|].
  destruct (partitionTemplates r _ _ _ _ _) as [[stateYAMLS result] templates].
  apply statesLoop_success.
Qed.

(** When the steps of the state templates that the supplied list does not
    name all succeed, [reconcileChart] has applied these, one call each, in
    the order of their names, and returns the nil list. *)
Lemma reconcileChart_applies_pending
    (srm : SpecialResourceModule (HelmChart r) (Values r))
    (md : Metadata (HelmChart r) (Values r)) (reconciledInput : list string)
    (s s' : controllers.State r) (c : Chart (ChartMeta r) (Values r)) (w : World r) :
  let pending :=
    List.filter (fun f => ValidStateName r (File_Name f) && negb (listed reconciledInput f))
                (Chart_Templates c) in
  let nostate :=
    withTemplates r c (List.filter (fun f => negb (ValidStateName r (File_Name f)))
                                   (Chart_Templates c)) in
  Helmer_Load r (Spec_Chart (SRM_Spec srm)) (controllers.world s) = ((c, None), w) ->
  applied r srm md nostate (sortByName pending)
          (controllers.Build_State w (calls s ++ [CallLoad (Spec_Chart (SRM_Spec srm))])) s' ->
  reconcileChart r srm md reconciledInput s = Some (([], None), s') /\
  runNames r (calls s') = runNames r (calls s) ++ (File_Name <$> sortByName pending).
Proof.
  intros pending nostate Hload Happ. split.
  - unfold reconcileChart, bind, controllers.call. rewrite Hload.
    rewrite controllers_facts.partitionTemplates_filter. simpl.
    by apply statesLoop_applied.
  - rewrite (controllers_facts.applied_runNames _ _ _ _ _ _ _ Happ). simpl.
    unfold runNames at 1. rewrite omap_app. simpl. by rewrite app_nil_r.
Qed.

Lemma updateLoop_step resource element updateList (s s1 : controllers.State r)
    reconciledList err :
  reconcileChart r resource (getMetadata r resource element)
    (default [] (ReconciledTemplates <$> Status_Versions resource !! ClusterVersion element)) s
  = Some ((reconciledList, err), s1) ->
  updateLoop r resource (element :: updateList) s
  = let resource' := recorded r resource element reconciledList in
    let '(e, w) := KubeClient_StatusUpdate r resource' (controllers.world s1) in
    let s2 := controllers.Build_State w (calls s1 ++ [CallStatusUpdate resource']) in
    match e with
    | Some e => Some ((resource', Some e), s2)
    | None =>
        match err with
        | Some err => Some ((resource', Some err), s2)
        | None => updateLoop r resource' updateList s2
        end
    end.
Proof.
  intros H. cbn [updateLoop]. unfold index.
  assert (Hi : (let '(data, ok) :=
                  match Status_Versions resource !! ClusterVersion element with
                  | Some v => (v, true)
                  | None => ({| ReconciledTemplates := []; Complete := false |}, false)
                  end in if ok then ReconciledTemplates data else [])
               = default [] (ReconciledTemplates
                               <$> Status_Versions resource !! ClusterVersion element)).
  { by destruct (Status_Versions resource !! ClusterVersion element). }
  destruct (Status_Versions resource !! ClusterVersion element) as [data|]; simpl in *;
    unfold bind at 1; rewrite H; unfold bind, controllers.call, recorded;
    destruct (KubeClient_StatusUpdate r _ (controllers.world s1)) as [[e|] w];
    try destruct err; done.
Qed.

(** C1: reconciling again a version whose status is complete applies
    every state unit again.  A pass of [reconcileChart] that ends without
    error returns no name, whatever it was supplied, so the status the loop
    of [Reconcile] stores for the version lists no unit and is marked
    complete.  From a status of that form the loop supplies no name to the
    next pass: when the steps succeed, every state unit of the bundle is
    applied again, in the order of the names, as many applies as the bundle
    has state units, and the same status is stored again. *)
Theorem updateLoop_complete_status_applies_again
    (resource : SpecialResourceModule (HelmChart r) (Values r))
    (element : OCPVersionInfo) (updateList : list OCPVersionInfo)
    (s s1 : controllers.State r) (c : Chart (ChartMeta r) (Values r)) (w w' : World r) :
  let units :=
    List.filter (fun f => ValidStateName r (File_Name f)) (Chart_Templates c) in
  let nostate :=
    withTemplates r c (List.filter (fun f => negb (ValidStateName r (File_Name f)))
                                   (Chart_Templates c)) in
  let resource' := recorded r resource element [] in
  let s2 := controllers.Build_State w' (calls s1 ++ [CallStatusUpdate resource']) in
  (forall srm version reconciledInput (t t' : controllers.State r) names,
      reconcileChart r srm (getMetadata r srm version) reconciledInput t
      = Some ((names, None), t') ->
      names = [] /\
      Status_Versions (recorded r srm version names) !! ClusterVersion version
      = Some {| ReconciledTemplates := []; Complete := true |}) /\
  (Status_Versions resource !! ClusterVersion element
   = Some {| ReconciledTemplates := []; Complete := true |} ->
   Helmer_Load r (Spec_Chart (SRM_Spec resource)) (controllers.world s) = ((c, None), w) ->
   applied r resource (getMetadata r resource element) nostate (sortByName units)
     (controllers.Build_State w (calls s ++ [CallLoad (Spec_Chart (SRM_Spec resource))])) s1 ->
   KubeClient_StatusUpdate r resource' (controllers.world s1) = (None, w') ->
   updateLoop r resource (element :: updateList) s = updateLoop r resource' updateList s2 /\
   runNames r (calls s2) = runNames r (calls s) ++ (File_Name <$> sortByName units) /\
   length (File_Name <$> sortByName units) = length (stateNames r c) /\
   Status_Versions resource' = Status_Versions resource).
Proof.
  intros units nostate resource' s2. split.
  { intros srm version reconciledInput t t' names Hok.
    apply reconcileChart_success in Hok as ->. split; [done|].
    unfold recorded, withVersions. simpl. by rewrite lookup_insert_eq. }
  intros Hstatus Hload Happ Hupd.
  assert (Hunits : List.filter (fun f => ValidStateName r (File_Name f)
                                         && negb (listed [] f)) (Chart_Templates c)
                   = units).
  { unfold units. apply filter_ext_in. intros f _.
    unfold listed, reconciledInputMap, index. simpl. rewrite lookup_empty. simpl.
    apply andb_true_r. }
  destruct (reconcileChart_applies_pending resource (getMetadata r resource element) []
              s s1 c w Hload) as [Hrec Hruns].
  { rewrite Hunits. exact Happ. }
  rewrite Hunits in Hruns.
  split; [|split; [|split]].
  - assert (Hrec' : reconcileChart r resource (getMetadata r resource element)
                      (default [] (ReconciledTemplates
                                     <$> Status_Versions resource !! ClusterVersion element)) s
                    = Some (([], None), s1)) by (rewrite Hstatus; exact Hrec).
    rewrite (updateLoop_step _ _ _ _ _ _ _ Hrec'). cbn zeta. fold resource'.
    by rewrite Hupd.
  - subst s2. simpl. unfold runNames at 1. rewrite omap_app. simpl.
    rewrite app_nil_r. exact Hruns.
  - rewrite !length_fmap. unfold stateNames. rewrite length_fmap.
    apply Permutation_length, controllers_facts.sortByName_Permutation.
  - subst resource'. unfold recorded, withVersions. simpl.
    apply map_eq. intros k. destruct (decide (ClusterVersion element = k)) as [<-|Hne].
    + by rewrite lookup_insert_eq, Hstatus.
    + by rewrite lookup_insert_ne.
Qed.

(** X27: the loop of [Reconcile] stores the outcome of a version's pass in
    the status and persists it before it looks at the error of the pass.
    An error of the status update is returned in place of the error of the
    pass; with the status persisted, the error of the pass is returned and
    the versions after it are not attempted. *)
Theorem updateLoop_persists_then_fails
    (resource : SpecialResourceModule (HelmChart r) (Values r))
    (element : OCPVersionInfo) (updateList : list OCPVersionInfo)
    (s s1 : controllers.State r) (reconciledList : list string) (err : option error)
    (e : option error) (w : World r) :
  let resource' := recorded r resource element reconciledList in
  let s2 := controllers.Build_State w (calls s1 ++ [CallStatusUpdate resource']) in
  reconcileChart r resource (getMetadata r resource element)
    (default [] (ReconciledTemplates <$> Status_Versions resource !! ClusterVersion element)) s
  = Some ((reconciledList, err), s1) ->
  KubeClient_StatusUpdate r resource' (controllers.world s1) = (e, w) ->
  is_Some e \/ is_Some err ->
  updateLoop r resource (element :: updateList) s
  = Some ((resource', match e with Some _ => e | None => err end), s2) /\
  Status_Versions resource' !! ClusterVersion element
  = Some {| ReconciledTemplates := reconciledList;
            Complete := Nat.eqb (length reconciledList) 0 |}.
Proof.
  intros resource' s2 Hrec Hupd Herr. split.
  - rewrite (updateLoop_step _ _ _ _ _ _ _ Hrec). fold resource'. cbn zeta.
    rewrite Hupd. destruct e as [e0|]; [done|].
    destruct Herr as [[? [=]]|[e1 ->]]. done.
  - subst resource'. unfold recorded, withVersions. simpl. apply lookup_insert_eq.
Qed.

(** X28: when the chart of the module cannot be loaded, the loop of
    [Reconcile] records the version as complete, with no reconciled
    template, persists that status and then returns the error of the load
    (or that of the status update). *)
Theorem updateLoop_load_failure_marks_complete
    (resource : SpecialResourceModule (HelmChart r) (Values r))
    (element : OCPVersionInfo) (updateList : list OCPVersionInfo)
    (s : controllers.State r) (c : Chart (ChartMeta r) (Values r)) (e0 : error)
    (w w' : World r) (e : option error) :
  let resource' := recorded r resource element [] in
  Helmer_Load r (Spec_Chart (SRM_Spec resource)) (controllers.world s) = ((c, Some e0), w) ->
  KubeClient_StatusUpdate r resource' w = (e, w') ->
  updateLoop r resource (element :: updateList) s
  = Some ((resource', Some (default e0 e)),
          controllers.Build_State w'
            (calls s ++ [CallLoad (Spec_Chart (SRM_Spec resource));
                         CallStatusUpdate resource'])) /\
  Status_Versions resource' !! ClusterVersion element
  = Some {| ReconciledTemplates := []; Complete := true |}.
Proof.
  intros resource' Hload Hupd. split.
  - assert (Hrec : forall input,
               reconcileChart r resource (getMetadata r resource element) input s
               = Some (([], Some e0),
                       controllers.Build_State w
                         (calls s ++ [CallLoad (Spec_Chart (SRM_Spec resource))]))).
    { intros input. unfold reconcileChart, bind, controllers.call. simpl.
      by rewrite Hload. }
    rewrite (updateLoop_step _ _ _ _ _ _ _ (Hrec _)). fold resource'. cbn zeta. simpl.
    rewrite Hupd. rewrite <- app_assoc. by destruct e.
  - subst resource'. unfold recorded, withVersions. simpl. apply lookup_insert_eq.
Qed.

End WithReconciler.

(** ** [Reconcile] *)

Section WithManager.
Variable m : Manager.


(** X29: [Reconcile] does nothing but list the modules when the list fails
    (it returns that error), when no listed module has the requested name,
    and when the module found carries a deletion timestamp (it returns no
    error in both cases).  When the watches of the module cannot be
    reconciled it returns that error, and has created no namespace and
    resolved no version. *)
Theorem Reconcile_early_exits (name : string) (s : State m) :
  let r := KubeClient_ListModules m (world s) in
  let s1 := Build_State (snd r) (events s ++ [CallListModules]) in
  (forall e, snd (fst r) = Some e -> Reconcile m name s = Some (Some e, s1)) /\
  (snd (fst r) = None ->
   Forall (fun n => SRM_Name (Item_Module n) <> name) (fst (fst r)) ->
   Reconcile m name s = Some (None, s1)) /\
  (forall before item after,
      snd (fst r) = None ->
      fst (fst r) = before ++ item :: after ->
      Forall (fun n => SRM_Name (Item_Module n) <> name) before ->
      SRM_Name (Item_Module item) = name ->
      (is_Some (DeletionTimestamp item) -> Reconcile m name s = Some (None, s1)) /\
      (forall e w,
          DeletionTimestamp item = None ->
          Watcher_ReconcileWatches m (Item_Module item) (snd r) = (Some e, w) ->
          Reconcile m name s
          = Some (Some e,
                  Build_State w (events s ++ [CallListModules;
                                              CallReconcileWatches (Item_Module item)])))).
Proof.
  intros r s1. subst r s1. unfold Reconcile, call.
  destruct (KubeClient_ListModules m (world s)) as [[items err] w0]. simpl.
  split; [|split].
  - by intros e ->.
  - intros -> Hall. pose proof (FindSRM_first items name) as H.
    destruct (FindSRM items name) as [i [|]]; [|done].
    destruct H as (before & n & after & -> & _ & _ & Hn & _).
    apply Forall_app in Hall as [_ Hall]. apply Forall_cons in Hall as [Hne _]. done.
  - intros before item after -> -> Hb Hn.
    pose proof (FindSRM_first (before ++ item :: after) name) as H.
    destruct (FindSRM (before ++ item :: after) name) as [i [|]].
    + destruct H as (before' & n & after' & Heq & _ & Hi & Hn' & Hb').
      destruct (first_named_unique _ _ _ _ _ _ _ Heq Hb Hb' Hn Hn') as [-> ->]. simpl. rewrite Hi. split.
      * by intros [t ->].
      * intros e w -> Hw. rewrite Hw. simpl. by rewrite <- app_assoc.
    + destruct H as [_ Hall]. apply Forall_app in Hall as [_ Hall].
      apply Forall_cons in Hall as [Hne _]. done.
Qed.


End WithManager.
End controllers_run_facts.

(** * The properties at the worked instances *)

Module upgrade_checks.
Import exit upgrade upgrade_examples upgrade_facts.

Lemma UpdateInfo_osVersion_consistency_witness :
  exists key' nv',
    (key' = "4.18.0-305.el8.x86_64" \/ key' = "4.18.0-305.rt7.72.el8.x86_64") /\
    info84 !! key' = Some nv' /\
    OSVersion nv' <> "8.5" /\
    UpdateInfo "amd64" info84 (dtk "8.5") "quay.io/x/dtk@sha256:bbb"
    = Exited (mismatch (OSVersion nv') "8.5").
Proof.
  apply (proj1 (UpdateInfo_osVersion_consistency "amd64" info84 (dtk "8.5")
                  "quay.io/x/dtk@sha256:bbb")
           "4.18.0-305.el8.x86_64" node84).
  - left. reflexivity.
  - reflexivity.
  - discriminate.
Defined.

Lemma normalizeArch_substring_test_witness :
  registry.KernelFullVersion (normalizeArch "amd64" (dtk "8.4")) = "4.18.0-305.el8.x86_64".
Proof.
  destruct (normalizeArch_substring_test "amd64" info84 (dtk "8.4") "")
    as (_ & _ & _ & _ & _ & _ & H & _).
  apply H; reflexivity.
Defined.

Lemma normalizeArch_suffix_counterexample :
  HasSuffix (registry.RTKernelFullVersion dtkRTSuffixed) (runningArch "amd64") = true /\
  registry.RTKernelFullVersion (normalizeArch "amd64" dtkRTSuffixed)
  = "4.18.0-305.rt7.72.el8.x86_64.x86_64" /\
  HasSuffix (registry.KernelFullVersion dtkDebug) (runningArch "amd64") = false /\
  registry.KernelFullVersion (normalizeArch "amd64" dtkDebug)
  = "4.18.0-305.el8.x86_64+debug" /\
  normalizeArch "amd64" dtkRTSuffixed <> spec_normalizeArch "amd64" dtkRTSuffixed /\
  normalizeArch "amd64" dtkDebug <> spec_normalizeArch "amd64" dtkDebug.
Proof. repeat split; try reflexivity; discriminate. Qed.
End upgrade_checks.

Module preflight_checks.
Import preflight preflight_examples preflight_facts.

Lemma daemonSetPreflightCheck_fetch_failure_is_false_witness :
  daemonSetPreflightCheck p0 (daemonSet "quay.io/x/missing:1") "4.18.0-305.el8.x86_64" start
  = ((false, None),
     @Build_State p0 tt [CallGetLayersDigests "quay.io/x/missing:1"]).
Proof.
  apply (proj1 (daemonSetPreflightCheck_fetch_failure_is_false p0)
           (daemonSet "quay.io/x/missing:1") "4.18.0-305.el8.x86_64" start
           (fst (convert (daemonSet "quay.io/x/missing:1")))
           {| Name := "driver"; Image := "quay.io/x/missing:1" |}
           [ {| Name := "sidecar"; Image := "quay.io/x/sidecar:1" |} ]
           "" [] tt (errorString "unreachable") tt);
    reflexivity.
Defined.

Lemma daemonSetPreflightCheck_fetch_failure_counterexample :
  (exists e, fst (layersDigests "quay.io/x/missing:1" tt) = ("", [], tt, Some e)) /\
  fst (daemonSetPreflightCheck p0 (daemonSet "quay.io/x/missing:1") "4.18.0-305.el8.x86_64" start)
  = (false, None) /\
  (exists e, fst (layerByDigest "quay.io/x/driver" "sha256:gone" tt tt) = ("", Some e)) /\
  fst (layersLoop p0 "quay.io/x/driver" tt "4.18.0-305.el8.x86_64"
            ["sha256:3"; "sha256:gone"; "sha256:1"] start)
  = (false, None).
Proof. repeat split; try (eexists; reflexivity); reflexivity. Qed.

Lemma daemonSetPreflightCheck_first_container_only_witness :
  daemonSetPreflightCheck p0 (daemonSet "quay.io/x/driver:1") "4.18.0-305.el8.x86_64" start
  = daemonSetPreflightCheck p0 {| kind := "DaemonSet";
             containers := [ {| Name := "other"; Image := "quay.io/x/driver:1" |} ] |}
          "4.18.0-305.el8.x86_64" start.
Proof.
  eapply (proj1 (proj2 (daemonSetPreflightCheck_first_container_only p0)));
    reflexivity.
Defined.

Lemma handleYAMLsCheck_first_governing_kind_witness :
  handleYAMLsCheck p0 "buildconfig,daemonset" "4.18.0-305.el8.x86_64" start = ((true, None), start).
Proof.
  apply (proj1 (handleYAMLsCheck_first_governing_kind p0 "buildconfig,daemonset" "4.18.0-305.el8.x86_64" start
                  [buildConfig; daemonSet "quay.io/x/driver:1"] eq_refl)).
Defined.

Lemma handleYAMLsCheck_order_counterexample :
  fst (parse "daemonset,buildconfig") = [daemonSet "quay.io/x/driver:1"; buildConfig] /\
  hasKind p0 "BuildConfig" (fst (parse "daemonset,buildconfig")) = true /\
  calls (snd (handleYAMLsCheck p0 "daemonset,buildconfig" "4.18.0-305.el8.x86_64" start))
  = [ CallGetLayersDigests "quay.io/x/driver:1";
      CallGetLayerByDigest "quay.io/x/driver" "sha256:3";
      @CallExtractToolkitRelease p0 "sha256:3";
      CallGetLayerByDigest "quay.io/x/driver" "sha256:2";
      @CallExtractToolkitRelease p0 "sha256:2" ] /\
  fst (handleYAMLsCheck p0 "daemonset,buildconfig" "4.18.0-305.el8.x86_64" start) = (true, None) /\
  fst (handleYAMLsCheck p0 "daemonset,buildconfig" "5.14.0-70.el9.x86_64" start) = (false, None).
Proof. repeat split; reflexivity. Qed.
End preflight_checks.

Module controllers_checks.
Import controllers controllers_examples controllers_facts.

Lemma reconcileChart_complete_returns_nil_witness :
  reconcileChart r0 (srm0 "good" ∅) (md0 "good") ["10-a"; "20-b"; "30-c"] start
  = Some (([], None), @Build_State r0 tt [@CallLoad r0 "good"])
  /\ List.filter (isRun r0) [@CallLoad r0 "good"] = [].
Proof.
  apply (reconcileChart_complete_returns_nil r0 (srm0 "good" ∅) (md0 "good")
           ["10-a"; "20-b"; "30-c"] start
           {| Chart_Metadata := tt;
              Chart_Templates := [file "20-b"; file "configmap.yaml"; file "10-a"; file "30-c"];
              Chart_Values := tt |} tt).
  - reflexivity.
  - intros x Hx. apply list_elem_of_In in Hx. apply list_elem_of_In.
    destruct Hx as [<-|[<-|[<-|[]]]]; simpl; auto.
Defined.

Lemma reconcileChart_complete_counterexample :
  stateNames r0 {| Chart_Metadata := tt;
                   Chart_Templates := [file "20-b"; file "configmap.yaml"; file "10-a";
                                       file "30-c"];
                   Chart_Values := tt |}
  = ["20-b"; "10-a"; "30-c"] /\
  fst <$> reconcileChart r0 (srm0 "good" ∅) (md0 "good") ["10-a"; "20-b"; "30-c"] start
  = Some ([], None) /\
  "10-a" ∈ ["10-a"; "20-b"; "30-c"] /\
  "10-a" ∉ ([] : list string).
Proof.
  split; [reflexivity|]. split; [reflexivity|]. split; [by left|]. apply not_elem_of_nil.
Qed.

Lemma reconcileChart_abort_keeps_progress_witness :
  reconcileChart r1 (srm0 "shuffled" ∅) (getMetadata r1 (srm0 "shuffled" ∅) info0) ["10-a"]
    start1
  = Some ((["10-a"], Some (errorString "apply failed")),
          @Build_State r1 tt
            [ @CallLoad r1 "shuffled";
              @CallRun r1 {| Chart_Metadata := tt;
                         Chart_Templates := [ file "configmap.yaml";
                                              {| File_Name := "20-b"; File_Data := "invalid" |} ];
                         Chart_Values := tt |} tt ])
  /\ file "30-c" ∈ [file "30-c"]
  /\ ("20-b" ∉ ["10-a"])
  /\ ("30-c" ∉ ["10-a"]).
Proof.
  destruct (reconcileChart_abort_keeps_progress r1 (srm0 "shuffled" ∅)
              (getMetadata r1 (srm0 "shuffled" ∅) info0) ["10-a"]
              start1 (@Build_State r1 tt [@CallLoad r1 "shuffled"])
              (@Build_State r1 tt
                 [ @CallLoad r1 "shuffled";
                   @CallRun r1 {| Chart_Metadata := tt;
                              Chart_Templates :=
                                [ file "configmap.yaml";
                                  {| File_Name := "20-b"; File_Data := "invalid" |} ];
                              Chart_Values := tt |} tt ])
              {| Chart_Metadata := tt;
                 Chart_Templates := [ file "30-c";
                                      {| File_Name := "20-b"; File_Data := "invalid" |};
                                      file "configmap.yaml"; file "10-a" ];
                 Chart_Values := tt |} tt
              [ file "30-c"; {| File_Name := "20-b"; File_Data := "invalid" |} ]
              [file "configmap.yaml"] [] [file "30-c"] ["10-a"]
              {| File_Name := "20-b"; File_Data := "invalid" |} (errorString "apply failed")
              eq_refl eq_refl eq_refl (applied_nil _ _ _ _ _) eq_refl)
    as (Hres & _ & _ & _ & (l & _ & _ & Hafter) & Hleft & _).
  split; [exact Hres|].
  destruct (Hafter (file "30-c")) as (Hrest & Hret & _).
  - apply elem_of_cons. by left.
  - reflexivity.
  - intros Hin. apply elem_of_cons in Hin as [Hin|Hin]; [discriminate Hin|].
    by apply elem_of_nil in Hin.
  - reflexivity.
  - split; [exact Hrest|]. split; [|exact Hret].
    apply (Hleft {| File_Name := "20-b"; File_Data := "invalid" |}).
    apply elem_of_cons. by left.
Defined.

(** With [20-b] failing: a supplied name that is no state unit of the
    bundle is not returned, and the supplied name of a unit that sorts after
    the failing one is returned. *)
Lemma reconcileChart_supplied_names_counterexample :
  (fst <$> reconcileChart r0 (srm0 "flaky" ∅) (md0 "flaky") ["10-a"; "05-old"] start
   = Some (["10-a"], Some (errorString "apply failed")) /\
   validStateName0 "05-old" = true /\
   "05-old" ∈ ["10-a"; "05-old"] /\
   ("05-old" ∉ ["10-a"])) /\
  (fst <$> reconcileChart r0 (srm0 "flaky" ∅) (md0 "flaky") ["10-a"; "30-c"] start
   = Some (["10-a"; "30-c"], Some (errorString "apply failed")) /\
   "10-a" ∈ ["10-a"; "30-c"] /\
   "30-c" ∈ ["10-a"; "30-c"]).
Proof.
  split.
  - split; [reflexivity|]. split; [reflexivity|]. split.
    + apply elem_of_cons. right. apply elem_of_cons. by left.
    + intros Hin. apply elem_of_cons in Hin as [Hin|Hin]; [discriminate Hin|].
      by apply elem_of_nil in Hin.
  - split; [reflexivity|]. split.
    + apply elem_of_cons. by left.
    + apply elem_of_cons. right. apply elem_of_cons. by left.
Qed.

Lemma getImageFromVersion_last_channel_wins_witness :
  getImageFromVersion r0 "4.12.5" start
  = Some (("quay.io/x/release@sha256:ccc", None),
          @Build_State r0 tt [ @CallDo r0 (graphURL "fast" "4" "12");
                               @CallDo r0 (graphURL "stable" "4" "12");
                               @CallDo r0 (graphURL "candidate" "4" "12") ]).
Proof.
  apply (proj1 (proj2 (getImageFromVersion_last_channel_wins r0 "4.12.5" start eq_refl))
           [ {| Version := "4.12.4"; Payload := "quay.io/x/release@sha256:999" |};
             {| Version := "4.12.5"; Payload := "quay.io/x/release@sha256:aaa" |} ]
           []
           [ {| Version := "4.12.5"; Payload := "quay.io/x/release@sha256:ccc" |} ]
           (@Build_State r0 tt [@CallDo r0 (graphURL "fast" "4" "12")])
           (@Build_State r0 tt [@CallDo r0 (graphURL "fast" "4" "12");
                                @CallDo r0 (graphURL "stable" "4" "12")])
           (@Build_State r0 tt [@CallDo r0 (graphURL "fast" "4" "12");
                                @CallDo r0 (graphURL "stable" "4" "12");
                                @CallDo r0 (graphURL "candidate" "4" "12")]));
    reflexivity.
Defined.

Lemma getImageFromVersion_first_match_counterexample :
  fst <$> fetchGraph r0 (graphURL "fast" "4" "12") start
  = Some ([ {| Version := "4.12.4"; Payload := "quay.io/x/release@sha256:999" |};
            {| Version := "4.12.5"; Payload := "quay.io/x/release@sha256:aaa" |} ], None) /\
  fst <$> fetchGraph r0 (graphURL "stable" "4" "12") start = Some ([], None) /\
  fst <$> fetchGraph r0 (graphURL "candidate" "4" "12") start
  = Some ([ {| Version := "4.12.5"; Payload := "quay.io/x/release@sha256:ccc" |} ], None) /\
  spec_firstMatch "4.12.5"
    [ [ {| Version := "4.12.4"; Payload := "quay.io/x/release@sha256:999" |};
        {| Version := "4.12.5"; Payload := "quay.io/x/release@sha256:aaa" |} ];
      [];
      [ {| Version := "4.12.5"; Payload := "quay.io/x/release@sha256:ccc" |} ] ]
  = "quay.io/x/release@sha256:aaa" /\
  fst <$> getImageFromVersion r0 "4.12.5" start
  = Some ("quay.io/x/release@sha256:ccc", None).
Proof. repeat split; vm_compute; reflexivity. Qed.

Lemma getOCPVersions_abort_or_skip_witness :
  objsLoop r0 "{.status.desired.image}" ∅ [otherObj; imageObj] start
  = objsLoop r0 "{.status.desired.image}" ∅ [imageObj] start.
Proof.
  destruct (getOCPVersions_abort_or_skip r0) as (_ & _ & _ & H & _).
  apply (H "{.status.desired.image}" ∅ otherObj [imageObj] start []
           (errorString "{.status.desired.image} is not found")).
  reflexivity.
Defined.

Lemma getOCPVersions_extraction_counterexample :
  snd (GetJSONPath r0 "{.status.desired.image}" otherObj)
  = Some (errorString "{.status.desired.image} is not found") /\
  fst <$> getOCPVersions r0 [watch "ClusterVersion" "" "{.status.desired.image}"] start
  = Some ({[ "4.12.5" := info0 ]}, None) /\
  fst <$> getAllResources r0 "MachineConfig" "config.openshift.io/v1" "" "" start
  = Some ([], Some (notFound "MachineConfig")) /\
  fst <$> getOCPVersions r0 [watch "MachineConfig" "" "{.status.desired.image}"] start
  = Some (∅, None).
Proof. repeat split; vm_compute; reflexivity. Qed.

(** After a pass that applied every state unit, [Reconcile] stores an
    empty list with [Complete]; the next pass applies every unit again. *)
Lemma updateLoop_second_pass_applies_again :
  exists resource s1 s2,
    updateLoop r0 (srm0 "good" ∅) [info0] start = Some ((resource, None), s1) /\
    Status_Versions resource !! "4.12.5"
    = Some {| ReconciledTemplates := []; Complete := true |} /\
    runNames r0 (calls s1) = ["10-a"; "20-b"; "30-c"] /\
    updateLoop r0 resource [info0] s1 = Some ((resource, None), s2) /\
    runNames r0 (calls s2) = ["10-a"; "20-b"; "30-c"; "10-a"; "20-b"; "30-c"].
Proof.
  exists (srm0 "good" {[ "4.12.5" := completeStatus ]}),
    (@Build_State r0 tt (goodPass (srm0 "good" {[ "4.12.5" := completeStatus ]}))),
    (@Build_State r0 tt (goodPass (srm0 "good" {[ "4.12.5" := completeStatus ]})
                           ++ goodPass (srm0 "good" {[ "4.12.5" := completeStatus ]}))).
  repeat split; vm_compute; reflexivity.
Qed.
End controllers_checks.

Module upgrade_cluster_checks.
Import exit upgrade upgrade_examples upgrade_cluster upgrade_cluster_examples
  upgrade_cluster_facts.

Lemma NodeVersionInfo_missing_label_witness :
  NodeVersionInfo [rhcosNode "4.18.0-305.el8.x86_64" "8.4";
                   bareNode "4.18.0-348.el8.x86_64";
                   fedoraNode "5.17.5-300.fc36.x86_64"]
  = Some (∅, Some (errorString
       "Label feature.node.kubernetes.io/system-os_release.VERSION_ID not found is NFD running? Check node labels")).
Proof.
  apply (NodeVersionInfo_missing_label [rhcosNode "4.18.0-305.el8.x86_64" "8.4"]
           [fedoraNode "5.17.5-300.fc36.x86_64"] (bareNode "4.18.0-348.el8.x86_64")).
  - reflexivity.
  - right. reflexivity.
Defined.

Lemma NodeVersionInfo_empty_rhel_label_panics_witness :
  NodeVersionInfo [fedoraNode "5.17.5-300.fc36.x86_64"; rhcosNode "4.18.0-305.el8.x86_64" ""]
  = None.
Proof.
  apply (NodeVersionInfo_empty_rhel_label_panics [fedoraNode "5.17.5-300.fc36.x86_64"] []
           (rhcosNode "4.18.0-305.el8.x86_64" "")).
  - reflexivity.
  - exists "4.18.0-305.el8.x86_64". reflexivity.
  - exists "4.9". reflexivity.
  - reflexivity.
Defined.

Lemma NodeVersionInfo_keys_last_node_wins_witness :
  exists info,
    NodeVersionInfo [rhcosNode "4.18.0-305.el8.x86_64" "8.4";
                     fedoraNode "5.17.5-300.fc36.x86_64";
                     rhcosNode "4.18.0-305.el8.x86_64" "8.5"]
    = Some (info, None) /\
    (is_Some (info !! "4.18.0-348.el8.x86_64") -> False) /\
    info !! "4.18.0-305.el8.x86_64"
    = Some {| OSVersion := "8.5"; OSMajor := "rhel8"; OSMajorMinor := "rhel8.5";
              ClusterVersion := "4.9"; DriverToolkit := registry.zero |}.
Proof.
  destruct (NodeVersionInfo_keys_last_node_wins
              [rhcosNode "4.18.0-305.el8.x86_64" "8.4";
               fedoraNode "5.17.5-300.fc36.x86_64";
               rhcosNode "4.18.0-305.el8.x86_64" "8.5"] eq_refl)
    as (info & Hinfo & Hkeys & Hlast).
  exists info. split; [exact Hinfo|]. split.
  - intros Hk. apply Hkeys in Hk as (labels & Hin & Hl).
    repeat (apply elem_of_cons in Hin as [-> | Hin]; [vm_compute in Hl; discriminate Hl|]).
    apply elem_of_nil in Hin. destruct Hin.
  - apply (Hlast [rhcosNode "4.18.0-305.el8.x86_64" "8.4";
                  fedoraNode "5.17.5-300.fc36.x86_64"]
             (rhcosNode "4.18.0-305.el8.x86_64" "8.5") []); [reflexivity | reflexivity |].
    intros later Hin. apply elem_of_nil in Hin. destruct Hin.
Defined.

Lemma NodeVersionInfo_records_well_formed_witness :
  String.prefix "fedora36" "fedora36." = true /\
  HasSuffix "fedora36." "36." = true /\
  registry.zero = registry.zero.
Proof.
  apply (NodeVersionInfo_records_well_formed
           [rhcosNode "4.18.0-305.el8.x86_64" "8.4"; fedoraNode "5.17.5-300.fc36.x86_64"]
           (foldl store ∅ [rhcosNode "4.18.0-305.el8.x86_64" "8.4";
                           fedoraNode "5.17.5-300.fc36.x86_64"])
           None "5.17.5-300.fc36.x86_64"
           {| OSVersion := "36."; OSMajor := "fedora36"; OSMajorMinor := "fedora36.";
              ClusterVersion := "36"; DriverToolkit := registry.zero |});
    reflexivity.
Defined.

Lemma UpdateInfo_keeps_keys_witness :
  exists info',
    UpdateInfo "amd64" info84 (dtk "8.4") "quay.io/x/dtk@sha256:bbb" = Returned (info', None) /\
    dom info' = dom info84 /\
    exists key nv,
      info' !! key = Some nv /\
      registry.ImageURL (DriverToolkit nv) = "quay.io/x/dtk@sha256:bbb" /\
      OSVersion nv = "8.4".
Proof.
  eexists. split; [reflexivity|].
  apply (UpdateInfo_keeps_keys "amd64" info84 _ (dtk "8.4") "quay.io/x/dtk@sha256:bbb").
  reflexivity.
Defined.

Lemma DriverToolkitVersion_no_layer_witness :
  DriverToolkitVersion "amd64" (c0 []) ["quay.io/gone/release:4.9.0"; "quay.io/gone/release:4.9.1"]
    info84 (start [])
  = Returned ((info84, None),
              @Build_State (c0 []) tt [CallLastLayer "quay.io/gone/release:4.9.0";
                                       CallLastLayer "quay.io/gone/release:4.9.1"]).
Proof.
  apply (DriverToolkitVersion_no_layer "amd64" (c0 [])
           ["quay.io/gone/release:4.9.0"; "quay.io/gone/release:4.9.1"] info84 (start [])).
  apply skipped_cons; [reflexivity|].
  apply skipped_cons; [reflexivity|].
  apply skipped_nil.
Defined.

Lemma DriverToolkitVersion_first_layer_decides_witness :
  DriverToolkitVersion "amd64" (c0 [])
    ["quay.io/gone/release:4.9.2"; "quay.io/release:4.9.1"; "quay.io/release:4.9.0"]
    info84 (start [])
  = DriverToolkitVersion "amd64" (c0 [])
      ["quay.io/gone/release:4.9.2"; "quay.io/release:4.9.1"] info84 (start []).
Proof.
  apply (DriverToolkitVersion_first_layer_decides "amd64" (c0 [])
           ["quay.io/gone/release:4.9.2"] ["quay.io/release:4.9.0"] []
           "quay.io/release:4.9.1" info84 (start [])
           (@Build_State (c0 []) tt [CallLastLayer "quay.io/gone/release:4.9.2"])).
  - apply skipped_cons; [reflexivity|]. apply skipped_nil.
  - reflexivity.
Defined.

Lemma DriverToolkitVersion_release_without_toolkit_witness :
  DriverToolkitVersion "amd64" (c0 [])
    ["quay.io/gone/release:4.9.2"; "quay.io/release:4.9.0"; "quay.io/release:4.9.1"]
    info84 (start [])
  = Returned ((info84, None),
              @Build_State (c0 []) tt
                [CallLastLayer "quay.io/gone/release:4.9.2";
                 CallLastLayer "quay.io/release:4.9.0";
                 @CallReleaseManifests (c0 []) (Some "quay.io/release:4.9.0")]).
Proof.
  apply (DriverToolkitVersion_release_without_toolkit "amd64" (c0 [])
           ["quay.io/gone/release:4.9.2"] ["quay.io/release:4.9.1"]
           "quay.io/release:4.9.0" "4.9.0" info84 (start [])
           (@Build_State (c0 []) tt [CallLastLayer "quay.io/gone/release:4.9.2"])).
  - apply skipped_cons; [reflexivity|]. apply skipped_nil.
  - reflexivity.
  - reflexivity.
  - discriminate.
Defined.

End upgrade_cluster_checks.

Module filter_checks.
Import filter filter_examples filter_facts.

Lemma NotOwned_owner_references_only_witness :
  NotOwned (meta [] 1 "100") = true /\ NotOwned (meta ownerRefs 1 "100") = false.
Proof.
  split.
  - destruct (NotOwned (meta [] 1 "100")) eqn:E; [reflexivity|].
    apply (proj1 (NotOwned_owner_references_only _)) in E as (ref & Hin & _).
    by apply elem_of_nil in Hin.
  - apply (proj1 (NotOwned_owner_references_only _)). exists {| Kind := "SpecialResource" |}.
    split; [|reflexivity]. apply elem_of_cons. right. apply elem_of_cons. by left.
Defined.

Lemma Predicate_owned_object_witness :
  CreateFunc Predicate
    {| Create_Meta := meta ownerRefs 2 "101"; Create_Object := daemonSet |}
  = (false, "CREATE") /\
  DeleteFunc Predicate
    {| Delete_Meta := meta ownerRefs 2 "101"; Delete_Object := daemonSet |}
  = (true, "DELETE") /\
  GenericFunc Predicate
    {| Generic_Meta := meta ownerRefs 2 "101"; Generic_Object := daemonSet |}
  = (true, "GENERIC") /\
  UpdateFunc Predicate
    {| MetaOld := meta ownerRefs 1 "100"; ObjectOld := daemonSet;
       MetaNew := meta ownerRefs 2 "101"; ObjectNew := daemonSet |}
  = (true, "UPDATE").
Proof.
  apply (Predicate_owned_object daemonSet (meta ownerRefs 2 "101") (meta ownerRefs 1 "100")
           daemonSet {| Kind := "SpecialResource" |}).
  - apply elem_of_cons. right. apply elem_of_cons. by left.
  - reflexivity.
  - reflexivity.
  - reflexivity.
  - discriminate.
  - discriminate.
Defined.
End filter_checks.

Module preflight_api_checks.
Import preflight_api preflight_api_examples preflight_api_facts.

Lemma daemonSetPreflightCheck_newest_toolkit_layer_decides_witness :
  preflight.daemonSetPreflightCheck p1 (preflight_examples.daemonSet "quay.io/x/driver:1")
    "5.14.0-70.el9.x86_64" (@preflight.Build_State p1 tt [])
  = ((false, None),
     @preflight.Build_State p1 tt
       [ preflight.CallGetLayersDigests "quay.io/x/driver:1";
         preflight.CallGetLayerByDigest "quay.io/x/driver" "sha256:3";
         @preflight.CallExtractToolkitRelease p1 "sha256:3";
         preflight.CallGetLayerByDigest "quay.io/x/driver" "sha256:2";
         @preflight.CallExtractToolkitRelease p1 "sha256:2" ]).
Proof.
  apply (daemonSetPreflightCheck_newest_toolkit_layer_decides p1
           (preflight_examples.daemonSet "quay.io/x/driver:1") "5.14.0-70.el9.x86_64"
           (@preflight.Build_State p1 tt [])
           (@preflight.Build_State p1 tt [preflight.CallGetLayersDigests "quay.io/x/driver:1"])
           (@preflight.Build_State p1 tt
              [ preflight.CallGetLayersDigests "quay.io/x/driver:1";
                preflight.CallGetLayerByDigest "quay.io/x/driver" "sha256:3";
                @preflight.CallExtractToolkitRelease p1 "sha256:3" ])
           (@preflight.Build_State p1 tt
              [ preflight.CallGetLayersDigests "quay.io/x/driver:1";
                preflight.CallGetLayerByDigest "quay.io/x/driver" "sha256:3";
                @preflight.CallExtractToolkitRelease p1 "sha256:3";
                preflight.CallGetLayerByDigest "quay.io/x/driver" "sha256:2" ])
           _
           (fst (preflight_examples.convert (preflight_examples.daemonSet "quay.io/x/driver:1")))
           {| preflight.Name := "driver"; preflight.Image := "quay.io/x/driver:1" |}
           [ {| preflight.Name := "sidecar"; preflight.Image := "quay.io/x/sidecar:1" |} ]
           "quay.io/x/driver" tt ["sha256:1"] ["sha256:3"] "sha256:2" "sha256:2"
           {| registry.ImageURL := "";
              registry.KernelFullVersion := "4.18.0-305.el8.x86_64";
              registry.RTKernelFullVersion := "";
              registry.OSVersion := "8.4" |}).
  - reflexivity.
  - reflexivity.
  - reflexivity.
  - eapply blank_cons; [reflexivity | reflexivity | apply blank_nil].
  - reflexivity.
  - reflexivity.
Defined.

Lemma daemonSetPreflightCheck_no_toolkit_layer_witness :
  preflight.daemonSetPreflightCheck p1 (preflight_examples.daemonSet "quay.io/x/plain:1")
    "4.18.0-305.el8.x86_64" (@preflight.Build_State p1 tt [])
  = ((false, None),
     @preflight.Build_State p1 tt
       [ preflight.CallGetLayersDigests "quay.io/x/plain:1";
         preflight.CallGetLayerByDigest "quay.io/x/plain" "sha256:b";
         @preflight.CallExtractToolkitRelease p1 "sha256:b";
         preflight.CallGetLayerByDigest "quay.io/x/plain" "sha256:a";
         @preflight.CallExtractToolkitRelease p1 "sha256:a" ]).
Proof.
  apply (daemonSetPreflightCheck_no_toolkit_layer p1
           (preflight_examples.daemonSet "quay.io/x/plain:1") "4.18.0-305.el8.x86_64"
           (@preflight.Build_State p1 tt [])
           (@preflight.Build_State p1 tt [preflight.CallGetLayersDigests "quay.io/x/plain:1"])
           _
           (fst (preflight_examples.convert (preflight_examples.daemonSet "quay.io/x/plain:1")))
           {| preflight.Name := "driver"; preflight.Image := "quay.io/x/plain:1" |}
           [ {| preflight.Name := "sidecar"; preflight.Image := "quay.io/x/sidecar:1" |} ]
           "quay.io/x/plain" tt ["sha256:a"; "sha256:b"]).
  - reflexivity.
  - reflexivity.
  - reflexivity.
  - eapply blank_cons; [reflexivity | reflexivity |].
    eapply blank_cons; [reflexivity | reflexivity | apply blank_nil].
Defined.

Lemma PreflightUpgradeCheck_alert_witness :
  alerts a0 (snd (PreflightUpgradeCheck a0 (sr "no-such-chart") (runInfo0 ∅) start)) = [].
Proof.
  apply (PreflightUpgradeCheck_alert a0 (sr "no-such-chart") (runInfo0 ∅) start).
Defined.

Lemma PreflightUpgradeCheck_runInfo_witness :
  let runInfo' :=
    snd (fst (PreflightUpgradeCheck a0 (sr "daemonset-missing") (runInfo0 ∅) start)) in
  OperatingSystemMajor runInfo' = "" /\ OperatingSystemMajorMinor runInfo' = "" /\
  OperatingSystemDecimal runInfo' = "" /\ ClusterVersionMajorMinor runInfo' = "" /\
  DriverToolkitImage runInfo' = "".
Proof.
  apply (PreflightUpgradeCheck_runInfo a0 (sr "daemonset-missing") (runInfo0 ∅) start);
    reflexivity.
Defined.

Lemma PreflightUpgradeCheck_buildconfig_clears_alert_witness :
  PreflightUpgradeCheck a0 (sr "buildconfig,daemonset") (runInfo0 upgrade_examples.info84) start
  = ((None,
      withNodeVersion a0
        (withSpecialResource a0 (runInfo0 upgrade_examples.info84) (sr "buildconfig,daemonset"))
        upgrade_examples.node84),
     @Build_State a0 tt
       [ @CallLoad a0 "buildconfig,daemonset";
         @CallGetHelmOutput a0
           {| controllers.Chart_Metadata := tt;
              controllers.Chart_Templates :=
                [ {| controllers.File_Name := "buildconfig,daemonset";
                     controllers.File_Data := "" |} ];
              controllers.Chart_Values := "4.18.0-305.el8.x86_64" |}
           "4.18.0-305.el8.x86_64" "simple-kmod";
         CallSetUpgradeAlert "simple-kmod" 0 ]).
Proof.
  apply (PreflightUpgradeCheck_buildconfig_clears_alert a0 (sr "buildconfig,daemonset")
           (runInfo0 upgrade_examples.info84) start
           (@Build_State a0 tt [@CallLoad a0 "buildconfig,daemonset"])
           (@Build_State a0 tt
              [ @CallLoad a0 "buildconfig,daemonset";
                @CallGetHelmOutput a0
                  {| controllers.Chart_Metadata := tt;
                     controllers.Chart_Templates :=
                       [ {| controllers.File_Name := "buildconfig,daemonset";
                            controllers.File_Data := "" |} ];
                     controllers.Chart_Values := "4.18.0-305.el8.x86_64" |}
                  "4.18.0-305.el8.x86_64" "simple-kmod" ])
           (fst (fst (load "buildconfig,daemonset" tt)))
           "buildconfig,daemonset"
           (withNodeVersion a0
              (withSpecialResource a0 (runInfo0 upgrade_examples.info84)
                 (sr "buildconfig,daemonset"))
              upgrade_examples.node84)
           [preflight_examples.buildConfig; preflight_examples.daemonSet "quay.io/x/driver:1"]
           preflight_examples.buildConfig);
    reflexivity.
Defined.

Lemma PreflightUpgradeCheck_unreachable_image_raises_alert_witness :
  fst (fst (PreflightUpgradeCheck a0 (sr "daemonset-missing") (runInfo0 ∅) start)) = None /\
  alerts a0 (snd (PreflightUpgradeCheck a0 (sr "daemonset-missing") (runInfo0 ∅) start))
  = [("simple-kmod", 1%Z)].
Proof.
  rewrite (PreflightUpgradeCheck_unreachable_image_raises_alert a0 (sr "daemonset-missing")
             (runInfo0 ∅) start
             (@Build_State a0 tt [@CallLoad a0 "daemonset-missing"])
             (@Build_State a0 tt
                [ @CallLoad a0 "daemonset-missing";
                  @CallGetHelmOutput a0
                    {| controllers.Chart_Metadata := tt;
                       controllers.Chart_Templates :=
                         [ {| controllers.File_Name := "daemonset-missing";
                              controllers.File_Data := "" |} ];
                       controllers.Chart_Values := "4.18.0-305.el8.x86_64" |}
                    "4.18.0-305.el8.x86_64" "simple-kmod" ])
             (fst (fst (load "daemonset-missing" tt)))
             "daemonset-missing"
             (withNodeVersion a0 (withSpecialResource a0 (runInfo0 ∅) (sr "daemonset-missing"))
                zeroNodeVersion)
             [preflight_examples.daemonSet "quay.io/x/missing:1"]
             (preflight_examples.daemonSet "quay.io/x/missing:1")
             (fst (preflight_examples.convert
                     (preflight_examples.daemonSet "quay.io/x/missing:1")))
             {| preflight.Name := "driver"; preflight.Image := "quay.io/x/missing:1" |}
             [ {| preflight.Name := "sidecar"; preflight.Image := "quay.io/x/sidecar:1" |} ]
             "" [] tt (errorString "unreachable") tt); try reflexivity.
  split; reflexivity.
Defined.

Lemma getKernelFullVersion_toolkit_reference_witness :
  fst (getKernelFullVersion a0 "quay.io/release:no-toolkit" start)
  = ("", Some (errorString "Failed to find the DTK image data in the release")).
Proof.
  apply (proj2 (getKernelFullVersion_toolkit_reference a0 "quay.io/release:no-toolkit" start)
           "quay.io/release:no-toolkit" tt tt); reflexivity.
Defined.

Lemma PrepareRuntimeInfo_result_witness :
  exists layer1 layer2 imageURL,
    imageURL <> "" /\
    events (snd (PrepareRuntimeInfo a0 "quay.io/release:4.9.1" start))
    = [ CallInitRuntimeInfo; CallLastLayer "quay.io/release:4.9.1";
        CallReleaseImageMachineOSConfig layer1; CallLastLayer "quay.io/release:4.9.1";
        CallReleaseManifests layer2; CallGetDTKData imageURL;
        CallVersion; CallOSImageURL ].
Proof.
  eapply (PrepareRuntimeInfo_result a0 "quay.io/release:4.9.1" start); reflexivity.
Defined.
End preflight_api_checks.

Module controllers_run_checks.
Import controllers controllers_examples controllers_run controllers_run_examples
  controllers_run_facts.

Lemma MatchString_alphabet_witness :
  Contains "4.12.0-rc.1+build.7" "@" = false /\ Contains "4.12.0-rc.1+build.7" ":" = false.
Proof. apply (MatchString_alphabet "4.12.0-rc.1+build.7"). reflexivity. Defined.

Lemma FindSRM_first_check :
  FindSRM items0 "unwatchable" = (2%Z, true) /\
  FindSRM (items0 ++ items0) "unwatchable" = (2%Z, true) /\
  FindSRM items0 "absent" = ((-1)%Z, false).
Proof. repeat split; reflexivity. Qed.

Lemma filterResources_union_witness :
  filterResources r0
    [selector "{.metadata.labels.tier}" "gold" false;
     selector "{.metadata.labels.zone}" "west" true]
    [nodeA; nodeB; nodeC]
  = ([nodeA; nodeC; nodeA; nodeB], None).
Proof.
  apply (filterResources_union r0
           [selector "{.metadata.labels.tier}" "gold" false;
            selector "{.metadata.labels.zone}" "west" true]
           [nodeA; nodeB; nodeC]).
  repeat constructor.
Defined.

Lemma getImageFromVersion_success_witness :
  isEmpty "quay.io/x/release@sha256:ccc" = false /\
  [ @CallDo r0 (graphURL "fast" "4" "12"); @CallDo r0 (graphURL "stable" "4" "12");
    @CallDo r0 (graphURL "candidate" "4" "12") ]
  = [] ++ channelCalls r0 "4.12.5".
Proof.
  apply (getImageFromVersion_success r0 "4.12.5" "quay.io/x/release@sha256:ccc"
           controllers_examples.start
           (@controllers.Build_State r0 tt
              [ @CallDo r0 (graphURL "fast" "4" "12"); @CallDo r0 (graphURL "stable" "4" "12");
                @CallDo r0 (graphURL "candidate" "4" "12") ]));
    vm_compute; reflexivity.
Defined.

Lemma getImageFromVersion_failing_channel_witness :
  getImageFromVersion r0 "4.13.1" controllers_examples.start
  = Some (("", Some (statusCodeError 404)),
          @controllers.Build_State r0 tt [@CallDo r0 (graphURL "fast" "4" "13")]).
Proof.
  apply (proj1 (getImageFromVersion_failing_channel r0 "4.13.1" controllers_examples.start
                  eq_refl) []).
  vm_compute. reflexivity.
Defined.

Lemma getOCPVersions_entries_witness :
  @None error = None /\
  ClusterVersion info0 = "4.12.5" /\
  exists l,
    [ @CallList r0 "ClusterVersion" "config.openshift.io/v1";
      @CallLastLayer r0 "quay.io/x/release@sha256:aaa";
      @CallReleaseManifests r0 "quay.io/x/release@sha256:aaa";
      @CallLastLayer r0 "quay.io/x/dtk@sha256:bbb";
      @CallExtractToolkitRelease r0 "quay.io/x/dtk@sha256:bbb" ] = [] ++ l /\
    @CallLastLayer r0 (OSImage info0) ∈ l /\ @CallLastLayer r0 (DTKImage info0) ∈ l.
Proof.
  apply (getOCPVersions_entries r0 [watch "ClusterVersion" "" "{.status.desired.image}"]
           controllers_examples.start
           (@controllers.Build_State r0 tt
              [ @CallList r0 "ClusterVersion" "config.openshift.io/v1";
                @CallLastLayer r0 "quay.io/x/release@sha256:aaa";
                @CallReleaseManifests r0 "quay.io/x/release@sha256:aaa";
                @CallLastLayer r0 "quay.io/x/dtk@sha256:bbb";
                @CallExtractToolkitRelease r0 "quay.io/x/dtk@sha256:bbb" ])
           {[ "4.12.5" := info0 ]} None "4.12.5" info0).
  - vm_compute. reflexivity.
  - vm_compute. reflexivity.
Defined.

(** The three steps of a pass over the bundle [good] that is supplied no
    name. *)
Lemma goodPass_applied (versions : gmap string SpecialResourceModuleVersionStatus) :
  applied r0 (srm0 "good" versions) (getMetadata r0 (srm0 "good" versions) info0)
    {| Chart_Metadata := tt; Chart_Templates := [file "configmap.yaml"]; Chart_Values := tt |}
    [file "10-a"; file "20-b"; file "30-c"]
    (@controllers.Build_State r0 tt [@CallLoad r0 "good"])
    (@controllers.Build_State r0 tt
       [ @CallLoad r0 "good"; @CallRun r0 (goodStep "10-a") tt;
         @CallRun r0 (goodStep "20-b") tt; @CallRun r0 (goodStep "30-c") tt ]).
Proof.
  apply (applied_cons r0 _ _ _ _ _ _
           (@controllers.Build_State r0 tt
              [@CallLoad r0 "good"; @CallRun r0 (goodStep "10-a") tt]));
    [reflexivity|].
  apply (applied_cons r0 _ _ _ _ _ _
           (@controllers.Build_State r0 tt
              [@CallLoad r0 "good"; @CallRun r0 (goodStep "10-a") tt;
               @CallRun r0 (goodStep "20-b") tt]));
    [reflexivity|].
  apply (applied_cons r0 _ _ _ _ _ _
           (@controllers.Build_State r0 tt
              [@CallLoad r0 "good"; @CallRun r0 (goodStep "10-a") tt;
               @CallRun r0 (goodStep "20-b") tt; @CallRun r0 (goodStep "30-c") tt]));
    [reflexivity|].
  apply applied_nil.
Qed.

Lemma updateLoop_complete_status_applies_again_witness :
  updateLoop r0 (srm0 "good" {[ "4.12.5" := completeStatus ]}) [info0] controllers_examples.start
  = Some ((srm0 "good" {[ "4.12.5" := completeStatus ]}, None),
          @controllers.Build_State r0 tt
            (goodPass (srm0 "good" {[ "4.12.5" := completeStatus ]}))) /\
  runNames r0 (goodPass (srm0 "good" {[ "4.12.5" := completeStatus ]}))
  = ["10-a"; "20-b"; "30-c"].
Proof.
  destruct (updateLoop_complete_status_applies_again r0
              (srm0 "good" {[ "4.12.5" := completeStatus ]}) info0 []
              controllers_examples.start
              (@controllers.Build_State r0 tt
                 [ @CallLoad r0 "good"; @CallRun r0 (goodStep "10-a") tt;
                   @CallRun r0 (goodStep "20-b") tt; @CallRun r0 (goodStep "30-c") tt ])
              {| Chart_Metadata := tt;
                 Chart_Templates := [file "20-b"; file "configmap.yaml"; file "10-a";
                                     file "30-c"];
                 Chart_Values := tt |} tt tt) as [_ H].
  destruct H as (Hloop & Hruns & _ & _).
  - vm_compute. reflexivity.
  - reflexivity.
  - exact (goodPass_applied {[ "4.12.5" := completeStatus ]}).
  - reflexivity.
  - split.
    + rewrite Hloop. vm_compute. reflexivity.
    + vm_compute in Hruns. vm_compute. exact Hruns.
Defined.

(** Through [Reconcile].  A module with no status is reconciled: its three
    state units are applied and the status stored for the version lists no
    unit and is complete.  A module that has this status is reconciled
    next: the version stands twice in the list of the versions to update,
    once for the status and once for the cluster, and its three state units
    are applied twice; the status stored at the end is the one it had. *)
Lemma Reconcile_complete_status_applies_again :
  (fun x => (fst x, runNames r0 (innerCalls m0 (events (snd x))), last (events (snd x))))
    <$> Reconcile m0 "simple-kmod" start
  = Some (None, ["10-a"; "20-b"; "30-c"],
          Some (@Inner m0 (@CallStatusUpdate r0
                         (srm1 "simple-kmod" {[ "4.12.5" := completeStatus ]})))) /\
  Item_Module <$> items0 !! 3%nat
  = Some (srm1 "complete-kmod" {[ "4.12.5" := completeStatus ]}) /\
  (fun x => (fst x, runNames r0 (innerCalls m0 (events (snd x))), last (events (snd x))))
    <$> Reconcile m0 "complete-kmod" start
  = Some (None, ["10-a"; "20-b"; "30-c"; "10-a"; "20-b"; "30-c"],
          Some (@Inner m0 (@CallStatusUpdate r0
                         (srm1 "complete-kmod" {[ "4.12.5" := completeStatus ]})))).
Proof. repeat split; vm_compute; reflexivity. Qed.

Lemma updateLoop_persists_then_fails_witness :
  updateLoop r0 (srm0 "flaky" ∅) [info0; info0] controllers_examples.start
  = Some ((recorded r0 (srm0 "flaky" ∅) info0 ["10-a"], Some (errorString "apply failed")),
          @controllers.Build_State r0 tt
            [ @CallLoad r0 "flaky"; @CallRun r0 (goodStep "10-a") tt;
              @CallRun r0 {| Chart_Metadata := tt;
                             Chart_Templates :=
                               [ file "configmap.yaml";
                                 {| File_Name := "20-b"; File_Data := "invalid" |} ];
                             Chart_Values := tt |} tt;
              @CallStatusUpdate r0 (recorded r0 (srm0 "flaky" ∅) info0 ["10-a"]) ]) /\
  Status_Versions (recorded r0 (srm0 "flaky" ∅) info0 ["10-a"]) !! "4.12.5"
  = Some {| ReconciledTemplates := ["10-a"]; Complete := false |}.
Proof.
  apply (updateLoop_persists_then_fails r0 (srm0 "flaky" ∅) info0 [info0]
           controllers_examples.start
           (@controllers.Build_State r0 tt
              [ @CallLoad r0 "flaky"; @CallRun r0 (goodStep "10-a") tt;
                @CallRun r0 {| Chart_Metadata := tt;
                               Chart_Templates :=
                                 [ file "configmap.yaml";
                                   {| File_Name := "20-b"; File_Data := "invalid" |} ];
                               Chart_Values := tt |} tt ])
           ["10-a"] (Some (errorString "apply failed")) None tt).
  - vm_compute. reflexivity.
  - reflexivity.
  - right. exists (errorString "apply failed"). reflexivity.
Defined.

Lemma updateLoop_load_failure_marks_complete_witness :
  updateLoop r0 (srm0 "no-such-chart" ∅) [info0] controllers_examples.start
  = Some ((recorded r0 (srm0 "no-such-chart" ∅) info0 [],
           Some (errorString "chart not found")),
          @controllers.Build_State r0 tt
            [ @CallLoad r0 "no-such-chart";
              @CallStatusUpdate r0 (recorded r0 (srm0 "no-such-chart" ∅) info0 []) ]) /\
  Status_Versions (recorded r0 (srm0 "no-such-chart" ∅) info0 []) !! "4.12.5"
  = Some {| ReconciledTemplates := []; Complete := true |}.
Proof.
  apply (updateLoop_load_failure_marks_complete r0 (srm0 "no-such-chart" ∅) info0 []
           controllers_examples.start
           {| Chart_Metadata := tt; Chart_Templates := []; Chart_Values := tt |}
           (errorString "chart not found") tt tt None).
  - vm_compute. reflexivity.
  - reflexivity.
Defined.

Lemma Reconcile_early_exits_witness :
  Reconcile m0 "old-kmod" start = Some (None, @Build_State m0 tt [CallListModules]) /\
  Reconcile m0 "unwatchable" start
  = Some (Some (errorString "cannot watch"),
          @Build_State m0 tt
            [CallListModules; @CallReconcileWatches m0 (srm1 "unwatchable" ∅)]).
Proof.
  split.
  - apply (proj2 (proj2 (Reconcile_early_exits m0 "old-kmod" start))
             [] {| Item_Module := srm1 "old-kmod" ∅; DeletionTimestamp := Some 1667210000%Z |}
             [ {| Item_Module := srm1 "simple-kmod" ∅; DeletionTimestamp := None |};
               {| Item_Module := srm1 "unwatchable" ∅; DeletionTimestamp := None |};
               {| Item_Module := srm1 "complete-kmod" {[ "4.12.5" := completeStatus ]};
                  DeletionTimestamp := None |} ]).
    + reflexivity.
    + reflexivity.
    + constructor.
    + reflexivity.
    + exists 1667210000%Z. reflexivity.
  - apply (proj2 (proj2 (Reconcile_early_exits m0 "unwatchable" start))
             [ {| Item_Module := srm1 "old-kmod" ∅; DeletionTimestamp := Some 1667210000%Z |};
               {| Item_Module := srm1 "simple-kmod" ∅; DeletionTimestamp := None |} ]
             {| Item_Module := srm1 "unwatchable" ∅; DeletionTimestamp := None |}
             [ {| Item_Module := srm1 "complete-kmod" {[ "4.12.5" := completeStatus ]};
                  DeletionTimestamp := None |} ]).
    + reflexivity.
    + reflexivity.
    + repeat constructor; discriminate.
    + reflexivity.
    + reflexivity.
    + reflexivity.
Defined.

End controllers_run_checks.
